(** * livsmart_kardex: the inventory consolidation script, embedded and verified

    The development follows [main.py] function by function.  Python values
    are modelled as data, the two libraries the script drives (pandas and
    openpyxl) as small executable models of exactly the operations the
    script calls, and the operating system (platform name, host name, file
    system) as explicit parameters. *)

From Stdlib Require Import ZArith Ascii DecimalString DecimalZ DecimalPos.
From stdpp Require Import gmap strings list fin_maps.


(** ** Python strings

    A [string] is read as a sequence of characters: [String.length] is
    Python's [len], one [ascii] per character. *)
Module PyStr.

(** [c.upper()] on one character.  Only the letters a..z change; no other
    character upper-cases to a letter of "OPL", "E" or "MOBU", which are
    the only strings the script compares an upper-cased key with. *)
Definition upper_char (c : ascii) : ascii :=
  let n := nat_of_ascii c in
  if (97 <=? n)%nat && (n <=? 122)%nat then ascii_of_nat (n - 32) else c.

(** [s.upper()] *)
Fixpoint upper (s : string) : string :=
  match s with
  | EmptyString => EmptyString
  | String c s' => String (upper_char c) (upper s')
  end.

(** [s.startswith(p)] *)
Fixpoint startswith (s p : string) {struct p} : bool :=
  match p, s with
  | EmptyString, _ => true
  | String _ _, EmptyString => false
  | String a p', String b s' => Ascii.eqb a b && startswith s' p'
  end.

(** [s.endswith(suf)]: [s] is [suf], or the tail of [s] ends with it. *)
Fixpoint endswith (s suf : string) : bool :=
  String.eqb s suf ||
  match s with
  | EmptyString => false
  | String _ s' => endswith s' suf
  end.

(** [sub in s]: [sub] occurs somewhere in [s]. *)
Fixpoint contains (s sub : string) : bool :=
  startswith s sub ||
  match s with
  | EmptyString => false
  | String _ s' => contains s' sub
  end.

(** The scan of [s.replace(old, new)] for a non-empty [old]: left to
    right, every non-overlapping occurrence of [old] is replaced.  [skip]
    counts the characters of a matched occurrence still to be dropped. *)
Fixpoint replace_scan (old new : string) (skip : nat) (s : string) : string :=
  match s with
  | EmptyString => EmptyString
  | String c s' =>
      match skip with
      | S k => replace_scan old new k s'
      | O =>
          if startswith s old
          then new +:+ replace_scan old new (String.length old - 1) s'
          else String c (replace_scan old new 0 s')
      end
  end.

(** With an empty [old] Python puts [new] before every character and at
    the end. *)
Fixpoint intersperse (new s : string) : string :=
  match s with
  | EmptyString => new
  | String c s' => new +:+ String c (intersperse new s')
  end.

(** [s.replace(old, new)] *)
Definition replace (s old new : string) : string :=
  match old with
  | EmptyString => intersperse new s
  | String _ _ => replace_scan old new 0 s
  end.

(** [str(z)] for a Python int: its decimal numeral. *)
Definition str_of_int (z : Z) : string :=
  NilZero.string_of_int (Z.to_int z).

End PyStr.

(** ** Python floats, as far as an integer reaches them

    pandas stores the numbers of a column that has a missing cell as
    float64.  An int64 that moves to such a column becomes the nearest
    double; this is that conversion and the text Python prints for the
    result. *)
Module PyFloat.

(** The double nearest to the integer [z], ties to the even mantissa: the
    value of [float(z)], an integer again.  Doubles have 53 bits. *)
Definition of_int (z : Z) : Z :=
  let a := Z.abs z in
  if (a <? 2 ^ 53)%Z then z
  else
    let e := (Z.log2 a - 52)%Z in
    let q := (a / 2 ^ e)%Z in
    let r := (a mod 2 ^ e)%Z in
    let half := (2 ^ (e - 1))%Z in
    let q := if (half <? r)%Z || ((r =? half)%Z && Z.odd q) then (q + 1)%Z else q in
    (Z.sgn z * (q * 2 ^ e))%Z.

(** Whether the decimal [y] reads back as the double [a] (positive, at
    least 2^53): it lies within half a unit in the last place, the bounds
    included when the mantissa of [a] is even. *)
Definition reads_back (a y : Z) : bool :=
  let e := (Z.log2 a - 52)%Z in
  let m := (a / 2 ^ e)%Z in
  let up := (2 ^ (e - 1))%Z in
  let down := if (m =? 2 ^ 52)%Z then (2 ^ (e - 2))%Z else (2 ^ (e - 1))%Z in
  if Z.even m then ((a - down <=? y) && (y <=? a + up))%Z
  else ((a - down <? y) && (y <? a + up))%Z.

(** The multiple of 10^j nearest to [a] that reads back as [a], if any. *)
Definition shortest_at (a : Z) (j : Z) : option Z :=
  let p := (10 ^ j)%Z in
  let lo := (a / p * p)%Z in
  let hi := (lo + p)%Z in
  match reads_back a lo, reads_back a hi with
  | true, true => Some (if (a - lo <=? hi - a)%Z then lo else hi)
  | true, false => Some lo
  | false, true => Some hi
  | false, false => None
  end.

(** The shortest decimal that reads back as [a]: the one with the most
    trailing zeros, found from 10^19 down. *)
Fixpoint shortest (a : Z) (j : nat) : Z * Z :=
  match shortest_at a (Z.of_nat j) with
  | Some y => (y, Z.of_nat j)
  | None => match j with O => (a, 0%Z) | S j' => shortest a j' end
  end.

Fixpoint strip_zeros (n : nat) (y : Z) : Z :=
  match n with
  | O => y
  | S n' => if ((y mod 10 =? 0) && negb (y =? 0))%Z then strip_zeros n' (y / 10)%Z else y
  end.

(** [repr(x)] for a double [x] that is an integer: positional with ".0"
    below 10^16, and from there on the shortest digits that read back as
    [x], with an exponent. *)
Definition repr_int (x : Z) : string :=
  let a := Z.abs x in
  let sign := if (x <? 0)%Z then "-" else "" in
  if (a <? 10 ^ 16)%Z then sign +:+ PyStr.str_of_int a +:+ ".0"
  else
    let '(y, _) := shortest a 19 in
    let digits := PyStr.str_of_int (strip_zeros 20 y) in
    let exponent := PyStr.str_of_int (Z.of_nat (String.length (PyStr.str_of_int y)) - 1) in
    match digits with
    | String d EmptyString => sign +:+ String d "e+" +:+ exponent
    | String d rest => sign +:+ String d ("." +:+ rest) +:+ "e+" +:+ exponent
    | EmptyString => sign
    end.

Definition is_digit (c : ascii) : bool :=
  let n := nat_of_ascii c in (48 <=? n)%nat && (n <=? 57)%nat.

(** Drops the digits a text starts with; [None] when it starts with none. *)
Fixpoint drop_digits (s : string) : string :=
  match s with
  | String c s' => if is_digit c then drop_digits s' else s
  | EmptyString => EmptyString
  end.

Definition digits_then (s : string) : option string :=
  match s with
  | String c _ => if is_digit c then Some (drop_digits s) else None
  | EmptyString => None
  end.

Definition is_exponent (s : string) : bool :=
  match s with
  | String "e" (String sign s') =>
      (Ascii.eqb sign "+" || Ascii.eqb sign "-")
      && match digits_then s' with Some EmptyString => true | _ => false end
  | _ => false
  end%char.

(** Whether a text is what Python prints for a float: nan, inf, -inf,
    digits with a fraction, or digits with an exponent. *)
Definition is_numeral (text : string) : bool :=
  if String.eqb text "nan" || String.eqb text "inf" || String.eqb text "-inf" then true
  else
    let s := match text with String "-"%char s' => s' | _ => text end in
    match digits_then s with
    | Some (String "."%char s') =>
        match digits_then s' with
        | Some EmptyString => true
        | Some rest => is_exponent rest
        | None => false
        end
    | Some rest => is_exponent rest
    | None => false
    end.

End PyFloat.

(** ** The platform the script runs on

    [os_name] is [os.name]; [hostname] is what [socket.gethostname()]
    returns. *)
Record platform := Platform { os_name : string; hostname : string }.

(** ** Utility functions *)

Definition get_clean_hostname (p : platform) : string :=
  let hostname := hostname p in
  if PyStr.endswith hostname ".local"
  then PyStr.replace hostname ".local" ""
  else hostname.

Definition get_base_output_path (p : platform) : option string :=
  if String.eqb (os_name p) "nt" then Some "C:\Users\josemaria\Downloads"
  else
    let hostname := get_clean_hostname p in
    if String.eqb hostname "JM-MBP" then Some "/Users/j.m./Downloads"
    else if String.eqb hostname "JM-MS" then Some "/Users/jm/Downloads"
    else None.

Definition get_base_path (p : platform) (warehouse : string) : option string :=
  if String.eqb (os_name p) "nt" then
    if String.eqb (PyStr.upper warehouse) "OPL" then
      Some "\\192.168.10.18\Bodega General\LIVSMART\BODEGA OPL\STOCK ACTUALIZADO - OPL"
    else if String.eqb (PyStr.upper warehouse) "E" then
      Some "\\192.168.10.18\Bodega General\LIVSMART\BODEGA E\STOCK ACTUALIZADO - BODEGA E"
    else if String.eqb (PyStr.upper warehouse) "MOBU" then
      Some "\\192.168.10.18\Bodega General\LIVSMART\BODEGAS MOBU\STOCK ACTUALIZADO - MOBU"
    else None
  else
    if String.eqb (PyStr.upper warehouse) "OPL" then
      Some "/Volumes/Bodega General/LIVSMART/BODEGA OPL/STOCK ACTUALIZADO - OPL/"
    else if String.eqb (PyStr.upper warehouse) "E" then
      Some "/Volumes/Bodega General/LIVSMART/BODEGA E/STOCK ACTUALIZADO - BODEGA E/"
    else if String.eqb (PyStr.upper warehouse) "MOBU" then
      Some "/Volumes/Bodega General/LIVSMART/BODEGAS MOBU/STOCK ACTUALIZADO - MOBU/"
    else None.

(** ** Python values held by the cells of a table or of a worksheet *)
Inductive pyvalue :=
| VNone                                   (* None: an empty cell *)
| VStr (s : string)                       (* str *)
| VInt (z : Z)                            (* int *)
| VBool (b : bool)                        (* bool *)
| VOther (truth : bool) (text : string).  (* any other object (float,
     datetime, ...), described by the two things the script observes of
     it: its truth value and its [str()] *)

#[global] Instance pyvalue_eq_dec : EqDecision pyvalue.
Proof. solve_decision. Defined.

Module PyVal.

(** [if v:] *)
Definition truthy (v : pyvalue) : bool :=
  match v with
  | VNone => false
  | VStr s => negb (String.eqb s "")
  | VInt z => negb (z =? 0)%Z
  | VBool b => b
  | VOther t _ => t
  end.

(** [str(v)] *)
Definition str (v : pyvalue) : string :=
  match v with
  | VNone => "None"
  | VStr s => s
  | VInt z => PyStr.str_of_int z
  | VBool b => if b then "True" else "False"
  | VOther _ text => text
  end.

(** [isinstance(v, str)] *)
Definition is_str (v : pyvalue) : bool :=
  match v with VStr _ => true | _ => false end.

(** [v is not None] *)
Definition is_not_None (v : pyvalue) : bool :=
  match v with VNone => false | _ => true end.

(** [v == "literal"] *)
Definition eq_str (v : pyvalue) (lit : string) : bool :=
  match v with VStr s => String.eqb s lit | _ => false end.

(** [not name] for the result of [dict.get]: [None] or the empty string. *)
Definition not_name (name : option string) : bool :=
  match name with None => true | Some s => String.eqb s "" end.

End PyVal.

(** ** Exceptions

    A call either returns a value or raises an exception, kept as the text
    of [str(e)]. *)
Inductive outcome (A : Type) :=
| Returned (a : A)
| Raised (e : string).
Arguments Returned {A} a.
Arguments Raised {A} e.

(** ** pandas: the DataFrame operations the script calls

    A DataFrame is its row index and its columns, each a label with the
    values of that column, in column order.  [pd.read_excel] returns
    frames whose labels are distinct; a frame built by other means may
    repeat a label.  A column has the dtype pandas infers from the values
    it holds, as [pd.read_excel] does. *)
Module Pandas.

Record DataFrame := mkDataFrame {
  index : list pyvalue;
  data : list (string * list pyvalue)
}.

#[global] Instance DataFrame_eq_dec : EqDecision DataFrame.
Proof. solve_decision. Defined.

(** [float('nan')], the filler of missing cells: truthy, printed "nan". *)
Definition NaN : pyvalue := VOther true "nan".

(** [df.columns] *)
Definition columns (df : DataFrame) : list string := (data df).*1.

(** [len(df)] *)
Definition nrows (df : DataFrame) : nat := length (index df).

(** [df[name]]: the values of the column labelled [name]. *)
Fixpoint lookup_column (name : string) (cols : list (string * list pyvalue))
  : option (list pyvalue) :=
  match cols with
  | [] => None
  | (n, vs) :: cols' => if String.eqb n name then Some vs else lookup_column name cols'
  end.

Definition get_column (df : DataFrame) (name : string) : option (list pyvalue) :=
  lookup_column name (data df).

(** The values row [i] holds under the label [name]. *)
Definition row_values (df : DataFrame) (i : nat) (name : string) : list pyvalue :=
  omap (λ c : string * list pyvalue,
          if String.eqb c.1 name then c.2 !! i else None) (data df).

(** [df[name] = v] with a scalar [v]: the column is overwritten on every
    row when the label exists, and appended as the last column when it
    does not.  The index and the other columns are untouched. *)
Definition setitem (name : string) (v : pyvalue) (df : DataFrame) : DataFrame :=
  let col := replicate (nrows df) v in
  if bool_decide (name ∈ columns df)
  then {| index := index df;
          data := (λ c : string * list pyvalue,
                     if String.eqb c.1 name then (c.1, col) else c) <$> data df |}
  else {| index := index df; data := data df ++ [(name, col)] |}.

(** Labels in order of first appearance. *)
Fixpoint first_seen (seen l : list string) : list string :=
  match l with
  | [] => []
  | x :: l' =>
      if bool_decide (x ∈ seen) then first_seen seen l'
      else x :: first_seen (x :: seen) l'
  end.

(** The columns of frames aligned by label: the union of theirs. *)
Definition union_columns (dfs : list DataFrame) : list string :=
  first_seen [] (dfs ≫= columns).

(** *** dtypes

    [object] stands for every dtype that is not a number's: object itself,
    bool, datetime64.  A float is told from another object by its text, the
    one thing the model keeps of it.  Missing cells are filled with NaN, as
    pandas fills them in columns of numbers, texts and booleans; in a column
    of dates it fills them with NaT, which the properties of merged columns
    leave aside by asking for plain values. *)
Inductive dtype := int64 | float64 | object.

#[global] Instance dtype_eq_dec : EqDecision dtype.
Proof. solve_decision. Defined.

Definition is_int64 (v : pyvalue) : bool :=
  match v with
  | VInt z => ((- 2 ^ 63 <=? z) && (z <? 2 ^ 63))%Z
  | _ => false
  end.

Definition is_float64 (v : pyvalue) : bool :=
  match v with
  | VOther _ text => PyFloat.is_numeral text
  | _ => false
  end.

(** The dtype of a column holding [vs]; a column without rows is object,
    as in a frame read from a sheet that has only its header. *)
Definition dtype_of (vs : list pyvalue) : dtype :=
  match vs with
  | [] => object
  | _ :: _ =>
      if forallb is_int64 vs then int64
      else if forallb is_float64 vs then float64
      else object
  end.

(** [numpy.float64(z)]: the double nearest to [z], with the truth value
    and the text of a float. *)
Definition float64_of_int (z : Z) : pyvalue :=
  let x := PyFloat.of_int z in
  VOther (negb (x =? 0)%Z) (PyFloat.repr_int x).

(** What one frame contributes to a column of a concatenation: the cells
    of its column, or as many missing cells as it has rows when it has no
    such column. *)
Inductive block :=
| Cells (vs : list pyvalue)
| Missing (rows : nat).

Definition block_of (name : string) (df : DataFrame) : block :=
  match get_column df name with
  | Some vs => Cells vs
  | None => Missing (nrows df)
  end.

(** The same for the column at position [j], for frames whose columns are
    the same list. *)
Definition block_at (j : nat) (df : DataFrame) : block :=
  match data df !! j with
  | Some c => Cells c.2
  | None => Missing (nrows df)
  end.

(** The dtype of the stacked column: int64 where every frame brings
    integers, float64 where every frame brings numbers or nothing (a
    missing cell is NaN, which an int64 column cannot hold), and object
    otherwise. *)
Definition common_dtype (blocks : list block) : dtype :=
  if forallb (λ b, match b with
                   | Cells vs => bool_decide (dtype_of vs = int64)
                   | Missing _ => false
                   end) blocks then int64
  else if forallb (λ b, match b with
                        | Cells vs => bool_decide (dtype_of vs ≠ object)
                        | Missing _ => true
                        end) blocks then float64
  else object.

(** A cell moved to a column of dtype [d]: an integer that moves to a
    float64 column becomes a float; nothing else changes. *)
Definition astype (d : dtype) (v : pyvalue) : pyvalue :=
  match d, v with
  | float64, VInt z => float64_of_int z
  | _, _ => v
  end.

(** The cells of a block, NaN where they are missing. *)
Definition block_cells (b : block) : list pyvalue :=
  match b with
  | Cells vs => vs
  | Missing rows => replicate rows NaN
  end.

(** The blocks stacked in order, converted to their common dtype. *)
Definition stack (blocks : list block) : list pyvalue :=
  astype (common_dtype blocks) <$> (blocks ≫= block_cells).

(** [pd.concat(dfs, ignore_index=True)]: rows stacked in list order under
    a fresh index 0..n-1.  Frames with distinct labels are aligned by
    label: the columns are the union of theirs in order of first
    appearance.  Frames that repeat a label are stacked as they are when
    all have the same column list, and cannot be aligned otherwise:
    pandas raises InvalidIndexError.  An empty list is a ValueError. *)
Definition concat (dfs : list DataFrame) : outcome DataFrame :=
  match dfs with
  | [] => Raised "No objects to concatenate"
  | df :: _ =>
      let index := (λ i : nat, VInt (Z.of_nat i)) <$> seq 0 (sum_list (nrows <$> dfs)) in
      if bool_decide (Forall (λ df', NoDup (columns df')) dfs) then
        Returned {| index := index;
                    data := (λ name : string, (name, stack (block_of name <$> dfs)))
                              <$> union_columns dfs |}
      else if bool_decide (Forall (λ df', columns df' = columns df) dfs) then
        Returned {| index := index;
                    data := imap (λ j c, (c.1, stack (block_at j <$> dfs))) (data df) |}
      else Raised "Reindexing only valid with uniquely valued Index objects"
  end.

End Pandas.
Import Pandas.

(** ** Printing

    A computation of the script prints lines and then returns or raises. *)
Definition io (A : Type) : Type := list string * outcome A.

Module IO.

Definition ret {A} (a : A) : io A := ([], Returned a).

Definition bind {A B} (m : io A) (k : A → io B) : io B :=
  match m with
  | (out, Returned a) => let '(out', r) := k a in (out ++ out', r)
  | (out, Raised e) => (out, Raised e)
  end.

(** [print(line)] *)
Definition print (line : string) : io unit := ([line], Returned tt).

(** A library call that prints nothing itself. *)
Definition call {A} (r : outcome A) : io A := ([], r).

(** [try: body / except Exception as e: handler(e)] *)
Definition try_except {A} (body : io A) (handler : string → io A) : io A :=
  match body with
  | (out, Raised e) => let '(out', r) := handler e in (out ++ out', r)
  | (out, Returned a) => (out, Returned a)
  end.

(** A [for] loop threading the loop's variables through the body. *)
Fixpoint for_each {A S} (body : S → A → io S) (s : S) (l : list A) : io S :=
  match l with
  | [] => ret s
  | x :: l' => bind (body s x) (λ s', for_each body s' l')
  end.

End IO.

Notation "x ←! m ;; k" := (IO.bind m (λ x, k))
  (at level 100, m at next level, right associativity, only parsing).
Notation "m ;;! k" := (IO.bind m (λ _, k))
  (at level 100, right associativity, only parsing).

Definition nl : string := String (ascii_of_nat 10) "".

(** ** The file system and the spreadsheet parser, as the script sees them *)
Record world := World {
  plat : platform;
  path_exists : string → bool;                   (* os.path.exists *)
  pd_read_excel : string → outcome DataFrame;    (* pd.read_excel(path, engine='openpyxl') *)
  os_listdir : string → outcome (list string)    (* os.listdir *)
}.

(** [os.path.join(a, b)] for a second component that is a plain file name
    (no drive, no leading separator on Windows), as every name of
    [inventory_files] is. *)
Definition os_path_join (p : platform) (a b : string) : string :=
  if String.eqb (os_name p) "nt" then
    if String.eqb a "" || PyStr.endswith a "\" || PyStr.endswith a "/" || PyStr.endswith a ":"
    then a +:+ b else a +:+ "\" +:+ b
  else
    if PyStr.startswith b "/" then b
    else if String.eqb a "" || PyStr.endswith a "/" then a +:+ b
    else a +:+ "/" +:+ b.

Definition read_excel_file (w : world) (file_path : string) : io (option DataFrame) :=
  if path_exists w file_path then
    IO.try_except
      (df ←! IO.call (pd_read_excel w file_path) ;;
       IO.print ("Successfully loaded: " +:+ file_path) ;;!
       IO.ret (Some df))
      (λ e,
       IO.print ("Error reading " +:+ file_path +:+ ": " +:+ e) ;;!
       IO.ret None)
  else
    IO.print ("File not found: " +:+ file_path) ;;!
    IO.ret None.

Definition list_directory_contents (w : world) (warehouse : string) : io unit :=
  match get_base_path (plat w) warehouse with
  | None =>
      IO.print ("Could not determine base path for warehouse: " +:+ warehouse)
  | Some base_path =>
      IO.print (nl +:+ "--- Listing contents for warehouse " +:+ warehouse +:+ " ---") ;;!
      IO.try_except
        (files ←! IO.call (os_listdir w base_path) ;;
         IO.for_each (λ _ f, IO.print f) tt files)
        (λ e, IO.print ("Error listing directory " +:+ base_path +:+ ": " +:+ e))
  end.

(** ** Inventory Processing Function *)

(** A dict in insertion order; [d[k] = v] overwrites in place or appends. *)
Fixpoint dict_set {V} (d : list (string * V)) (k : string) (v : V) : list (string * V) :=
  match d with
  | [] => [(k, v)]
  | (k', v') :: d' =>
      if String.eqb k' k then (k', v) :: d' else (k', v') :: dict_set d' k v
  end.

Definition inventory_files : gmap string (gmap string string) :=
  list_to_map [
    ("LATA", list_to_map [
        ("OPL", "INVENTARIO LATA VACIA 2025 BODOPL.xlsx");
        ("E", "INVENTARIO LATA VACIA 2025 BODE.xlsx");
        ("MOBU", "INVENTARIO LATA VACIA 2025 MOBU.xlsx")]);
    ("PREFORMA", list_to_map [
        ("OPL", "INVENTARIO DE PREFORMA 2025 BODOPL.xlsx");
        ("E", "INVENTARIO DE PREFORMA 2025 BODE.xlsx");
        ("MOBU", "INVENTARIO DE PREFORMA 2025 BODMOBU.xlsx")]);
    ("PT", list_to_map [
        ("OPL", "INVENTARIO DE PT.XLSX");
        ("E", "INVENTARIO DE PT.XLSX");
        ("MOBU", "INVENTARIO DE PT.XLSX")])
  ].

Definition warehouses : list string := ["OPL"; "E"; "MOBU"].

(** The body of [for warehouse in warehouses]; a [continue] returns
    [results] as it is. *)
Definition process_step (w : world) (inventory_type : string)
    (files : gmap string string)
    (results : list (string * DataFrame)) (warehouse : string)
    : io (list (string * DataFrame)) :=
  match get_base_path (plat w) warehouse with
  | None =>
      IO.print ("Could not determine base path for warehouse: " +:+ warehouse) ;;!
      IO.ret results
  | Some base_path =>
      list_directory_contents w warehouse ;;!
      let file_name := files !! warehouse in
      if PyVal.not_name file_name then
        IO.print ("No filename defined for " +:+ inventory_type +:+
                  " in warehouse " +:+ warehouse +:+ ".") ;;!
        IO.ret results
      else
        let file_path := os_path_join (plat w) base_path (default "" file_name) in
        IO.print (nl +:+ "Looking for file: " +:+ file_path) ;;!
        df ←! read_excel_file w file_path ;;
        match df with
        | Some df => IO.ret (dict_set results warehouse df)
        | None =>
            IO.print ("Skipping " +:+ warehouse +:+ " for " +:+ inventory_type +:+
                      " as file could not be loaded.") ;;!
            IO.ret results
        end
  end.

Definition process_inventory (w : world) (inventory_type : string)
    : io (list (string * DataFrame)) :=
  let results := [] in
  match inventory_files !! inventory_type with
  | None =>
      IO.print ("Unknown inventory type: " +:+ inventory_type) ;;!
      IO.ret results
  | Some files =>
      IO.for_each (process_step w inventory_type files) results warehouses
  end.

(** ** The object store

    A Python dict holds references to DataFrame objects, not copies: two
    entries may name the same object, and an assignment through one entry
    is seen through the other.  [ref] is an object identity and a [gmap ref
    DataFrame] the objects alive. *)
Definition ref := nat.

(** [df["Bodega"] = v] on the object [df] refers to. *)
Definition df_setitem (df : ref) (name : string) (v : pyvalue)
    (h : gmap ref DataFrame) : gmap ref DataFrame :=
  alter (setitem name v) df h.

(** ** Merge Inventories Function

    [inventory_dict] is the dict's items in iteration (insertion) order. *)

(** One turn of the [for warehouse, df in inventory_dict.items()] loop. *)
Definition merge_step (st : gmap ref DataFrame * list ref) (item : string * ref)
    : gmap ref DataFrame * list ref :=
  let '(h, merged_list) := st in
  let '(warehouse, df) := item in
  let h :=
    if String.eqb (PyStr.upper warehouse) "OPL" then
      df_setitem df "Bodega" (VStr "Bodega OPL") h
    else if String.eqb (PyStr.upper warehouse) "E" then
      df_setitem df "Bodega" (VStr "Bodega E") h
    else if String.eqb (PyStr.upper warehouse) "MOBU" then
      df_setitem df "Bodega" (VStr "Bodegas MOBU") h
    else
      df_setitem df "Bodega" (VStr warehouse) h in
  (h, merged_list ++ [df]).

Definition merge_loop (inventory_dict : list (string * ref))
    (h : gmap ref DataFrame) : gmap ref DataFrame * list ref :=
  foldl merge_step (h, []) inventory_dict.

(** Returns the store as the loop leaves it and what the call gives: the
    merged frame, [None] when [merged_list] is empty, or the exception of
    [pd.concat], which the function does not catch.  [pd.concat] reads the
    objects of [merged_list] as they are after the whole loop. *)
Definition merge_inventories (inventory_dict : list (string * ref))
    (h : gmap ref DataFrame) : gmap ref DataFrame * outcome (option DataFrame) :=
  let '(h, merged_list) := merge_loop inventory_dict h in
  match merged_list with
  | [] => (h, Returned None)
  | _ :: _ =>
      match concat (omap (λ r : ref, h !! r) merged_list) with
      | Returned merged_df => (h, Returned (Some merged_df))
      | Raised e => (h, Raised e)
      end
  end.

(** ** openpyxl: the worksheet operations the script calls

    A worksheet is a grid of cells addressed by row and column number, both
    from 1; asking for a cell always yields one.  A column is named by its
    number, of which openpyxl's column letter is the spelling. *)
Module Openpyxl.

Record Font := mkFont { bold : bool; name : string }.
Record Alignment := mkAlignment { horizontal : string; vertical : string }.
Record PatternFill := mkPatternFill {
  start_color : string; end_color : string; fill_type : string
}.

(** A cell; [fill = None] is a cell without a fill. *)
Record Cell := mkCell {
  value : pyvalue;
  font : Font;
  alignment : option Alignment;
  fill : option PatternFill
}.

Record Worksheet := mkWorksheet {
  max_row : nat;
  max_column : nat;
  cell : nat → nat → Cell;
  column_width : nat → option nat   (* column_dimensions[..].width, when set *)
}.

Definition set_font (f : Font) (c : Cell) : Cell :=
  {| value := value c; font := f; alignment := alignment c; fill := fill c |}.
Definition set_alignment (a : Alignment) (c : Cell) : Cell :=
  {| value := value c; font := font c; alignment := Some a; fill := fill c |}.
Definition set_fill (p : PatternFill) (c : Cell) : Cell :=
  {| value := value c; font := font c; alignment := alignment c; fill := Some p |}.
Definition set_value (v : pyvalue) (c : Cell) : Cell :=
  {| value := v; font := font c; alignment := alignment c; fill := fill c |}.

(** The cell at [(row, col)] is mutated by [f]; every other cell, the
    sheet's dimensions and the column widths stay. *)
Definition update_cell (row col : nat) (f : Cell → Cell) (ws : Worksheet) : Worksheet :=
  {| max_row := max_row ws;
     max_column := max_column ws;
     cell := λ r c, if (r =? row)%nat && (c =? col)%nat then f (cell ws r c) else cell ws r c;
     column_width := column_width ws |}.

(** [ws.column_dimensions[col].width = w] *)
Definition set_width (col w : nat) (ws : Worksheet) : Worksheet :=
  {| max_row := max_row ws;
     max_column := max_column ws;
     cell := cell ws;
     column_width := λ c, if (c =? col)%nat then Some w else column_width ws c |}.

(** [range(a, b)] *)
Definition range (a b : nat) : list nat := seq a (b - a).

(** Coordinates of the cells of [ws[row]], left to right. *)
Definition row_cells (ws : Worksheet) (row : nat) : list (nat * nat) :=
  (λ c, (row, c)) <$> seq 1 (max_column ws).

(** Coordinates of the cells [ws.iter_rows()] yields, row by row. *)
Definition iter_rows (ws : Worksheet) : list (nat * nat) :=
  seq 1 (max_row ws) ≫= row_cells ws.

(** A [for cell in ...] loop whose body mutates the cell it visits. *)
Definition for_cells (ps : list (nat * nat)) (body : Cell → Cell) (ws : Worksheet)
    : Worksheet :=
  foldl (λ ws p, update_cell p.1 p.2 body ws) ws ps.

End Openpyxl.
Import Openpyxl.

(** ** Excel Formatting Function *)

Definition header_font : Font := {| bold := true; name := "Calibri" |}.
Definition minimal_font : Font := {| bold := false; name := "Calibri" |}.

(** The inner loop of the width pass: [max_length] after all cells of
    column [col]. *)
Definition column_max_length (ws : Worksheet) (col : nat) : nat :=
  foldl (λ max_length row,
           let cell := cell ws row col in
           if PyVal.truthy (value cell) then
             let length := String.length (PyVal.str (value cell)) in
             if (max_length <? length)%nat then length else max_length
           else max_length)
        0%nat (seq 1 (max_row ws)).

Definition adjust_column_widths (ws : Worksheet) : Worksheet :=
  foldl (λ ws' col, set_width col (column_max_length ws' col + 2) ws')
        ws (seq 1 (max_column ws)).

(** The header scan: [(bodega_col, codigo_wms_col)]. *)
Definition find_columns (ws : Worksheet) : option nat * option nat :=
  foldl (λ '(bodega_col, codigo_wms_col) col,
           let cell := cell ws 1 col in
           if PyVal.eq_str (value cell) "Bodega" then (Some col, codigo_wms_col)
           else if PyVal.eq_str (value cell) "CODIGO WMS" then (bodega_col, Some col)
           else (bodega_col, codigo_wms_col))
        (None, None) (seq 1 (max_column ws)).

(** The body of the colouring loop. *)
Definition color_bodega_cell (cell : Cell) : Cell :=
  if PyVal.eq_str (value cell) "Bodega OPL" then
    set_fill (mkPatternFill "ADD8E6" "ADD8E6" "solid") cell
  else if PyVal.eq_str (value cell) "Bodega E" then
    set_fill (mkPatternFill "90EE90" "90EE90" "solid") cell
  else if PyVal.eq_str (value cell) "Bodegas MOBU" then
    set_fill (mkPatternFill "FFA07A" "FFA07A" "solid") cell
  else cell.

(** The body of the normalisation loop. *)
Definition stringify_cell (cell : Cell) : Cell :=
  if PyVal.is_not_None (value cell) && negb (PyVal.is_str (value cell))
  then set_value (VStr (PyVal.str (value cell))) cell
  else cell.

(** The header pass: bold font and centred alignment on row 1. *)
Definition format_header_row (ws : Worksheet) : Worksheet :=
  for_cells (row_cells ws 1)
    (λ cell, set_alignment (mkAlignment "center" "center") (set_font header_font cell)) ws.

(** The font pass: the minimalist font on all cells, then the header bold
    again. *)
Definition apply_minimal_font (ws : Worksheet) : Worksheet :=
  let ws := for_cells (iter_rows ws) (set_font minimal_font) ws in
  for_cells (row_cells ws 1) (set_font header_font) ws.

(** [if bodega_col is not None: for row in range(2, ws.max_row + 1): ...] *)
Definition color_bodega_column (bodega_col : option nat) (ws : Worksheet) : Worksheet :=
  match bodega_col with
  | Some bodega_col =>
      for_cells ((λ row, (row, bodega_col)) <$> range 2 (max_row ws + 1))
                color_bodega_cell ws
  | None => ws
  end.

(** [if codigo_wms_col is not None: for row in range(2, ws.max_row + 1): ...] *)
Definition stringify_codigo_wms (codigo_wms_col : option nat) (ws : Worksheet) : Worksheet :=
  match codigo_wms_col with
  | Some codigo_wms_col =>
      for_cells ((λ row, (row, codigo_wms_col)) <$> range 2 (max_row ws + 1))
                stringify_cell ws
  | None => ws
  end.

(** [format_excel_file] on the active sheet of the workbook it loads and
    saves back to the same path. *)
Definition format_excel_file (ws : Worksheet) : Worksheet :=
  let ws := format_header_row ws in
  let ws := adjust_column_widths ws in
  let ws := apply_minimal_font ws in
  let '(bodega_col, codigo_wms_col) := find_columns ws in
  let ws := color_bodega_column bodega_col ws in
  let ws := stringify_codigo_wms codigo_wms_col ws in
  ws.

(** ** Definitions used to state the properties *)

(** The label [merge_inventories] writes for a dict key: the value its
    if/elif chain assigns to the "Bodega" column. *)
Definition bodega_label (warehouse : string) : string :=
  if String.eqb (PyStr.upper warehouse) "OPL" then "Bodega OPL"
  else if String.eqb (PyStr.upper warehouse) "E" then "Bodega E"
  else if String.eqb (PyStr.upper warehouse) "MOBU" then "Bodegas MOBU"
  else warehouse.

(** The fixed label set of the merged table. *)
Definition bodega_labels : list string := ["Bodega OPL"; "Bodega E"; "Bodegas MOBU"].

(** Every column of a frame but those labelled [name], in order. *)
Definition other_columns (name : string) (df : DataFrame) : list (string * list pyvalue) :=
  filter (λ c : string * list pyvalue, c.1 ≠ name) (data df).

(** The path [process_inventory] looks for, when the base path and the
    file name are both defined. *)
Definition resolved_path (w : world) (inventory_type warehouse : string) : option string :=
  match get_base_path (plat w) warehouse, inventory_files !! inventory_type with
  | Some base_path, Some files =>
      if PyVal.not_name (files !! warehouse) then None
      else Some (os_path_join (plat w) base_path (default "" (files !! warehouse)))
  | _, _ => None
  end.

(** The table a path loads as: the file exists and parses. *)
Definition loaded_table (w : world) (file_path : string) : option DataFrame :=
  if path_exists w file_path then
    match pd_read_excel w file_path with
    | Returned df => Some df
    | Raised _ => None
    end
  else None.

(** The table of a warehouse: its path resolves and its file loads. *)
Definition warehouse_table (w : world) (inventory_type warehouse : string)
    : option DataFrame :=
  match resolved_path w inventory_type warehouse with
  | Some file_path => loaded_table w file_path
  | None => None
  end.

(** A freshly loaded sheet holding the given rows of values, row 1 first:
    default font, no alignment, no fill, no width set. *)
Definition blank_cell (v : pyvalue) : Cell :=
  {| value := v; font := {| bold := false; name := "Calibri" |};
     alignment := None; fill := None |}.

Definition sheet_of_rows (rows : list (list pyvalue)) : Worksheet :=
  {| max_row := length rows;
     max_column := max_list (length <$> rows);
     cell := λ r c,
       match rows !! (r - 1)%nat with
       | Some row => match row !! (c - 1)%nat with
                     | Some v => blank_cell v
                     | None => blank_cell VNone
                     end
       | None => blank_cell VNone
       end;
     column_width := λ _, None |}.

(** The rows the data loops visit: [range(2, ws.max_row + 1)]. *)
Definition data_rows (ws : Worksheet) : list nat := range 2 (max_row ws + 1).

(** The width rule in the words of the specification: the longest text of
    a non-empty cell of the column, header included, plus 2.  Non-empty is
    "holds a value", that is, not [None]. *)
Definition spec_longest_text (ws : Worksheet) (col : nat) : nat :=
  max_list ((λ row, String.length (PyVal.str (value (cell ws row col))))
              <$> filter (λ row, value (cell ws row col) ≠ VNone) (seq 1 (max_row ws))).

Definition spec_column_width (ws : Worksheet) (col : nat) : nat :=
  spec_longest_text ws col + 2.

(** The store after the tagging loop alone: every entry's object gets its
    "Bodega" column set, in dict order. *)
Definition tagged_store (d : list (string * ref)) (h : gmap ref DataFrame)
    : gmap ref DataFrame :=
  foldl (λ h item, alter (setitem "Bodega" (VStr (bodega_label item.1))) item.2 h) h d.

(** The tables a dict names, in dict order. *)
Definition tables_of (d : list (string * ref)) (h : gmap ref DataFrame) : list DataFrame :=
  omap (λ r : ref, h !! r) d.*2.

(** A cell as the merged table keeps it: the value itself, or for an
    integer the float nearest to it. *)
Definition carried (v v' : pyvalue) : Prop :=
  v' = v ∨ ∃ z, v = VInt z ∧ v' = float64_of_int z.

(** A value a sheet's numbers and texts load as: empty, a string, an
    integer, a boolean or a float, and no other object (a date). *)
Definition plain (v : pyvalue) : Prop :=
  match v with
  | VOther _ _ => is_float64 v = true
  | _ => True
  end.

(** What a table brings to a column of the merged table before any
    conversion: its cells under that label, or NaN on each of its rows when
    it has no such column. *)
Definition column_or_NaN (name : string) (t : DataFrame) : list pyvalue :=
  block_cells (block_of name t).

(** [t'] is [t] tagged in place with [label]: same rows, the "Bodega"
    column holding [label] on every row (overwritten where [t] had one,
    appended last where it had none), every other column as it was. *)
Definition tagged_from (label : string) (t t' : DataFrame) : Prop :=
  index t' = index t ∧
  get_column t' "Bodega" = Some (replicate (nrows t) (VStr label)) ∧
  other_columns "Bodega" t' = other_columns "Bodega" t ∧
  columns t' = if bool_decide ("Bodega" ∈ columns t) then columns t
               else columns t ++ ["Bodega"].

(** The cleaned host name in the words of the specification: one trailing
    ".local" removed when present, nothing else touched. *)
Definition spec_clean_hostname (hostname : string) : string :=
  if PyStr.endswith hostname ".local"
  then String.substring 0 (String.length hostname - String.length ".local") hostname
  else hostname.

(** The three fills of the colouring pass, by their colour names. *)
Definition light_blue : PatternFill := mkPatternFill "ADD8E6" "ADD8E6" "solid".
Definition light_green : PatternFill := mkPatternFill "90EE90" "90EE90" "solid".
Definition light_salmon : PatternFill := mkPatternFill "FFA07A" "FFA07A" "solid".

(** What a loop that overwrites a variable at every match leaves in it:
    the last element of [l] that satisfies [P], if any. *)
Definition last_match (P : nat → bool) (l : list nat) : option nat :=
  foldl (λ found c, if P c then Some c else found) None l.

(** The value of the header cell of a column. *)
Definition header (ws : Worksheet) (col : nat) : pyvalue := value (cell ws 1 col).

(** Tagging with the label of a dict key. *)
Abbreviation tag w := (setitem "Bodega" (VStr (bodega_label w))).

(** ** Sample inputs *)

Definition sample_opl : DataFrame :=
  {| index := [VInt 0; VInt 1];
     data := [("CODIGO WMS", [VInt 401; VStr "007"]);
              ("LOTE", [VStr "L-1"; VNone])] |}.

Definition sample_mobu : DataFrame :=
  {| index := [VInt 0; VInt 1; VInt 2];
     data := [("CODIGO WMS", [VInt 7; VInt 8; VInt 9]);
              ("Bodega", [VStr "old"; VNone; VNone]);
              ("SALDO", [VInt 10; VInt 0; VInt 3])] |}.

(** A table that repeats a label, which [pd.read_excel] never returns but
    a caller of [merge_inventories] can build. *)
Definition sample_repeated : DataFrame :=
  {| index := [VInt 0];
     data := [("A", [VInt 1]); ("A", [VInt 2])] |}.

Definition sample_store : gmap ref DataFrame :=
  <[0 := sample_opl]> (<[1 := sample_mobu]> ∅).

Definition sample_dict : list (string * ref) := [("OPL", 0); ("MOBU", 1)].

Definition sample_base_E : string :=
  "/Volumes/Bodega General/LIVSMART/BODEGA E/STOCK ACTUALIZADO - BODEGA E/".

(** A machine on which the file of warehouse E is missing, every other
    path exists and parses, and no directory can be listed. *)
Definition sample_world : world :=
  {| plat := Platform "posix" "JM-MS.local";
     path_exists := λ p, negb (PyStr.startswith p sample_base_E);
     pd_read_excel := λ p, Returned sample_opl;
     os_listdir := λ p, Raised "not mounted" |}.

(** The same machine under a host name the script does not know: no
    output directory. *)
Definition sample_world_unknown_host : world :=
  {| plat := Platform "posix" "build-7";
     path_exists := λ p, negb (PyStr.startswith p sample_base_E);
     pd_read_excel := λ p, Returned sample_opl;
     os_listdir := λ p, Raised "not mounted" |}.

(** A machine on which every file exists and none parses. *)
Definition sample_world_corrupt : world :=
  {| plat := Platform "nt" "PC";
     path_exists := λ p, true;
     pd_read_excel := λ p, Raised "File is not a zip file";
     os_listdir := λ p, Returned [] |}.

Definition sample_sheet : Worksheet :=
  sheet_of_rows [[VStr "CODIGO WMS"; VStr "SALDO"; VStr "Bodega"];
                 [VInt 401; VInt 10; VStr "Bodega OPL"];
                 [VStr "007"; VNone; VStr "Bodega E"];
                 [VNone; VInt 3; VStr "Bodegas MOBU"];
                 [VInt 9; VInt 0; VStr "otra"]].

Definition sample_sheet_plain : Worksheet :=
  sheet_of_rows [[VStr "SKU"; VStr "SALDO"]; [VInt 401; VInt 10]].

(** ** The rest of the script: the interactive entry point

    What follows models [main] and what it needs beyond the functions
    above: [str.strip], the prompt, the clock, and the three workbook
    operations around [format_excel_file]. *)

Module PyText.

(** [c.isspace()] for a character below 256: tab to carriage return, the
    four separators 28..31, space, next-line and no-break space. *)
Definition isspace (c : ascii) : bool :=
  let n := nat_of_ascii c in
  ((9 <=? n)%nat && (n <=? 13)%nat) || ((28 <=? n)%nat && (n <=? 32)%nat)
  || (n =? 133)%nat || (n =? 160)%nat.

(** [s.lstrip()] *)
Fixpoint lstrip (s : string) : string :=
  match s with
  | EmptyString => EmptyString
  | String c s' => if isspace c then lstrip s' else s
  end.

(** [s.rstrip()] *)
Fixpoint rstrip (s : string) : string :=
  match s with
  | EmptyString => EmptyString
  | String c s' =>
      match rstrip s' with
      | EmptyString => if isspace c then EmptyString else String c EmptyString
      | r => String c r
      end
  end.

(** [s.strip()] *)
Definition strip (s : string) : string := rstrip (lstrip s).

(** A string of whitespace only. *)
Fixpoint all_space (s : string) : bool :=
  match s with
  | EmptyString => true
  | String c s' => isspace c && all_space s'
  end.

End PyText.

(** What a run of the script does to the outside, in order: a line
    printed, the prompt of [input], a table written by [to_excel], a
    workbook saved. *)
Inductive event :=
| Print (line : string)
| Prompt (text : string)
| ToExcel (path : string) (df : DataFrame)
| Save (path : string) (ws : Worksheet).

Definition run (A : Type) : Type := list event * outcome A.

Module Run.

Definition ret {A} (a : A) : run A := ([], Returned a).

Definition bind {A B} (m : run A) (k : A → run B) : run B :=
  match m with
  | (tr, Returned a) => let '(tr', r) := k a in (tr ++ tr', r)
  | (tr, Raised e) => (tr, Raised e)
  end.

Definition print (line : string) : run unit := ([Print line], Returned tt).

(** Something shown or done that cannot fail. *)
Definition emit (ev : event) : run unit := ([ev], Returned tt).

(** An effect that shows as [ev] when it succeeds and as nothing but its
    exception when it raises. *)
Definition effect {A} (ev : event) (r : outcome A) : run A :=
  match r with
  | Returned a => ([ev], Returned a)
  | Raised e => ([], Raised e)
  end.

(** A library call without a visible effect. *)
Definition call {A} (r : outcome A) : run A := ([], r).

(** A computation that only prints. *)
Definition of_io {A} (m : io A) : run A := (Print <$> m.1, m.2).

Fixpoint for_each {A S} (body : S → A → run S) (s : S) (l : list A) : run S :=
  match l with
  | [] => ret s
  | x :: l' => bind (body s x) (λ s', for_each body s' l')
  end.

End Run.

Notation "x ←? m ;; k" := (Run.bind m (λ x, k))
  (at level 100, m at next level, right associativity, only parsing).
Notation "m ;;? k" := (Run.bind m (λ _, k))
  (at level 100, right associativity, only parsing).

(** One session at the terminal: the machine, the line typed at the
    prompt (or the exception [input] raises), today's date as
    [strftime("%Y%m%d")] gives it, the text [print(df.head())] shows, and
    the workbook operations: [df.to_excel(path, index=False)],
    [load_workbook(path).active] for the file just written, and
    [wb.save(path)]. *)
Record session := Session {
  sys : world;
  stdin_line : outcome string;
  today_str : string;
  head_text : DataFrame → string;
  to_excel : string → DataFrame → outcome unit;
  load_workbook : string → outcome Worksheet;
  wb_save : string → Worksheet → outcome unit
}.

(** [format_excel_file(file_path)] with its file accesses: load, format the
    active sheet, save to the same path. *)
Definition format_excel_file_at (s : session) (file_path : string) : run unit :=
  ws ←? Run.call (load_workbook s file_path) ;;
  let ws := format_excel_file ws in
  Run.effect (Save file_path ws) (wb_save s file_path ws).

(** The objects a dict of tables holds: the i-th value is the object [i],
    and the dict names it under the i-th key. *)
Definition store_results (results : list (string * DataFrame))
    : gmap ref DataFrame * list (string * ref) :=
  (map_seq 0 results.*2, zip results.*1 (seq 0 (length results))).

Definition mapping : gmap string string :=
  list_to_map [("1", "LATA"); ("2", "PREFORMA"); ("3", "PT")].

(** "Opción inválida. Saliendo.", one [ascii] per character. *)
Definition invalid_choice_message : string :=
  "Opci" +:+ String (ascii_of_nat 243) "n inv" +:+ String (ascii_of_nat 225) "lida. Saliendo.".

Definition main (s : session) : run unit :=
  Run.print "=== Inventory Processing System ===" ;;?
  Run.print "Presione el numero del producto del cual desea extraer el inventario:" ;;?
  Run.print (nl +:+ "Lata: (1), Preforma: (2), PT: (3)") ;;?
  Run.emit (Prompt "Producto? ") ;;?
  choice ←? Run.call (stdin_line s) ;;
  let inventory_type := mapping !! PyText.strip choice in
  if PyVal.not_name inventory_type then
    Run.print invalid_choice_message
  else
    let inventory_type := default "" inventory_type in
    Run.print (nl +:+ "--- Processing " +:+ inventory_type +:+ " Inventory ---") ;;?
    results ←? Run.of_io (process_inventory (sys s) inventory_type) ;;
    Run.print (nl +:+ "Inventory processing complete.") ;;?
    match results with
    | _ :: _ =>
        Run.print (nl +:+ "Processed " +:+ inventory_type +:+ " inventory from:") ;;?
        Run.for_each (λ _ wh, Run.print ("  - " +:+ wh)) tt results.*1 ;;?
        Run.print (nl +:+ "--- Merging Inventories ---") ;;?
        let '(h, inventory_dict) := store_results results in
        merged_inventory ←? Run.call (merge_inventories inventory_dict h).2 ;;
        match merged_inventory with
        | Some merged_inventory =>
            Run.print "Merged inventory preview:" ;;?
            Run.print (head_text s merged_inventory) ;;?
            let output_path := get_base_output_path (plat (sys s)) in
            if PyVal.not_name output_path then
              Run.print "Output path not defined; merged inventory not saved to disk."
            else
              let output_file :=
                os_path_join (plat (sys s)) (default "" output_path)
                  ("merged_inventory_" +:+ inventory_type +:+ "_" +:+ today_str s +:+ ".xlsx") in
              Run.effect (ToExcel output_file merged_inventory)
                         (to_excel s output_file merged_inventory) ;;?
              Run.print ("Merged inventory saved to: " +:+ output_file) ;;?
              format_excel_file_at s output_file ;;?
              Run.print "Excel formatting applied."
        | None => Run.print "No merged inventory produced."
        end
    | [] => Run.print "No inventories were processed."
    end.

(** What [main] shows before it reads the choice. *)
Definition banner : list event :=
  [Print "=== Inventory Processing System ===";
   Print "Presione el numero del producto del cual desea extraer el inventario:";
   Print (nl +:+ "Lata: (1), Preforma: (2), PT: (3)");
   Prompt "Producto? "].

(** The merged table of a dict of tables, computed without a store: every
    table tagged with the label of its key, then concatenated. *)
Definition merged_of (results : list (string * DataFrame)) : outcome DataFrame :=
  concat ((λ kv : string * DataFrame,
             setitem "Bodega" (VStr (bodega_label kv.1)) kv.2) <$> results).

(** The name of the output file. *)
Definition output_file_of (s : session) (inventory_type output_path : string) : string :=
  os_path_join (plat (sys s)) output_path
    ("merged_inventory_" +:+ inventory_type +:+ "_" +:+ today_str s +:+ ".xlsx").

(** What [main] shows from the choice to the call of the merger, when the
    collector printed [log] and returned [results]. *)
Definition collected (inventory_type : string) (log : list string)
    (results : list (string * DataFrame)) : list event :=
  banner ++ [Print (nl +:+ "--- Processing " +:+ inventory_type +:+ " Inventory ---")]
  ++ (Print <$> log)
  ++ [Print (nl +:+ "Inventory processing complete.");
      Print (nl +:+ "Processed " +:+ inventory_type +:+ " inventory from:")]
  ++ ((λ wh, Print ("  - " +:+ wh)) <$> results.*1)
  ++ [Print (nl +:+ "--- Merging Inventories ---")].

(** What [main] shows from the choice to the merged preview, when the
    merger returned [merged_df]. *)
Definition progress (s : session) (inventory_type : string) (log : list string)
    (results : list (string * DataFrame)) (merged_df : DataFrame) : list event :=
  collected inventory_type log results
  ++ [Print "Merged inventory preview:";
      Print (head_text s merged_df)].

(** ** More sample inputs *)

Definition sample_session (typed : string) : session :=
  {| sys := sample_world;
     stdin_line := Returned typed;
     today_str := "20250314";
     head_text := λ df, "<preview>";
     to_excel := λ path df, Returned tt;
     load_workbook := λ path, Returned sample_sheet;
     wb_save := λ path ws, Returned tt |}.

(** The rows one dict entry contributes to the merged "Bodega" column: its
    label, once per row of the table it names. *)
Definition bodega_block (h : gmap ref DataFrame) (item : string * ref) : list pyvalue :=
  match h !! item.2 with
  | Some t => replicate (nrows t) (VStr (bodega_label item.1))
  | None => []
  end.


Definition sample_results : list (string * DataFrame) :=
  [("OPL", sample_opl); ("MOBU", sample_opl)].


(** ** Properties *)

(** *** Facts about [df[name] = v] *)

Lemma setitem_index n v df : index (setitem n v df) = index df.
Proof. unfold setitem. by case_bool_decide. Qed.

Lemma setitem_nrows n v df : nrows (setitem n v df) = nrows df.
Proof. unfold nrows. by rewrite setitem_index. Qed.

Lemma lookup_column_overwrite name col cols :
  lookup_column name
    ((λ c : string * list pyvalue, if String.eqb c.1 name then (c.1, col) else c) <$> cols)
  = if bool_decide (name ∈ cols.*1) then Some col else None.
Proof.
  induction cols as [|[n vs] cols IH]; [done|].
  cbn [fmap list_fmap lookup_column fst].
  destruct (String.eqb_spec n name) as [->|Hne].
  - cbn. rewrite String.eqb_refl. rewrite bool_decide_eq_true_2; [done|]. cbn. left.
  - cbn. rewrite (proj2 (String.eqb_neq _ _) Hne).
    rewrite IH. f_equal. erewrite bool_decide_ext; [done|]. rewrite elem_of_cons. intuition congruence.
Qed.

Lemma lookup_column_app name cols cols' :
  lookup_column name (cols ++ cols')
  = match lookup_column name cols with Some vs => Some vs | None => lookup_column name cols' end.
Proof.
  induction cols as [|[n vs] cols IH]; [done|]. cbn.
  by destruct (String.eqb n name).
Qed.

Lemma lookup_column_None name cols :
  lookup_column name cols = None ↔ name ∉ cols.*1.
Proof.
  induction cols as [|[n vs] cols IH]; cbn.
  - split; [intros _; apply not_elem_of_nil | done].
  - rewrite not_elem_of_cons. destruct (String.eqb_spec n name) as [->|Hne].
    + split; [done | intros [? _]; done].
    + rewrite IH. intuition congruence.
Qed.

Lemma get_column_setitem n v df :
  get_column (setitem n v df) n = Some (replicate (nrows df) v).
Proof.
  unfold get_column, setitem. case_bool_decide as Hin; cbn [data].
  - rewrite lookup_column_overwrite. by rewrite bool_decide_eq_true_2.
  - rewrite lookup_column_app.
    rewrite (proj2 (lookup_column_None n (data df))) by done.
    cbn. by rewrite String.eqb_refl.
Qed.

Lemma elem_of_columns_setitem c n v df :
  c ∈ columns (setitem n v df) ↔ c ∈ columns df ∨ c = n.
Proof.
  unfold columns, setitem. case_bool_decide as Hin; cbn [data].
  - rewrite <- list_fmap_compose.
    assert (Heq : (fst ∘ (λ c0 : string * list pyvalue,
                     if String.eqb c0.1 n then (c0.1, replicate (nrows df) v) else c0))
                  <$> data df = (data df).*1).
    { apply list_fmap_ext. intros i [a b] _. cbn. by destruct (String.eqb a n). }
    rewrite Heq. unfold columns in Hin. intuition congruence.
  - rewrite fmap_app, elem_of_app. cbn. rewrite list_elem_of_singleton. done.
Qed.

Lemma other_columns_setitem n v df :
  other_columns n (setitem n v df) = other_columns n df.
Proof.
  unfold other_columns, setitem. case_bool_decide as Hin; cbn [data].
  - induction (data df) as [|[a b] l IH]; [done|].
    cbn [fmap list_fmap fst]. destruct (String.eqb_spec a n) as [->|Hne].
    + rewrite !filter_cons_False by (cbn; intuition congruence). apply IH.
    + rewrite !filter_cons_True by done. f_equal. apply IH.
  - rewrite filter_app. rewrite (filter_cons_False _ (n, _)) by (cbn; intuition congruence).
    rewrite filter_nil. apply app_nil_r.
Qed.

Lemma setitem_setitem n v1 v2 df :
  setitem n v2 (setitem n v1 df) = setitem n v2 df.
Proof.
  assert (Hin' : n ∈ columns (setitem n v1 df)) by (apply elem_of_columns_setitem; by right).
  unfold setitem at 1. rewrite bool_decide_eq_true_2 by done.
  rewrite setitem_index, setitem_nrows.
  unfold setitem. case_bool_decide as Hin; cbn [data index]; f_equal.
  - rewrite <- list_fmap_compose. apply list_fmap_ext. intros i [a b] _. cbn.
    destruct (String.eqb_spec a n) as [->|Hne]; cbn.
    + by rewrite String.eqb_refl.
    + by rewrite (proj2 (String.eqb_neq _ _) Hne).
  - rewrite fmap_app. cbn. rewrite String.eqb_refl. f_equal.
    rewrite <- (list_fmap_id (data df)) at 2.
    apply list_fmap_ext. intros i [a b] Hl. cbn.
    destruct (String.eqb_spec a n) as [->|Hne]; [|done].
    exfalso. apply Hin. unfold columns. apply list_elem_of_fmap. exists (n, b).
    split; [done|]. by eapply list_elem_of_lookup_2.
Qed.



Lemma merge_step_label h ml w r :
  merge_step (h, ml) (w, r) = (alter (tag w) r h, ml ++ [r]).
Proof. unfold merge_step, bodega_label, df_setitem. by repeat case_match. Qed.

Lemma foldl_merge_step d h ml :
  foldl merge_step (h, ml) d = (tagged_store d h, ml ++ d.*2).
Proof.
  revert h ml. induction d as [|[w r] d IH]; intros h ml.
  - cbn. by rewrite app_nil_r.
  - cbn [foldl]. rewrite merge_step_label, IH. cbn. by rewrite <- app_assoc.
Qed.

Lemma merge_loop_eq d h : merge_loop d h = (tagged_store d h, d.*2).
Proof. unfold merge_loop. by rewrite foldl_merge_step. Qed.

Lemma tagged_store_app d1 d2 h :
  tagged_store (d1 ++ d2) h = tagged_store d2 (tagged_store d1 h).
Proof. unfold tagged_store. by rewrite foldl_app. Qed.

Lemma tagged_store_snoc d w r h :
  tagged_store (d ++ [(w, r)]) h = alter (tag w) r (tagged_store d h).
Proof. by rewrite tagged_store_app. Qed.

Lemma tagged_store_notin d h r :
  r ∉ d.*2 → tagged_store d h !! r = h !! r.
Proof.
  revert h. induction d as [|[w r'] d IH]; intros h Hnin; [done|].
  cbn in Hnin. apply not_elem_of_cons in Hnin as [Hne Hnin].
  change (tagged_store ((w, r') :: d) h) with (tagged_store d (alter (tag w) r' h)).
  rewrite IH by done. by rewrite lookup_alter_ne.
Qed.

(** Where a reference occurs in the dict, the object it names ends up tagged
    with the label of the last entry that holds it. *)
Lemma tagged_store_shape d h r :
  ((r ∉ d.*2) ∧ tagged_store d h !! r = h !! r) ∨
  (∃ pre w post, d = pre ++ (w, r) :: post ∧ (r ∉ post.*2) ∧
                 tagged_store d h !! r = tag w <$> h !! r).
Proof.
  induction d as [|[w' r'] d IH] using rev_ind.
  - left. split; [apply not_elem_of_nil | done].
  - rewrite tagged_store_snoc. destruct (decide (r' = r)) as [->|Hne].
    + right. exists d, w', []. split; [done|]. split; [apply not_elem_of_nil|].
      rewrite lookup_alter_eq.
      destruct IH as [[_ ->]|(pre & w & post & _ & _ & ->)]; [done|].
      destruct (h !! r) as [df|]; [|done]. cbn. by rewrite setitem_setitem.
    + rewrite lookup_alter_ne by done.
      destruct IH as [[Hnin ->]|(pre & w & post & -> & Hnin & ->)].
      * left. split; [|done]. rewrite fmap_app, not_elem_of_app. split; [done|].
        cbn. by apply not_elem_of_cons; split; [|apply not_elem_of_nil].
      * right. exists pre, w, (post ++ [(w', r')]). split; [by rewrite <- app_assoc|].
        split; [|done]. rewrite fmap_app, not_elem_of_app. split; [done|].
        cbn. by apply not_elem_of_cons; split; [|apply not_elem_of_nil].
Qed.

Lemma tagged_store_turn pre w r h :
  tagged_store (pre ++ [(w, r)]) h !! r = tag w <$> h !! r.
Proof.
  rewrite tagged_store_snoc, lookup_alter_eq.
  destruct (tagged_store_shape pre h r) as [[_ ->]|(p & w0 & post & _ & _ & ->)]; [done|].
  destruct (h !! r) as [df|]; [|done]. cbn. by rewrite setitem_setitem.
Qed.

Lemma tagged_store_last pre w r post h :
  r ∉ post.*2 → tagged_store (pre ++ (w, r) :: post) h !! r = tag w <$> h !! r.
Proof.
  intros Hnin. rewrite (cons_middle (w, r)), app_assoc, tagged_store_app.
  rewrite tagged_store_notin by done. apply tagged_store_turn.
Qed.

Lemma tagged_store_elem d h r :
  r ∈ d.*2 → ∃ w, w ∈ (d.*1) ∧ tagged_store d h !! r = tag w <$> h !! r.
Proof.
  intros Hin. destruct (tagged_store_shape d h r) as [[Hnin _]|(pre & w & post & -> & _ & Heq)];
    [done|].
  exists w. split; [|done]. rewrite fmap_app, elem_of_app. right. cbn. left.
Qed.

(** *** Facts about [pd.concat] *)

Lemma first_seen_spec seen l :
  NoDup (first_seen seen l) ∧ ∀ x, x ∈ first_seen seen l ↔ x ∈ l ∧ x ∉ seen.
Proof.
  revert seen. induction l as [|a l IH]; intros seen; cbn.
  - split; [constructor|]. intros x. rewrite elem_of_nil. tauto.
  - case_bool_decide as Hin.
    + destruct (IH seen) as [Hnd Hel]. split; [done|]. intros x.
      rewrite Hel, elem_of_cons. split; [tauto|]. intros [[->|Hx] Hs]; tauto.
    + destruct (IH (a :: seen)) as [Hnd Hel]. split.
      * constructor; [|done]. rewrite Hel, elem_of_cons. tauto.
      * intros x. rewrite !elem_of_cons, Hel, elem_of_cons.
        destruct (decide (x = a)) as [->|Hne]; tauto.
Qed.

Lemma NoDup_union_columns dfs : NoDup (union_columns dfs).
Proof. apply first_seen_spec. Qed.

Lemma elem_of_union_columns c dfs :
  c ∈ union_columns dfs ↔ ∃ df, df ∈ dfs ∧ c ∈ columns df.
Proof.
  unfold union_columns. rewrite (proj2 (first_seen_spec [] _)), list_elem_of_bind.
  rewrite elem_of_nil. split; [intros [(df & Hc & Hdf) _]; eauto | intros (df & Hdf & Hc); eauto].
Qed.

Lemma astype_carried d v : carried v (astype d v).
Proof. destruct d, v; cbn; try (by left). right. by eexists. Qed.

Lemma astype_not_int d v : (∀ z, v ≠ VInt z) → astype d v = v.
Proof. intros H. destruct d, v; try done. by destruct (H z). Qed.

Lemma length_stack blocks : length (stack blocks) = length (blocks ≫= block_cells).
Proof. unfold stack. by rewrite length_fmap. Qed.

Lemma stack_carried blocks : Forall2 carried (blocks ≫= block_cells) (stack blocks).
Proof.
  unfold stack. apply Forall2_fmap_r, Forall_Forall2_diag, Forall_forall.
  intros v _. apply astype_carried.
Qed.

(** A column without integers is stacked as it is. *)
Lemma stack_no_int blocks :
  Forall (λ v, ∀ z, v ≠ VInt z) (blocks ≫= block_cells) →
  stack blocks = blocks ≫= block_cells.
Proof.
  intros H. unfold stack. rewrite <- (list_fmap_id (blocks ≫= block_cells)) at 2.
  apply Forall_fmap_ext. eapply Forall_impl; [exact H|].
  intros v Hv. by apply astype_not_int.
Qed.

(** So is a column whose common dtype is not float64. *)
Lemma stack_not_float64 blocks :
  common_dtype blocks ≠ float64 → stack blocks = blocks ≫= block_cells.
Proof.
  intros H. unfold stack. rewrite <- (list_fmap_id (blocks ≫= block_cells)) at 2.
  apply list_fmap_ext. intros i v _. destruct (common_dtype blocks); by destruct v.
Qed.

Lemma get_column_setitem_ne n v df c :
  c ≠ n → get_column (setitem n v df) c = get_column df c.
Proof.
  intros Hne. unfold get_column, setitem. case_bool_decide as Hin; cbn [data].
  - induction (data df) as [|[a vs] l IH]; [done|]. cbn.
    destruct (String.eqb_spec a n) as [->|Hn]; cbn.
    + rewrite (proj2 (String.eqb_neq n c)) by done. apply IH.
    + destruct (String.eqb a c); [done|apply IH].
  - rewrite lookup_column_app. destruct (lookup_column c (data df)); [done|].
    cbn. by rewrite (proj2 (String.eqb_neq n c)).
Qed.

Lemma block_of_setitem n v df :
  block_of n (setitem n v df) = Cells (replicate (nrows df) v).
Proof. unfold block_of. by rewrite get_column_setitem. Qed.

Lemma block_of_setitem_ne n v df c :
  c ≠ n → block_of c (setitem n v df) = block_of c df.
Proof. intros Hne. unfold block_of. by rewrite get_column_setitem_ne, setitem_nrows. Qed.

Lemma columns_setitem n v df :
  columns (setitem n v df)
  = if bool_decide (n ∈ columns df) then columns df else columns df ++ [n].
Proof.
  unfold setitem. destruct (bool_decide (n ∈ columns df)) eqn:E; unfold columns; cbn [data].
  - rewrite <- list_fmap_compose. apply list_fmap_ext. intros i [a b] _. cbn.
    by destruct (String.eqb a n).
  - by rewrite fmap_app.
Qed.

Lemma NoDup_columns_setitem n v df :
  NoDup (columns (setitem n v df)) ↔ NoDup (columns df).
Proof.
  rewrite columns_setitem. case_bool_decide as Hin; [done|].
  rewrite NoDup_app. split; [tauto|]. intros Hnd. split; [done|]. split.
  - intros x Hx Hn. apply list_elem_of_singleton in Hn as ->. done.
  - apply NoDup_singleton.
Qed.

(** Frames with distinct labels are aligned by label. *)
Lemma concat_aligned dfs :
  dfs ≠ [] → Forall (λ df, NoDup (columns df)) dfs →
  concat dfs
  = Returned {| index := (λ i : nat, VInt (Z.of_nat i)) <$> seq 0 (sum_list (nrows <$> dfs));
                data := (λ name : string, (name, stack (block_of name <$> dfs)))
                          <$> union_columns dfs |}.
Proof.
  destruct dfs as [|df dfs]; [done|]. intros _ H. unfold concat.
  by rewrite bool_decide_eq_true_2.
Qed.

(** [pd.concat] raises exactly on an empty list and on frames that repeat
    a label without all having the same column list. *)
Lemma concat_Raised dfs :
  (∃ e, concat dfs = Raised e) ↔
  dfs = [] ∨ (¬ Forall (λ df, NoDup (columns df)) dfs ∧
              ¬ Forall (λ df, columns df = columns (default df (head dfs))) dfs).
Proof.
  destruct dfs as [|df dfs]; cbn [concat].
  - split; [by left|]. intros _. by eexists.
  - cbn [head default]. case_bool_decide as H1.
    { split; [by intros [e ?]|]. intros [?|[? _]]; done. }
    case_bool_decide as H2.
    { split; [by intros [e ?]|]. intros [?|[_ ?]]; done. }
    split; [by right|]. intros _. by eexists.
Qed.

Lemma columns_imap {A} (f : nat → string * list pyvalue → A) (cols : list (string * list pyvalue)) :
  (imap (λ j c, (c.1, f j c)) cols).*1 = cols.*1.
Proof.
  revert f. induction cols as [|c cols IH]; intros f; [done|].
  cbn. f_equal. apply (IH (λ j, f (S j))).
Qed.

(** What a returned frame looks like: its index, and its columns. *)
Lemma concat_Returned dfs merged_df :
  concat dfs = Returned merged_df →
  dfs ≠ [] ∧
  index merged_df
  = (λ i : nat, VInt (Z.of_nat i)) <$> seq 0 (sum_list (nrows <$> dfs)) ∧
  (∀ c, c ∈ columns merged_df ↔ ∃ df, df ∈ dfs ∧ c ∈ columns df) ∧
  (NoDup (columns merged_df) ↔ Forall (λ df, NoDup (columns df)) dfs).
Proof.
  destruct dfs as [|df dfs]; [done|]. unfold concat.
  case_bool_decide as H1; [|case_bool_decide as H2; [|done]];
    intros [= <-]; (split; [done|]); (split; [done|]).
  - assert (Hc : ∀ i, columns {| index := i;
        data := (λ name : string, (name, stack (block_of name <$> df :: dfs)))
                  <$> union_columns (df :: dfs) |} = union_columns (df :: dfs)).
    { intros i. unfold columns. cbn [data]. rewrite <- list_fmap_compose.
      apply list_fmap_id. }
    rewrite Hc. split; [intros c; apply elem_of_union_columns|].
    split; [done|]. intros _. apply NoDup_union_columns.
  - assert (Hc : ∀ i, columns {| index := i;
        data := imap (λ j c, (c.1, stack (block_at j <$> df :: dfs))) (data df) |}
        = columns df).
    { intros i. unfold columns. cbn [data].
      apply (columns_imap (λ j _, stack (block_at j <$> df :: dfs))). }
    rewrite Hc. rewrite Forall_forall in H2. split.
    + intros c. split.
      * intros Hin. exists df. split; [left|done].
      * intros (df' & Hdf' & Hin). by rewrite <- (H2 df' Hdf').
    + split; [|by intros ?]. intros Hnd. exfalso. apply H1.
      apply Forall_forall. intros df' Hdf'. by rewrite (H2 df' Hdf').
Qed.

Lemma nrows_concat dfs merged_df :
  concat dfs = Returned merged_df → nrows merged_df = sum_list (nrows <$> dfs).
Proof.
  intros H. apply concat_Returned in H as (_ & Hidx & _).
  unfold nrows. by rewrite Hidx, length_fmap, length_seq.
Qed.

Lemma lookup_column_labelled (col : string → list pyvalue) c (l : list string) :
  lookup_column c ((λ n, (n, col n)) <$> l)
  = if bool_decide (c ∈ l) then Some (col c) else None.
Proof.
  induction l as [|a l IH]; [done|].
  cbn. destruct (String.eqb_spec a c) as [->|Hne].
  - rewrite bool_decide_eq_true_2; [done|left].
  - rewrite IH. erewrite bool_decide_ext; [done|]. rewrite elem_of_cons. intuition congruence.
Qed.

Lemma row_values_labelled (col : string → list pyvalue) i name (l : list string) :
  NoDup l →
  omap (λ c : string * list pyvalue, if String.eqb c.1 name then c.2 !! i else None)
       ((λ n, (n, col n)) <$> l)
  = if bool_decide (name ∈ l) then option_list (col name !! i) else [].
Proof.
  induction 1 as [|a l Hnin Hnd IH]; [done|].
  cbn. destruct (String.eqb_spec a name) as [->|Hne].
  - rewrite bool_decide_eq_true_2 by left. rewrite IH.
    rewrite bool_decide_eq_false_2 by done. by destruct (col name !! i).
  - rewrite IH. erewrite bool_decide_ext; [done|]. rewrite elem_of_cons. intuition congruence.
Qed.

(** The columns of aligned frames, by label. *)
Lemma get_column_concat dfs merged_df c :
  Forall (λ df, NoDup (columns df)) dfs →
  concat dfs = Returned merged_df →
  get_column merged_df c
  = if bool_decide (c ∈ union_columns dfs)
    then Some (stack (block_of c <$> dfs)) else None.
Proof.
  intros Hnd H. assert (Hne : dfs ≠ []) by (by intros ->).
  rewrite (concat_aligned dfs Hne Hnd) in H. injection H as <-.
  unfold get_column. cbn [data].
  apply (lookup_column_labelled (λ n, stack (block_of n <$> dfs))).
Qed.

Lemma row_values_concat dfs merged_df i c :
  Forall (λ df, NoDup (columns df)) dfs →
  concat dfs = Returned merged_df →
  row_values merged_df i c
  = if bool_decide (c ∈ union_columns dfs)
    then option_list (stack (block_of c <$> dfs) !! i) else [].
Proof.
  intros Hnd H. assert (Hne : dfs ≠ []) by (by intros ->).
  rewrite (concat_aligned dfs Hne Hnd) in H. injection H as <-.
  unfold row_values. cbn [data].
  apply (row_values_labelled (λ n, stack (block_of n <$> dfs))), NoDup_union_columns.
Qed.

(** *** The frames [merge_inventories] hands to [pd.concat] *)

Lemma bodega_label_warehouse w : w ∈ warehouses → bodega_label w ∈ bodega_labels.
Proof.
  unfold warehouses, bodega_labels. rewrite !elem_of_cons, elem_of_nil.
  intros [->|[->|[->|[]]]]; vm_compute; auto using list_elem_of_here, list_elem_of_further.
Qed.

Lemma merge_inventories_eq d h :
  merge_inventories d h
  = (tagged_store d h,
     match d with
     | [] => Returned None
     | _ :: _ =>
         match concat (omap (λ r : ref, tagged_store d h !! r) d.*2) with
         | Returned merged_df => Returned (Some merged_df)
         | Raised e => Raised e
         end
     end).
Proof.
  unfold merge_inventories. rewrite merge_loop_eq. destruct d as [|item d]; [done|].
  cbn [fmap list_fmap]. by destruct (concat _).
Qed.

(** They are the dict's tables, each tagged with the label of a key. *)
Lemma tagged_frames d h (refs : list ref) :
  Forall (λ r, r ∈ d.*2) refs →
  Forall2 (λ t t', ∃ w, w ∈ d.*1 ∧ t' = tag w t)
          (omap (λ r : ref, h !! r) refs)
          (omap (λ r : ref, tagged_store d h !! r) refs).
Proof.
  induction 1 as [|r refs Hr _ IH]; [constructor|].
  destruct (tagged_store_elem d h r Hr) as (w & Hw & Heq).
  cbn. rewrite Heq. destruct (h !! r) as [t|]; cbn; [|done].
  constructor; [by exists w|done].
Qed.

Lemma tagged_frames_dict d h :
  Forall2 (λ t t', ∃ w, w ∈ d.*1 ∧ t' = tag w t)
          (tables_of d h) (omap (λ r : ref, tagged_store d h !! r) d.*2).
Proof. apply tagged_frames, Forall_forall. auto. Qed.

Lemma tagged_nrows (K : list string) ts dfs :
  Forall2 (λ t t', ∃ w, w ∈ K ∧ t' = tag w t) ts dfs → nrows <$> dfs = nrows <$> ts.
Proof.
  induction 1 as [|t t' ts dfs (w & _ & ->) _ IH]; [done|].
  cbn. by rewrite setitem_nrows, IH.
Qed.

Lemma tagged_NoDup (K : list string) ts dfs :
  Forall2 (λ t t', ∃ w, w ∈ K ∧ t' = tag w t) ts dfs →
  Forall (λ df, NoDup (columns df)) dfs ↔ Forall (λ t, NoDup (columns t)) ts.
Proof.
  induction 1 as [|t t' ts dfs (w & _ & ->) _ IH]; [done|].
  by rewrite !Forall_cons, IH, NoDup_columns_setitem.
Qed.

Lemma tagged_columns (K : list string) ts dfs c :
  Forall2 (λ t t', ∃ w, w ∈ K ∧ t' = tag w t) ts dfs →
  (∃ t', t' ∈ dfs ∧ c ∈ columns t') ↔
  (∃ t, t ∈ ts ∧ (c ∈ columns t ∨ c = "Bodega")).
Proof.
  induction 1 as [|t t' ts dfs (w & _ & ->) _ IH].
  - split; intros (x & Hx & _); by apply elem_of_nil in Hx.
  - split.
    + intros (x & Hx & Hc). apply elem_of_cons in Hx as [->|Hx].
      * exists t. split; [left|]. by apply elem_of_columns_setitem in Hc.
      * destruct (proj1 IH) as (y & Hy & Hcy); [by exists x|].
        exists y. split; [by right|done].
    + intros (y & Hy & Hc). apply elem_of_cons in Hy as [->|Hy].
      * exists (tag w t). split; [left|]. by apply elem_of_columns_setitem.
      * destruct (proj2 IH) as (x & Hx & Hcx); [by exists y|].
        exists x. split; [by right|done].
Qed.

Lemma tagged_blocks (K : list string) ts dfs c :
  c ≠ "Bodega" →
  Forall2 (λ t t', ∃ w, w ∈ K ∧ t' = tag w t) ts dfs →
  block_of c <$> dfs = block_of c <$> ts.
Proof.
  intros Hne. induction 1 as [|t t' ts dfs (w & _ & ->) _ IH]; [done|].
  cbn. by rewrite block_of_setitem_ne, IH.
Qed.

(** Their "Bodega" columns hold strings, which no dtype conversion
    touches: the merged column is the frames' labels, block after block. *)
Lemma tagged_bodega (K : list string) ts dfs :
  Forall2 (λ t t', ∃ w, w ∈ K ∧ t' = tag w t) ts dfs →
  ∃ labels,
    Forall2 (λ t wl, wl.1 ∈ K ∧ wl.2 = nrows t) ts labels ∧
    stack (block_of "Bodega" <$> dfs)
    = labels ≫= λ wl, replicate wl.2 (VStr (bodega_label wl.1)).
Proof.
  intros H.
  assert (Hb : ∃ labels,
    Forall2 (λ t (wl : string * nat), wl.1 ∈ K ∧ wl.2 = nrows t) ts labels ∧
    (block_of "Bodega" <$> dfs) ≫= block_cells
    = labels ≫= λ wl, replicate wl.2 (VStr (bodega_label wl.1))).
  { induction H as [|t t' ts dfs (w & Hw & ->) _ (labels & Hl & Heq)].
    - exists []. by split; [constructor|].
    - exists ((w, nrows t) :: labels). split; [by constructor|].
      cbn. rewrite block_of_setitem. cbn. by rewrite <- Heq. }
  destruct Hb as (labels & Hl & Heq). exists labels. split; [done|].
  rewrite stack_no_int; [done|]. rewrite Heq.
  apply Forall_forall. intros v Hv z ->.
  apply list_elem_of_bind in Hv as (wl & Hv & _).
  by apply elem_of_replicate in Hv as [? _].
Qed.

Lemma lookup_label_blocks (K : list string) (labels : list (string * nat)) i :
  Forall (λ wl, wl.1 ∈ K) labels →
  i < sum_list (labels.*2) →
  ∃ w, w ∈ K ∧
       (labels ≫= λ wl, replicate wl.2 (VStr (bodega_label wl.1))) !! i
       = Some (VStr (bodega_label w)).
Proof.
  intros Hall. revert i. induction Hall as [|[w n] labels Hw _ IH]; intros i Hi.
  - cbn in Hi. lia.
  - cbn in Hi. cbn [mbind list_bind fst snd].
    destruct (decide (i < n)) as [Hlt|Hge].
    + exists w. split; [done|]. rewrite lookup_app_l by (by rewrite length_replicate).
      by apply lookup_replicate_2.
    + destruct (IH (i - n)) as (w' & Hw' & Hlook); [lia|].
      exists w'. split; [done|]. rewrite lookup_app_r by (rewrite length_replicate; lia).
      by rewrite length_replicate.
Qed.

(** A dict whose entries all name a table with distinct labels is merged
    by alignment. *)
Lemma merge_inventories_aligned d h :
  d ≠ [] →
  (∀ r, r ∈ d.*2 → ∃ t, h !! r = Some t ∧ NoDup (columns t)) →
  let dfs := omap (λ r : ref, tagged_store d h !! r) d.*2 in
  dfs ≠ [] ∧ Forall (λ df, NoDup (columns df)) dfs ∧
  ∃ merged_df, concat dfs = Returned merged_df ∧
               (merge_inventories d h).2 = Returned (Some merged_df).
Proof.
  intros Hne Hvalid dfs.
  assert (Hts : Forall (λ t, NoDup (columns t)) (tables_of d h)).
  { apply Forall_forall. intros t Ht. apply list_elem_of_omap in Ht as (r & Hr & Hlook).
    destruct (Hvalid r Hr) as (t' & Ht' & Hnd). congruence. }
  assert (Hnd : Forall (λ df, NoDup (columns df)) dfs)
    by (by apply (tagged_NoDup _ _ _ (tagged_frames_dict d h))).
  assert (Hdfs : dfs ≠ []).
  { destruct d as [|[w r] d']; [done|]. intros Hnil.
    assert (Hlen := Forall2_length _ _ _ (tagged_frames_dict ((w, r) :: d') h)).
    fold dfs in Hlen. rewrite Hnil in Hlen. unfold tables_of in Hlen. cbn in Hlen.
    destruct (Hvalid r) as (t & Ht & _); [left|]. by rewrite Ht in Hlen. }
  split; [done|]. split; [done|].
  rewrite merge_inventories_eq. destruct d as [|item d']; [done|].
  fold dfs. rewrite (concat_aligned dfs Hdfs Hnd). by eexists.
Qed.

(** C1: for every non-empty mapping whose keys are among OPL, E, MOBU and
    whose tables have distinct column labels, as the collector's tables
    have, [merge_inventories] returns a table, and each of its rows holds
    exactly one value under the label "Bodega": a non-empty string of the
    fixed label set. *)
Theorem C1_merged_rows_one_label (d : list (string * ref)) (h : gmap ref DataFrame) :
  d ≠ [] →
  Forall (λ warehouse, warehouse ∈ warehouses) d.*1 →
  (∀ r, r ∈ d.*2 → ∃ t, h !! r = Some t ∧ NoDup (columns t)) →
  ∃ merged_df,
    (merge_inventories d h).2 = Returned (Some merged_df) ∧
    ∀ i, i < nrows merged_df →
      ∃ l, row_values merged_df i "Bodega" = [VStr l] ∧ l ≠ "" ∧ l ∈ bodega_labels.
Proof.
  intros Hne Hkeys Hvalid.
  destruct (merge_inventories_aligned d h Hne Hvalid) as (Hdfs & Hnd & m & Hm & Hret).
  exists m. split; [done|]. intros i Hi.
  pose proof (tagged_frames_dict d h) as Htag.
  destruct (tagged_bodega _ _ _ Htag) as (labels & Hl & Hstack).
  rewrite (nrows_concat _ _ Hm), (tagged_nrows _ _ _ Htag) in Hi.
  assert (Hsum : nrows <$> tables_of d h = labels.*2).
  { clear -Hl. induction Hl as [|t wl ts ls [_ Heq] _ IH]; [done|]. cbn. by rewrite IH, Heq. }
  destruct (lookup_label_blocks d.*1 labels i) as (w & Hw & Hlook).
  { clear -Hl. induction Hl as [|t wl ts ls [? _] _ IH]; by constructor. }
  { by rewrite <- Hsum. }
  assert (Hin : bodega_label w ∈ bodega_labels).
  { apply bodega_label_warehouse. by eapply Forall_forall in Hkeys. }
  exists (bodega_label w). rewrite (row_values_concat _ _ _ _ Hnd Hm), Hstack, Hlook.
  rewrite bool_decide_eq_true_2.
  - split; [done|]. split; [|done]. intros Heq. rewrite Heq in Hin. revert Hin.
    unfold bodega_labels. rewrite !elem_of_cons, elem_of_nil. intuition discriminate.
  - apply elem_of_union_columns, (tagged_columns _ _ _ _ Htag).
    destruct (tables_of d h) as [|t ts] eqn:Hts.
    + apply Forall2_nil_inv_l in Htag. done.
    + exists t. split; [left|by right].
Qed.

Lemma tagged_from_setitem l t : tagged_from l t (setitem "Bodega" (VStr l) t).
Proof.
  repeat split.
  - apply setitem_index.
  - apply get_column_setitem.
  - apply other_columns_setitem.
  - apply columns_setitem.
Qed.

Lemma not_all_same_columns (dfs : list DataFrame) (df : DataFrame) :
  Forall (λ df', columns df' = columns df) (df :: dfs) ↔
  ∀ t1 t2, t1 ∈ df :: dfs → t2 ∈ df :: dfs → columns t1 = columns t2.
Proof.
  rewrite Forall_forall. split.
  - intros H t1 t2 H1 H2. by rewrite (H t1 H1), (H t2 H2).
  - intros H t Ht. apply H; [done|left].
Qed.

(** C3: [merge_inventories] returns None exactly when the mapping has no
    entry.  For a non-empty mapping whose tables have distinct column
    labels it returns a table.  It does not catch the exception of
    [pd.concat]: for a non-empty mapping it raises exactly when some table
    repeats a label and the tables, as the call leaves them, do not all
    have the same column list. *)
Theorem C3_absence_iff_no_tables (d : list (string * ref)) (h : gmap ref DataFrame) :
  ((merge_inventories d h).2 = Returned None ↔ d = []) ∧
  (d ≠ [] →
   (∀ r, r ∈ d.*2 → ∃ t, h !! r = Some t ∧ NoDup (columns t)) →
   ∃ merged_df, (merge_inventories d h).2 = Returned (Some merged_df)) ∧
  (d ≠ [] →
   (∀ r, r ∈ d.*2 → is_Some (h !! r)) →
   ((∃ e, (merge_inventories d h).2 = Raised e) ↔
    (∃ t, t ∈ tables_of d h ∧ ¬ NoDup (columns t)) ∧
    (∃ t1 t2, t1 ∈ tables_of d (merge_inventories d h).1 ∧
              t2 ∈ tables_of d (merge_inventories d h).1 ∧
              columns t1 ≠ columns t2))).
Proof.
  split; [|split].
  - rewrite merge_inventories_eq. destruct d as [|item d]; cbn [snd].
    + done.
    + split; [|done]. by destruct (concat _).
  - intros Hne Hvalid.
    destruct (merge_inventories_aligned d h Hne Hvalid) as (_ & _ & m & _ & Hret).
    by exists m.
  - intros Hne Hvalid. rewrite merge_inventories_eq. cbn [fst snd].
    pose proof (tagged_frames_dict d h) as Htag.
    change (omap (λ r : ref, tagged_store d h !! r) d.*2)
      with (tables_of d (tagged_store d h)) in *.
    assert (Hdfs : tables_of d (tagged_store d h) ≠ []).
    { destruct d as [|[w r] d']; [done|]. intros Hnil.
      apply Forall2_length in Htag. rewrite Hnil in Htag. unfold tables_of in Htag.
      cbn in Htag. destruct (Hvalid r) as [t Ht]; [left|]. by rewrite Ht in Htag. }
    destruct d as [|item d']; [done|]. set (d := item :: d') in *.
    assert (Hraise : (∃ e, match concat (tables_of d (tagged_store d h)) with
                           | Returned merged_df => Returned (Some merged_df)
                           | Raised e => Raised e
                           end = Raised e)
                     ↔ ∃ e, concat (tables_of d (tagged_store d h)) = Raised e).
    { destruct (concat _) as [m|e]; [split; intros [e' He]; discriminate|].
      split; intros _; by exists e. }
    rewrite Hraise, concat_Raised.
    rewrite (tagged_NoDup _ _ _ Htag).
    destruct (tables_of d (tagged_store d h)) as [|df dfs] eqn:Edfs; [done|].
    cbn [head default]. rewrite not_all_same_columns. split.
    + intros [?|[Hnd Hsame]]; [done|]. split.
      * apply not_Forall_Exists in Hnd; [|apply _].
        apply Exists_exists in Hnd as (t & Ht & Hd). by exists t.
      * destruct (decide (Forall (λ df', columns df' = columns df) (df :: dfs)))
          as [Hall|Hnall].
        { exfalso. apply Hsame. by apply not_all_same_columns. }
        apply not_Forall_Exists in Hnall; [|apply _].
        apply Exists_exists in Hnall as (t & Ht & Hd).
        exists t, df. split; [done|]. split; [left|done].
    + intros [(t & Ht & Hd) (t1 & t2 & H1 & H2 & Hd')]. right. split.
      * rewrite Forall_forall. intros Hall. by apply Hd, Hall.
      * intros Hsame. by apply Hd', Hsame.
Qed.

(** C10: [merge_inventories] mutates the input tables in place.  At the
    turn of each entry the table it names has its "Bodega" column assigned
    the entry's label on every row, whatever column of that name it had
    before, its rows and every other column as they were; the assignment
    stands to the end of the call unless a later entry names the same table
    object, which then overwrites it.  Apart from "Bodega" columns nothing
    in the store changes, tables outside the mapping do not change at all,
    and no object is created. *)
Theorem C10_tables_tagged_in_place (d : list (string * ref)) (h : gmap ref DataFrame) :
  (∀ pre warehouse df post t,
      d = pre ++ (warehouse, df) :: post → h !! df = Some t →
      ∃ t', (merge_loop (pre ++ [(warehouse, df)]) h).1 !! df = Some t' ∧
            tagged_from (bodega_label warehouse) t t' ∧
            (df ∉ post.*2 → (merge_inventories d h).1 !! df = Some t')) ∧
  (∀ r t, h !! r = Some t →
      ∃ t', (merge_inventories d h).1 !! r = Some t' ∧
            index t' = index t ∧
            other_columns "Bodega" t' = other_columns "Bodega" t ∧
            (r ∉ d.*2 → t' = t)) ∧
  (∀ r, h !! r = None → (merge_inventories d h).1 !! r = None).
Proof.
  rewrite merge_inventories_eq. cbn [fst]. split; [|split].
  - intros pre w r post t -> Ht. rewrite merge_loop_eq. cbn [fst].
    exists (setitem "Bodega" (VStr (bodega_label w)) t).
    rewrite tagged_store_turn, Ht. split; [done|]. split; [apply tagged_from_setitem|].
    intros Hnin. by rewrite tagged_store_last, Ht.
  - intros r t Ht.
    destruct (tagged_store_shape d h r) as [[Hnin ->]|(pre & w & post & -> & Hnin & ->)].
    + by exists t.
    + rewrite Ht. eexists. split; [done|].
      split; [apply setitem_index|]. split; [apply other_columns_setitem|].
      intros Hn. exfalso. apply Hn. rewrite fmap_app, elem_of_app. right. left.
  - intros r Hr.
    destruct (tagged_store_shape d h r) as [[_ ->]|(pre & w & post & _ & _ & ->)];
      by rewrite ?Hr.
Qed.


(** *** The host name cleaner *)

Lemma get_clean_hostname_no_suffix p :
  PyStr.endswith (hostname p) ".local" = false → get_clean_hostname p = hostname p.
Proof. unfold get_clean_hostname. by intros ->. Qed.

Lemma get_clean_hostname_known_hosts :
  get_clean_hostname (Platform "posix" "JM-MBP.local") = "JM-MBP" ∧
  get_clean_hostname (Platform "posix" "JM-MS.local") = "JM-MS" ∧
  get_clean_hostname (Platform "posix" "JM-MS") = "JM-MS".
Proof. by vm_compute. Qed.

Lemma string_app_cons x (a b : string) : String x a +:+ b = String x (a +:+ b).
Proof. done. Qed.

Lemma string_app_assoc (a b c : string) : (a +:+ b) +:+ c = a +:+ (b +:+ c).
Proof. induction a as [|x a IH]; [done|]. by rewrite !string_app_cons, IH. Qed.

Lemma string_app_length (a b : string) :
  String.length (a +:+ b) = String.length a + String.length b.
Proof. induction a as [|x a IH]; [done|]. rewrite string_app_cons. cbn. by rewrite IH. Qed.

Lemma substring_app_prefix (a b : string) :
  String.substring 0 (String.length a) (a +:+ b) = a.
Proof.
  induction a as [|x a IH]; [by destruct b|].
  rewrite string_app_cons. cbn. by rewrite IH.
Qed.

Lemma startswith_app_l (a b p : string) :
  String.length p ≤ String.length a →
  PyStr.startswith (a +:+ b) p = PyStr.startswith a p.
Proof.
  revert a. induction p as [|x p IH]; intros a Hlen; [by destruct a|].
  destruct a as [|y a]; cbn in Hlen; [lia|].
  rewrite string_app_cons. cbn. rewrite IH by lia. done.
Qed.

Lemma endswith_app (s suf : string) : PyStr.endswith (s +:+ suf) suf = true.
Proof.
  induction s as [|c s IH].
  - change ("" +:+ suf) with suf. destruct suf; cbn; [done|].
    by rewrite Ascii.eqb_refl, String.eqb_refl.
  - rewrite string_app_cons. cbn. rewrite IH. apply orb_true_r.
Qed.

Lemma replace_scan_single_suffix (s : string) :
  PyStr.contains (s +:+ ".loca") ".local" = false →
  PyStr.replace_scan ".local" "" 0 (s +:+ ".local") = s.
Proof.
  induction s as [|c s IH]; intros Hocc; [done|].
  rewrite string_app_cons in Hocc.
  cbn [PyStr.contains] in Hocc. apply orb_false_iff in Hocc as [Hhere Hlater].
  assert (Hnow : PyStr.startswith (String c s +:+ ".local") ".local" = false).
  { etrans; [|exact Hhere]. rewrite <- string_app_cons.
    assert (E : String c s +:+ ".local" = (String c s +:+ ".loca") +:+ "l")
      by (by rewrite string_app_assoc).
    rewrite E. apply startswith_app_l.
    rewrite string_app_length. cbn. lia. }
  rewrite string_app_cons in *. cbn [PyStr.replace_scan].
  rewrite Hnow. f_equal. by apply IH.
Qed.

(** Where ".local" occurs once, at the very end, the code strips it, as
    it leaves alone a name that does not end in it. *)
Lemma get_clean_hostname_single_suffix os (s : string) :
  PyStr.contains (s +:+ ".loca") ".local" = false →
  get_clean_hostname (Platform os (s +:+ ".local")) = s ∧
  spec_clean_hostname (s +:+ ".local") = get_clean_hostname (Platform os (s +:+ ".local")).
Proof.
  intros Hocc. unfold get_clean_hostname, spec_clean_hostname. cbn [hostname].
  rewrite endswith_app. unfold PyStr.replace.
  rewrite replace_scan_single_suffix by done. split; [done|].
  replace (String.length (s +:+ ".local") - String.length ".local")
    with (String.length s) by (rewrite string_app_length; lia).
  apply substring_app_prefix.
Qed.

(** C5 (fails on the code): the cleaned host name is the host name with one
    trailing ".local" removed and no interior occurrence altered.  The
    code, once the name ends in ".local", removes every occurrence: for the
    host "JM.local-MBP.local" it yields "JM-MBP" where the claim gives
    "JM.local-MBP", and the output-path resolver then takes the machine for
    the known host JM-MBP; for "JM-MS.local.local" it yields "JM-MS" where
    the claim gives "JM-MS.local". *)
Theorem C5_clean_hostname_removes_every_occurrence :
  get_clean_hostname (Platform "posix" "JM.local-MBP.local") = "JM-MBP" ∧
  spec_clean_hostname "JM.local-MBP.local" = "JM.local-MBP" ∧
  get_base_output_path (Platform "posix" "JM.local-MBP.local") = Some "/Users/j.m./Downloads" ∧
  get_clean_hostname (Platform "posix" "JM-MS.local.local") = "JM-MS" ∧
  spec_clean_hostname "JM-MS.local.local" = "JM-MS.local".
Proof. by vm_compute. Qed.

(** *** The loader *)

Lemma read_excel_file_loaded w file_path :
  ∃ out, read_excel_file w file_path = (out, Returned (loaded_table w file_path)).
Proof.
  unfold read_excel_file, loaded_table.
  destruct (path_exists w file_path); [|by eexists].
  destruct (pd_read_excel w file_path) as [df|e]; by eexists.
Qed.

(** C6: [read_excel_file] never raises.  A missing path prints "File not
    found" and returns None; a path that exists but whose parse raises has
    the exception caught, printed with its cause, and turned into None; a
    successful parse prints the path and returns the table. *)
Theorem C6_read_excel_file_total (w : world) (file_path : string) :
  (∃ out r, read_excel_file w file_path = (out, Returned r)) ∧
  (path_exists w file_path = false →
     read_excel_file w file_path
       = (["File not found: " +:+ file_path], Returned None)) ∧
  (∀ e, path_exists w file_path = true → pd_read_excel w file_path = Raised e →
     read_excel_file w file_path
       = (["Error reading " +:+ file_path +:+ ": " +:+ e], Returned None)) ∧
  (∀ df, path_exists w file_path = true → pd_read_excel w file_path = Returned df →
     read_excel_file w file_path
       = (["Successfully loaded: " +:+ file_path], Returned (Some df))).
Proof.
  split; [|split; [|split]].
  - destruct (read_excel_file_loaded w file_path) as [out H]. eauto.
  - intros H. unfold read_excel_file. by rewrite H.
  - intros e H1 H2. unfold read_excel_file. by rewrite H1, H2.
  - intros df H1 H2. unfold read_excel_file. by rewrite H1, H2.
Qed.

(** *** The collector *)

Lemma for_each_print_returns (files : list string) :
  ∃ out, IO.for_each (λ (_ : unit) f, IO.print f) tt files = (out, Returned tt).
Proof.
  induction files as [|f files [out IH]]; [by eexists|].
  cbn. rewrite IH. by eexists.
Qed.

Lemma list_directory_contents_returns w warehouse :
  ∃ out, list_directory_contents w warehouse = (out, Returned tt).
Proof.
  unfold list_directory_contents.
  destruct (get_base_path (plat w) warehouse) as [base_path|]; [|by eexists].
  destruct (os_listdir w base_path) as [files|e]; cbn; [|by eexists].
  destruct (for_each_print_returns files) as [out ->]. by eexists.
Qed.

Lemma process_step_result w inventory_type files results warehouse :
  inventory_files !! inventory_type = Some files →
  ∃ out, process_step w inventory_type files results warehouse
         = (out, Returned match warehouse_table w inventory_type warehouse with
                          | Some df => dict_set results warehouse df
                          | None => results
                          end).
Proof.
  intros Hfiles. unfold process_step, warehouse_table, resolved_path. rewrite Hfiles.
  destruct (get_base_path (plat w) warehouse) as [base_path|]; [|by eexists].
  destruct (list_directory_contents_returns w warehouse) as [out1 ->].
  cbn [IO.bind].
  destruct (PyVal.not_name (files !! warehouse)); [by eexists|].
  destruct (read_excel_file_loaded w
              (os_path_join (plat w) base_path (default "" (files !! warehouse))))
    as [out2 ->].
  cbn. destruct (loaded_table _ _); by eexists.
Qed.

Lemma inventory_files_unknown inventory_type :
  inventory_type ∉ ["LATA"; "PREFORMA"; "PT"] → inventory_files !! inventory_type = None.
Proof.
  intros H. unfold inventory_files. by apply not_elem_of_list_to_map_1.
Qed.

Lemma inventory_files_known inventory_type :
  inventory_type ∈ ["LATA"; "PREFORMA"; "PT"] → is_Some (inventory_files !! inventory_type).
Proof.
  rewrite !elem_of_cons, elem_of_nil. intros [->|[->|[->|[]]]]; eexists; reflexivity.
Qed.

Lemma process_inventory_result w inventory_type :
  inventory_type ∈ ["LATA"; "PREFORMA"; "PT"] →
  ∃ out, process_inventory w inventory_type
         = (out, Returned (omap (λ warehouse,
                                   pair warehouse <$> warehouse_table w inventory_type warehouse)
                                warehouses)).
Proof.
  intros Hin. destruct (inventory_files_known _ Hin) as [files Hfiles].
  unfold process_inventory. rewrite Hfiles. unfold warehouses. cbn [IO.for_each].
  destruct (process_step_result w inventory_type files [] "OPL" Hfiles) as [o1 ->].
  cbn [IO.bind].
  destruct (process_step_result w inventory_type files
              match warehouse_table w inventory_type "OPL" with
              | Some df => dict_set [] "OPL" df | None => [] end "E" Hfiles) as [o2 ->].
  cbn [IO.bind].
  destruct (process_step_result w inventory_type files
              match warehouse_table w inventory_type "E" with
              | Some df => dict_set match warehouse_table w inventory_type "OPL" with
                                    | Some df => dict_set [] "OPL" df | None => [] end "E" df
              | None => match warehouse_table w inventory_type "OPL" with
                        | Some df => dict_set [] "OPL" df | None => [] end
              end "MOBU" Hfiles) as [o3 ->].
  cbn. destruct (warehouse_table w inventory_type "OPL"),
    (warehouse_table w inventory_type "E"), (warehouse_table w inventory_type "MOBU");
    by eexists.
Qed.

Lemma elem_of_keys_omap (g : string → option DataFrame) (l : list string) wh :
  wh ∈ (omap (λ k, pair k <$> g k) l).*1 ↔ wh ∈ l ∧ is_Some (g wh).
Proof.
  rewrite list_elem_of_fmap. split.
  - intros ([k df] & -> & H). apply list_elem_of_omap in H as (x & Hx & Hf).
    destruct (g x) as [df'|] eqn:Hg; [|done]. cbn in Hf. simplify_eq/=.
    split; [done|]. by eexists.
  - intros [Hl [df Hdf]]. exists (wh, df). split; [done|].
    apply list_elem_of_omap. exists wh. split; [done|]. by rewrite Hdf.
Qed.

(** C7: for a known inventory type [process_inventory] returns, without
    raising, the dict of exactly the warehouses of OPL, E, MOBU whose path
    resolved and whose file loaded, in that order; with E's file missing
    and the two others loading, its keys are OPL and MOBU.  For any other
    inventory type it prints the warning and returns the empty dict. *)
Theorem C7_collector_keeps_loaded_warehouses (w : world) (inventory_type : string) :
  (inventory_type ∈ ["LATA"; "PREFORMA"; "PT"] →
     ∃ out results,
       process_inventory w inventory_type = (out, Returned results) ∧
       results = omap (λ warehouse,
                         pair warehouse <$> warehouse_table w inventory_type warehouse)
                      warehouses ∧
       (∀ warehouse,
           warehouse ∈ results.*1 ↔
           warehouse ∈ warehouses ∧ is_Some (warehouse_table w inventory_type warehouse)) ∧
       (∀ path_E,
           resolved_path w inventory_type "E" = Some path_E →
           path_exists w path_E = false →
           is_Some (warehouse_table w inventory_type "OPL") →
           is_Some (warehouse_table w inventory_type "MOBU") →
           results.*1 = ["OPL"; "MOBU"])) ∧
  (inventory_type ∉ ["LATA"; "PREFORMA"; "PT"] →
     process_inventory w inventory_type
       = (["Unknown inventory type: " +:+ inventory_type], Returned [])).
Proof.
  split.
  - intros Hin. destruct (process_inventory_result w inventory_type Hin) as [out Hres].
    eexists _, _. split; [exact Hres|]. split; [done|]. split.
    + intros warehouse. apply elem_of_keys_omap.
    + intros path_E Hpath Hmissing [df1 H1] [df3 H3].
      assert (H2 : warehouse_table w inventory_type "E" = None).
      { unfold warehouse_table, loaded_table. by rewrite Hpath, Hmissing. }
      unfold warehouses. cbn. by rewrite H1, H2, H3.
  - intros Hnin. unfold process_inventory.
    by rewrite (inventory_files_unknown _ Hnin).
Qed.
(** *** Loops over the cells of a worksheet *)

Lemma foldl_ext_in {A B} (f g : A → B → A) (l : list B) (a : A) :
  (∀ a x, x ∈ l → f a x = g a x) → foldl f a l = foldl g a l.
Proof.
  revert a. induction l as [|x l IH]; intros a H; [done|].
  cbn. rewrite H by left. apply IH. intros a' y Hy. apply H. by right.
Qed.

Lemma for_cells_cons p ps body ws :
  for_cells (p :: ps) body ws = for_cells ps body (update_cell p.1 p.2 body ws).
Proof. done. Qed.

Lemma for_cells_dims ps body ws :
  max_row (for_cells ps body ws) = max_row ws ∧
  max_column (for_cells ps body ws) = max_column ws ∧
  column_width (for_cells ps body ws) = column_width ws.
Proof.
  revert ws. induction ps as [|p ps IH]; intros ws; [done|].
  rewrite for_cells_cons. destruct (IH (update_cell p.1 p.2 body ws)) as (-> & -> & ->).
  done.
Qed.

Lemma cell_update_cell row col body ws r c :
  cell (update_cell row col body ws) r c
  = if bool_decide ((r, c) = (row, col)) then body (cell ws r c) else cell ws r c.
Proof.
  cbn. destruct (Nat.eqb_spec r row) as [->|Hr], (Nat.eqb_spec c col) as [->|Hc]; cbn.
  - by rewrite bool_decide_eq_true_2.
  - rewrite bool_decide_eq_false_2; [done|congruence].
  - rewrite bool_decide_eq_false_2; [done|congruence].
  - rewrite bool_decide_eq_false_2; [done|congruence].
Qed.

(** Each cell a loop visits (once) has the body applied; the others stay. *)
Lemma cell_for_cells ps body ws r c :
  NoDup ps →
  cell (for_cells ps body ws) r c
  = if bool_decide ((r, c) ∈ ps) then body (cell ws r c) else cell ws r c.
Proof.
  intros Hnd. revert ws. induction Hnd as [|p ps Hnin Hnd IH]; intros ws; [done|].
  rewrite for_cells_cons, IH, cell_update_cell. destruct p as [row col]. cbn [fst snd].
  destruct (decide ((r, c) = (row, col))) as [Heq|Hne].
  - rewrite Heq. rewrite (bool_decide_eq_false_2 (_ ∈ ps)) by done.
    rewrite bool_decide_eq_true_2 by done. rewrite bool_decide_eq_true_2; [done|left].
  - rewrite (bool_decide_eq_false_2 (_ = _)) by done.
    erewrite (bool_decide_ext (_ ∈ _ :: _)); [done|].
    rewrite elem_of_cons. tauto.
Qed.

(** A loop whose body keeps an attribute of every cell keeps it sheet-wide. *)
Lemma for_cells_preserves {X} (attr : Cell → X) ps body ws r c :
  (∀ x, attr (body x) = attr x) →
  attr (cell (for_cells ps body ws) r c) = attr (cell ws r c).
Proof.
  intros Hbody. revert ws. induction ps as [|p ps IH]; intros ws; [done|].
  rewrite for_cells_cons, IH, cell_update_cell. by case_bool_decide.
Qed.

Lemma NoDup_column_cells (col : nat) (rows : list nat) :
  NoDup rows → NoDup ((λ row, (row, col)) <$> rows).
Proof.
  intros H. assert (Inj (=) (=) (λ row : nat, (row, col))) by (intros x y ?; by simplify_eq).
  by apply NoDup_fmap_2.
Qed.

Lemma elem_of_column_cells (col : nat) (rows : list nat) (r c : nat) :
  (r, c) ∈ (λ row, (row, col)) <$> rows ↔ c = col ∧ r ∈ rows.
Proof.
  rewrite list_elem_of_fmap. split.
  - intros (row & Heq & Hin). by simplify_eq.
  - intros [-> Hin]. by exists r.
Qed.

Lemma elem_of_range (a b r : nat) : r ∈ range a b ↔ a ≤ r < b.
Proof. unfold range. rewrite elem_of_seq. lia. Qed.

Lemma elem_of_data_rows ws (r : nat) : r ∈ data_rows ws ↔ 2 ≤ r ≤ max_row ws.
Proof. unfold data_rows. rewrite elem_of_range. lia. Qed.

(** *** The width pass *)

Lemma column_max_length_ext ws1 ws2 col :
  max_row ws1 = max_row ws2 →
  (∀ r, value (cell ws1 r col) = value (cell ws2 r col)) →
  column_max_length ws1 col = column_max_length ws2 col.
Proof.
  intros Hrows Hcells. unfold column_max_length. rewrite Hrows.
  apply foldl_ext_in. intros a r _. by rewrite Hcells.
Qed.

Lemma adjust_column_widths_spec ws :
  max_row (adjust_column_widths ws) = max_row ws ∧
  max_column (adjust_column_widths ws) = max_column ws ∧
  cell (adjust_column_widths ws) = cell ws ∧
  ∀ c, column_width (adjust_column_widths ws) c
       = if bool_decide (c ∈ seq 1 (max_column ws))
         then Some (column_max_length ws c + 2) else column_width ws c.
Proof.
  unfold adjust_column_widths. generalize (seq 1 (max_column ws)) as cols.
  intros cols. induction cols as [|col cols IH] using rev_ind; [done|].
  rewrite foldl_app. cbn [foldl]. destruct IH as (Hr & Hc & Hcell & Hw).
  cbn [set_width max_row max_column cell column_width].
  split; [done|]. split; [done|]. split; [done|].
  intros c. destruct (Nat.eqb_spec c col) as [->|Hne].
  - rewrite bool_decide_eq_true_2 by (rewrite elem_of_app, list_elem_of_singleton; tauto).
    do 2 f_equal. apply column_max_length_ext; [done|]. intros r. by rewrite Hcell.
  - rewrite Hw. erewrite (bool_decide_ext (c ∈ cols ++ [col])); [done|].
    rewrite elem_of_app, list_elem_of_singleton. tauto.
Qed.

(** *** The header scan *)

Lemma last_match_snoc P l c :
  last_match P (l ++ [c]) = if P c then Some c else last_match P l.
Proof. unfold last_match. by rewrite foldl_app. Qed.

Lemma last_match_seq P a n :
  match last_match P (seq a n) with
  | Some c => a ≤ c < a + n ∧ P c = true ∧ ∀ c', c < c' < a + n → P c' = false
  | None => ∀ c', a ≤ c' < a + n → P c' = false
  end.
Proof.
  induction n as [|n IH]; [cbn; lia|].
  rewrite seq_S, last_match_snoc. destruct (P (a + n)) eqn:HP.
  - split; [lia|]. split; [done|]. lia.
  - destruct (last_match P (seq a n)) as [c|].
    + destruct IH as (Hc & HPc & Hlast). split; [lia|]. split; [done|].
      intros c' Hc'. destruct (decide (c' = a + n)) as [->|Hne]; [done|].
      apply Hlast. lia.
    + intros c' Hc'. destruct (decide (c' = a + n)) as [->|Hne]; [done|].
      apply IH. lia.
Qed.

Lemma find_columns_last_match ws :
  find_columns ws
  = (last_match (λ c, PyVal.eq_str (header ws c) "Bodega") (seq 1 (max_column ws)),
     last_match (λ c, PyVal.eq_str (header ws c) "CODIGO WMS") (seq 1 (max_column ws))).
Proof.
  unfold find_columns, last_match, header. generalize (seq 1 (max_column ws)) as cols.
  generalize (@None nat) at 1 3 as b. generalize (@None nat) as k.
  intros k b cols. revert k b. induction cols as [|c cols IH]; intros k b; [done|].
  cbn [foldl]. destruct (value (cell ws 1 c)) as [|s|z|t|t txt]; cbn; try apply IH.
  destruct (String.eqb_spec s "Bodega") as [->|Hne]; [apply IH|].
  destruct (String.eqb s "CODIGO WMS"); apply IH.
Qed.

Lemma find_columns_ext ws1 ws2 :
  max_column ws1 = max_column ws2 →
  (∀ c, header ws1 c = header ws2 c) →
  find_columns ws1 = find_columns ws2.
Proof.
  intros Hcols Hheader. rewrite !find_columns_last_match, Hcols. unfold last_match.
  f_equal; apply foldl_ext_in; intros a c _; by rewrite Hheader.
Qed.

Lemma eq_str_true v lit : PyVal.eq_str v lit = true ↔ v = VStr lit.
Proof.
  destruct v as [|s| | |]; cbn; try (split; discriminate).
  rewrite String.eqb_eq. split; congruence.
Qed.

Lemma eq_str_false v lit : PyVal.eq_str v lit = false ↔ v ≠ VStr lit.
Proof. rewrite <- eq_str_true. by destruct (PyVal.eq_str v lit). Qed.

(** The column a header scan settles on: inside the sheet, its header is
    the literal, and no later header is. *)
Lemma located_column lit ws col :
  last_match (λ c, PyVal.eq_str (header ws c) lit) (seq 1 (max_column ws)) = Some col →
  1 ≤ col ≤ max_column ws ∧ header ws col = VStr lit ∧
  ∀ c, 1 ≤ c ≤ max_column ws → header ws c = VStr lit → c ≤ col.
Proof.
  intros H. pose proof (last_match_seq (λ c, PyVal.eq_str (header ws c) lit) 1 (max_column ws)) as Hs.
  rewrite H in Hs. destruct Hs as (Hc & HP & Hlast).
  split; [lia|]. split; [by apply eq_str_true|].
  intros c Hrange Hhdr. destruct (decide (c ≤ col)) as [|Hgt]; [done|].
  specialize (Hlast c ltac:(lia)). apply eq_str_false in Hlast. done.
Qed.

Lemma located_iff lit ws :
  is_Some (last_match (λ c, PyVal.eq_str (header ws c) lit) (seq 1 (max_column ws))) ↔
  ∃ c, 1 ≤ c ≤ max_column ws ∧ header ws c = VStr lit.
Proof.
  pose proof (last_match_seq (λ c, PyVal.eq_str (header ws c) lit) 1 (max_column ws)) as Hs.
  split.
  - intros [col Hcol]. exists col. apply located_column in Hcol. tauto.
  - intros (c & Hc & Hhdr). destruct (last_match _ _) as [col|]; [by eexists|].
    specialize (Hs c ltac:(lia)). apply eq_str_false in Hs. done.
Qed.

(** *** The passes of [format_excel_file], one by one *)

Lemma format_header_row_spec ws :
  max_row (format_header_row ws) = max_row ws ∧
  max_column (format_header_row ws) = max_column ws ∧
  column_width (format_header_row ws) = column_width ws ∧
  ∀ r c, value (cell (format_header_row ws) r c) = value (cell ws r c) ∧
         fill (cell (format_header_row ws) r c) = fill (cell ws r c).
Proof.
  unfold format_header_row.
  destruct (for_cells_dims (row_cells ws 1)
              (λ cell, set_alignment (mkAlignment "center" "center")
                         (set_font header_font cell)) ws) as (-> & -> & ->).
  repeat split; by apply for_cells_preserves.
Qed.

Lemma apply_minimal_font_spec ws :
  max_row (apply_minimal_font ws) = max_row ws ∧
  max_column (apply_minimal_font ws) = max_column ws ∧
  column_width (apply_minimal_font ws) = column_width ws ∧
  ∀ r c, value (cell (apply_minimal_font ws) r c) = value (cell ws r c) ∧
         fill (cell (apply_minimal_font ws) r c) = fill (cell ws r c).
Proof.
  unfold apply_minimal_font.
  set (ws1 := for_cells (iter_rows ws) (set_font minimal_font) ws).
  destruct (for_cells_dims (row_cells ws1 1) (set_font header_font) ws1) as (-> & -> & ->).
  destruct (for_cells_dims (iter_rows ws) (set_font minimal_font) ws) as (H1 & H2 & H3).
  fold ws1 in H1, H2, H3. rewrite H1, H2, H3.
  repeat split; (rewrite for_cells_preserves by done); by apply for_cells_preserves.
Qed.

Lemma color_bodega_cell_value x : value (color_bodega_cell x) = value x.
Proof. unfold color_bodega_cell. by repeat case_match. Qed.

Lemma color_bodega_cell_fill_ext x y :
  value x = value y → fill x = fill y →
  fill (color_bodega_cell x) = fill (color_bodega_cell y).
Proof. unfold color_bodega_cell. intros -> Hf. by repeat case_match. Qed.

Lemma stringify_cell_fill x : fill (stringify_cell x) = fill x.
Proof. unfold stringify_cell. by case_match. Qed.

Lemma stringify_cell_value_ext x y :
  value x = value y → value (stringify_cell x) = value (stringify_cell y).
Proof. unfold stringify_cell. intros H. rewrite H. by case_match. Qed.

Lemma color_bodega_column_spec bodega_col ws :
  max_row (color_bodega_column bodega_col ws) = max_row ws ∧
  max_column (color_bodega_column bodega_col ws) = max_column ws ∧
  column_width (color_bodega_column bodega_col ws) = column_width ws ∧
  ∀ r c, value (cell (color_bodega_column bodega_col ws) r c) = value (cell ws r c) ∧
         fill (cell (color_bodega_column bodega_col ws) r c)
         = if bool_decide (bodega_col = Some c ∧ r ∈ data_rows ws)
           then fill (color_bodega_cell (cell ws r c)) else fill (cell ws r c).
Proof.
  destruct bodega_col as [col|]; cbn [color_bodega_column].
  - split; [apply for_cells_dims|]. split; [apply for_cells_dims|].
    split; [apply for_cells_dims|]. intros r c.
    split; [apply for_cells_preserves, color_bodega_cell_value|].
    rewrite cell_for_cells by apply NoDup_column_cells, NoDup_seq.
    rewrite (bool_decide_ext ((r, c) ∈ _) (Some col = Some c ∧ r ∈ data_rows ws)).
    + by case_bool_decide.
    + rewrite elem_of_column_cells. unfold data_rows.
      split; [intros [-> ?]|intros [[= ->] ?]]; done.
  - split; [done|]. split; [done|]. split; [done|]. intros r c. split; [done|].
    by rewrite bool_decide_eq_false_2 by (by intros [? _]).
Qed.

Lemma stringify_codigo_wms_spec codigo_wms_col ws :
  max_row (stringify_codigo_wms codigo_wms_col ws) = max_row ws ∧
  max_column (stringify_codigo_wms codigo_wms_col ws) = max_column ws ∧
  column_width (stringify_codigo_wms codigo_wms_col ws) = column_width ws ∧
  ∀ r c, fill (cell (stringify_codigo_wms codigo_wms_col ws) r c) = fill (cell ws r c) ∧
         value (cell (stringify_codigo_wms codigo_wms_col ws) r c)
         = if bool_decide (codigo_wms_col = Some c ∧ r ∈ data_rows ws)
           then value (stringify_cell (cell ws r c)) else value (cell ws r c).
Proof.
  destruct codigo_wms_col as [col|]; cbn [stringify_codigo_wms].
  - split; [apply for_cells_dims|]. split; [apply for_cells_dims|].
    split; [apply for_cells_dims|]. intros r c.
    split; [apply for_cells_preserves, stringify_cell_fill|].
    rewrite cell_for_cells by apply NoDup_column_cells, NoDup_seq.
    rewrite (bool_decide_ext ((r, c) ∈ _) (Some col = Some c ∧ r ∈ data_rows ws)).
    + by case_bool_decide.
    + rewrite elem_of_column_cells. unfold data_rows.
      split; [intros [-> ?]|intros [[= ->] ?]]; done.
  - split; [done|]. split; [done|]. split; [done|]. intros r c. split; [done|].
    by rewrite bool_decide_eq_false_2 by (by intros [? _]).
Qed.

(** The sheet before the header scan: same dimensions, values and fills as
    the loaded sheet, the widths set. *)
Lemma restyled_spec ws :
  let ws3 := apply_minimal_font (adjust_column_widths (format_header_row ws)) in
  max_row ws3 = max_row ws ∧ max_column ws3 = max_column ws ∧
  (∀ r c, value (cell ws3 r c) = value (cell ws r c) ∧
          fill (cell ws3 r c) = fill (cell ws r c)) ∧
  (∀ c, column_width ws3 c
        = if bool_decide (c ∈ seq 1 (max_column ws))
          then Some (column_max_length ws c + 2) else column_width ws c) ∧
  find_columns ws3 = find_columns ws.
Proof.
  intros ws3. unfold ws3.
  destruct (format_header_row_spec ws) as (Hr1 & Hc1 & Hw1 & Hcell1).
  destruct (adjust_column_widths_spec (format_header_row ws)) as (Hr2 & Hc2 & Hcell2 & Hw2).
  destruct (apply_minimal_font_spec (adjust_column_widths (format_header_row ws)))
    as (Hr3 & Hc3 & Hw3 & Hcell3).
  assert (Hcells : ∀ r c,
    value (cell (apply_minimal_font (adjust_column_widths (format_header_row ws))) r c)
      = value (cell ws r c) ∧
    fill (cell (apply_minimal_font (adjust_column_widths (format_header_row ws))) r c)
      = fill (cell ws r c)).
  { intros r c. destruct (Hcell3 r c) as [-> ->]. rewrite Hcell2. apply Hcell1. }
  split; [congruence|]. split; [congruence|]. split; [done|]. split.
  - intros c. rewrite Hw3, Hw2, Hc1, Hw1. case_bool_decide; [|done].
    do 2 f_equal. apply column_max_length_ext; [done|]. intros r. apply Hcell1.
  - apply find_columns_ext; [congruence|]. intros c. apply Hcells.
Qed.

Lemma format_excel_file_cells ws r c :
  fill (cell (format_excel_file ws) r c)
  = (if bool_decide ((find_columns ws).1 = Some c ∧ r ∈ data_rows ws)
     then fill (color_bodega_cell (cell ws r c)) else fill (cell ws r c)) ∧
  value (cell (format_excel_file ws) r c)
  = (if bool_decide ((find_columns ws).2 = Some c ∧ r ∈ data_rows ws)
     then value (stringify_cell (cell ws r c)) else value (cell ws r c)).
Proof.
  unfold format_excel_file.
  destruct (restyled_spec ws) as (Hr & Hc & Hcells & Hw & ->).
  set (ws3 := apply_minimal_font (adjust_column_widths (format_header_row ws))) in *.
  destruct (find_columns ws) as [bodega_col codigo_wms_col]. cbn [fst snd].
  destruct (color_bodega_column_spec bodega_col ws3) as (Hr4 & Hc4 & Hw4 & Hcell4).
  destruct (stringify_codigo_wms_spec codigo_wms_col (color_bodega_column bodega_col ws3))
    as (Hr5 & Hc5 & Hw5 & Hcell5).
  destruct (Hcell5 r c) as [-> ->]. destruct (Hcell4 r c) as [Hv4 ->].
  destruct (Hcells r c) as [Hv Hf].
  assert (Hrows3 : data_rows ws3 = data_rows ws) by (unfold data_rows; by rewrite Hr).
  assert (Hrows4 : data_rows (color_bodega_column bodega_col ws3) = data_rows ws)
    by (unfold data_rows; by rewrite Hr4, Hr).
  rewrite Hrows3, Hrows4. split.
  - case_bool_decide; [|done]. by apply color_bodega_cell_fill_ext.
  - case_bool_decide; [|by rewrite Hv4]. apply stringify_cell_value_ext. by rewrite Hv4.
Qed.

Lemma format_excel_file_dims ws :
  max_row (format_excel_file ws) = max_row ws ∧
  max_column (format_excel_file ws) = max_column ws ∧
  ∀ c, column_width (format_excel_file ws) c
       = if bool_decide (c ∈ seq 1 (max_column ws))
         then Some (column_max_length ws c + 2) else column_width ws c.
Proof.
  unfold format_excel_file.
  destruct (restyled_spec ws) as (Hr & Hc & Hcells & Hw & ->).
  set (ws3 := apply_minimal_font (adjust_column_widths (format_header_row ws))) in *.
  destruct (find_columns ws) as [bodega_col codigo_wms_col].
  destruct (color_bodega_column_spec bodega_col ws3) as (Hr4 & Hc4 & Hw4 & Hcell4).
  destruct (stringify_codigo_wms_spec codigo_wms_col (color_bodega_column bodega_col ws3))
    as (Hr5 & Hc5 & Hw5 & Hcell5).
  split; [congruence|]. split; [congruence|]. intros c. by rewrite Hw5, Hw4, Hw.
Qed.

(** *** What the width pass measures *)

Lemma foldl_max_length (t : nat → bool) (len : nat → nat) (rows : list nat) (a : nat) :
  foldl (λ max_length row,
           if t row then
             if (max_length <? len row)%nat then len row else max_length
           else max_length) a rows
  = a `max` max_list (len <$> filter (λ row, t row = true) rows).
Proof.
  revert a. induction rows as [|row rows IH]; intros a; [cbn; lia|].
  cbn [foldl]. rewrite IH. destruct (t row) eqn:Ht.
  - rewrite filter_cons_True by done. rewrite fmap_cons. cbn [max_list]. unfold id.
    destruct (Nat.ltb_spec a (len row)); lia.
  - rewrite filter_cons_False by (by rewrite Ht). done.
Qed.

(** The code's measure: the longest text among the truthy cells. *)
Lemma column_max_length_truthy ws col :
  column_max_length ws col
  = max_list ((λ row, String.length (PyVal.str (value (cell ws row col))))
                <$> filter (λ row, PyVal.truthy (value (cell ws row col)) = true)
                      (seq 1 (max_row ws))).
Proof.
  unfold column_max_length.
  apply (foldl_max_length (λ row, PyVal.truthy (value (cell ws row col)))
           (λ row, String.length (PyVal.str (value (cell ws row col))))).
Qed.

Lemma filter_ext_in {A} (P Q : A → Prop) `{!∀ x, Decision (P x)} `{!∀ x, Decision (Q x)}
    (l : list A) :
  (∀ x, x ∈ l → P x ↔ Q x) → filter P l = filter Q l.
Proof.
  induction l as [|x l IH]; intros Hext; [done|].
  assert (Hl : ∀ y, y ∈ l → P y ↔ Q y) by (intros y Hy; apply Hext; by right).
  assert (Hx : P x ↔ Q x) by (apply Hext; left).
  destruct (decide (P x)) as [HP|HP].
  - rewrite (filter_cons_True P) by done. rewrite (filter_cons_True Q) by tauto.
    f_equal. by apply IH.
  - rewrite (filter_cons_False P) by done. rewrite (filter_cons_False Q) by tauto.
    by apply IH.
Qed.

(** Where no cell of the column holds a falsy value other than None, the
    code's width is the one the specification words. *)
Lemma column_width_agrees ws col :
  1 ≤ col ≤ max_column ws →
  (∀ row, 1 ≤ row ≤ max_row ws →
          value (cell ws row col) ≠ VNone → PyVal.truthy (value (cell ws row col)) = true) →
  column_width (format_excel_file ws) col = Some (spec_column_width ws col).
Proof.
  intros Hcol Htruthy. destruct (format_excel_file_dims ws) as (_ & _ & ->).
  rewrite bool_decide_eq_true_2 by (apply elem_of_seq; lia).
  unfold spec_column_width, spec_longest_text. rewrite column_max_length_truthy.
  rewrite (filter_ext_in (λ row, PyVal.truthy (value (cell ws row col)) = true)
             (λ row, value (cell ws row col) ≠ VNone)); [done|].
  intros row Hrow. apply elem_of_seq in Hrow.
  split.
  - intros Ht Hnone. rewrite Hnone in Ht. done.
  - intros Hv. apply Htruthy; [lia|done].
Qed.

(** C4 (fails on the code): every column gets the width "longest text of a
    non-empty cell, plus 2".  The width pass tests [if cell.value:], which
    also skips the non-empty cells holding False, 0 or 0.0: in a sheet
    with header "OK" over one cell holding False the column gets width 4,
    from the header alone, where the claim gives 5 + 2 = 7 for the text
    "False".  A cell holding 0 under an empty header gets width 2, not 3. *)
Theorem C4_width_skips_falsy_cells :
  column_width (format_excel_file (sheet_of_rows [[VStr "OK"]; [VBool false]])) 1 = Some 4 ∧
  spec_column_width (sheet_of_rows [[VStr "OK"]; [VBool false]]) 1 = 7 ∧
  column_width (format_excel_file (sheet_of_rows [[VNone]; [VInt 0]])) 1 = Some 2 ∧
  spec_column_width (sheet_of_rows [[VNone]; [VInt 0]]) 1 = 3.
Proof. by vm_compute. Qed.

(** A column whose longest cell text has 12 characters ends with width 14. *)
Lemma column_width_12_gives_14 :
  column_width
    (format_excel_file
       (sheet_of_rows [[VStr "CODIGO WMS"; VStr "Bodega"];
                       [VInt 401; VStr "Bodegas MOBU"];
                       [VStr "007"; VStr "Bodega E"]])) 2 = Some 14.
Proof. by vm_compute. Qed.

(** *** The colouring and the normalisation passes *)

(** C8: a header cell literally equal to "Bodega" exists exactly when the
    header scan locates a column; it locates the last such cell.  In the
    located column every data row (2 to the last) gets light blue over
    "Bodega OPL", light green over "Bodega E", light salmon over "Bodegas
    MOBU", and keeps its fill (none, in a sheet just written) over any other
    or absent value; no other cell changes fill.  With no "Bodega" header
    no fill changes anywhere. *)
Theorem C8_bodega_coloring (ws : Worksheet) :
  ((∃ c, 1 ≤ c ≤ max_column ws ∧ header ws c = VStr "Bodega") ↔
   is_Some (find_columns ws).1) ∧
  (∀ bodega_col, (find_columns ws).1 = Some bodega_col →
     (1 ≤ bodega_col ≤ max_column ws ∧ header ws bodega_col = VStr "Bodega" ∧
      ∀ c, 1 ≤ c ≤ max_column ws → header ws c = VStr "Bodega" → c ≤ bodega_col) ∧
     (∀ row, 2 ≤ row ≤ max_row ws →
        (value (cell ws row bodega_col) = VStr "Bodega OPL" →
           fill (cell (format_excel_file ws) row bodega_col) = Some light_blue) ∧
        (value (cell ws row bodega_col) = VStr "Bodega E" →
           fill (cell (format_excel_file ws) row bodega_col) = Some light_green) ∧
        (value (cell ws row bodega_col) = VStr "Bodegas MOBU" →
           fill (cell (format_excel_file ws) row bodega_col) = Some light_salmon) ∧
        (value (cell ws row bodega_col) ≠ VStr "Bodega OPL" →
         value (cell ws row bodega_col) ≠ VStr "Bodega E" →
         value (cell ws row bodega_col) ≠ VStr "Bodegas MOBU" →
           fill (cell (format_excel_file ws) row bodega_col)
           = fill (cell ws row bodega_col))) ∧
     (∀ row c, ¬ (c = bodega_col ∧ 2 ≤ row ≤ max_row ws) →
        fill (cell (format_excel_file ws) row c) = fill (cell ws row c))) ∧
  ((∀ c, 1 ≤ c ≤ max_column ws → header ws c ≠ VStr "Bodega") →
     ∀ row c, fill (cell (format_excel_file ws) row c) = fill (cell ws row c)).
Proof.
  pose proof (located_iff "Bodega" ws) as Hiff.
  pose proof (located_column "Bodega" ws) as Hloc.
  assert (Hfill := λ r c, proj1 (format_excel_file_cells ws r c)).
  rewrite find_columns_last_match in *. cbn [fst] in *.
  split; [by symmetry|]. split.
  - intros bodega_col Hcol. split; [by apply Hloc|]. split.
    + intros row Hrow. rewrite Hfill, Hcol.
      rewrite bool_decide_eq_true_2 by (by rewrite elem_of_data_rows).
      unfold color_bodega_cell.
      repeat split.
      * intros ->. done.
      * intros ->. done.
      * intros ->. done.
      * intros H1 H2 H3. apply eq_str_false in H1, H2, H3. by rewrite H1, H2, H3.
    + intros row c Hnot. rewrite Hfill, Hcol. rewrite bool_decide_eq_false_2; [done|].
      rewrite elem_of_data_rows. intros [[= ->] ?]. by apply Hnot.
  - intros Hnone row c. rewrite Hfill.
    destruct (last_match _ _) as [col|] eqn:Hcol.
    + destruct (Hloc col eq_refl) as (Hc & Hhdr & _). by destruct (Hnone col Hc).
    + rewrite bool_decide_eq_false_2; [done|]. by intros [? _].
Qed.

Lemma str_of_int_decimal z :
  ∃ d, NilZero.int_of_string (PyStr.str_of_int z) = Some d ∧ Z.of_int d = z.
Proof.
  exists (Z.to_int z). split; [|apply DecimalZ.of_to].
  unfold PyStr.str_of_int. apply NilZero.isi.
  - destruct z; cbn; try discriminate. intros [= H]. by apply Unsigned.to_uint_nonnil in H.
  - destruct z; cbn; try discriminate. intros [= H]. by apply Unsigned.to_uint_nonnil in H.
Qed.

(** C9: where the header scan locates a "CODIGO WMS" column, every data
    row's cell of that column holding something that is neither None nor a
    string is replaced by its [str()] (an int by its decimal numeral);
    strings and empty cells stay; every other cell keeps its value.  With
    no "CODIGO WMS" header no value changes. *)
Theorem C9_codigo_wms_strings (ws : Worksheet) :
  ((∃ c, 1 ≤ c ≤ max_column ws ∧ header ws c = VStr "CODIGO WMS") ↔
   is_Some (find_columns ws).2) ∧
  (∀ codigo_wms_col, (find_columns ws).2 = Some codigo_wms_col →
     (1 ≤ codigo_wms_col ≤ max_column ws ∧ header ws codigo_wms_col = VStr "CODIGO WMS" ∧
      ∀ c, 1 ≤ c ≤ max_column ws → header ws c = VStr "CODIGO WMS" → c ≤ codigo_wms_col) ∧
     (∀ row, 2 ≤ row ≤ max_row ws →
        (value (cell ws row codigo_wms_col) = VNone →
           value (cell (format_excel_file ws) row codigo_wms_col) = VNone) ∧
        (∀ s, value (cell ws row codigo_wms_col) = VStr s →
           value (cell (format_excel_file ws) row codigo_wms_col) = VStr s) ∧
        (∀ z, value (cell ws row codigo_wms_col) = VInt z →
           value (cell (format_excel_file ws) row codigo_wms_col)
           = VStr (PyStr.str_of_int z) ∧
           ∃ d, NilZero.int_of_string (PyStr.str_of_int z) = Some d ∧ Z.of_int d = z) ∧
        (value (cell ws row codigo_wms_col) ≠ VNone →
         PyVal.is_str (value (cell ws row codigo_wms_col)) = false →
           value (cell (format_excel_file ws) row codigo_wms_col)
           = VStr (PyVal.str (value (cell ws row codigo_wms_col))))) ∧
     (∀ row c, ¬ (c = codigo_wms_col ∧ 2 ≤ row ≤ max_row ws) →
        value (cell (format_excel_file ws) row c) = value (cell ws row c))) ∧
  ((∀ c, 1 ≤ c ≤ max_column ws → header ws c ≠ VStr "CODIGO WMS") →
     ∀ row c, value (cell (format_excel_file ws) row c) = value (cell ws row c)).
Proof.
  pose proof (located_iff "CODIGO WMS" ws) as Hiff.
  pose proof (located_column "CODIGO WMS" ws) as Hloc.
  assert (Hvalue := λ r c, proj2 (format_excel_file_cells ws r c)).
  rewrite find_columns_last_match in *. cbn [snd] in *.
  split; [by symmetry|]. split.
  - intros codigo_wms_col Hcol. split; [by apply Hloc|]. split.
    + intros row Hrow. rewrite Hvalue, Hcol.
      rewrite bool_decide_eq_true_2 by (by rewrite elem_of_data_rows).
      unfold stringify_cell. split; [|split; [|split]].
      * intros H. by rewrite H.
      * intros s H. by rewrite H.
      * intros z H. rewrite H. split; [done|apply str_of_int_decimal].
      * intros Hnone Hstr. rewrite Hstr.
        by destruct (value (cell ws row codigo_wms_col)).
    + intros row c Hnot. rewrite Hvalue, Hcol. rewrite bool_decide_eq_false_2; [done|].
      rewrite elem_of_data_rows. intros [[= ->] ?]. by apply Hnot.
  - intros Hnone row c. rewrite Hvalue.
    destruct (last_match _ _) as [col|] eqn:Hcol.
    + destruct (Hloc col eq_refl) as (Hc & Hhdr & _). by destruct (Hnone col Hc).
    + rewrite bool_decide_eq_false_2; [done|]. by intros [? _].
Qed.
(** *** The statements at the sample inputs *)

Lemma sample_tables_distinct_labels :
  ∀ r, r ∈ sample_dict.*2 →
       ∃ t, sample_store !! r = Some t ∧ NoDup (columns t).
Proof.
  intros r Hr. cbn in Hr. rewrite !elem_of_cons, elem_of_nil in Hr.
  destruct Hr as [->|[->|[]]]; eexists; (split; [reflexivity|]);
    apply (bool_decide_unpack _); by vm_compute.
Qed.

Lemma C1_merged_rows_one_label_witness :
  sample_dict ≠ [] ∧
  Forall (λ warehouse, warehouse ∈ warehouses) sample_dict.*1 ∧
  ∃ merged_df,
    (merge_inventories sample_dict sample_store).2 = Returned (Some merged_df) ∧
    ∀ i, i < nrows merged_df →
      ∃ l, row_values merged_df i "Bodega" = [VStr l] ∧ l ≠ "" ∧ l ∈ bodega_labels.
Proof.
  assert (H1 : sample_dict ≠ []) by done.
  assert (H2 : Forall (λ warehouse, warehouse ∈ warehouses) sample_dict.*1)
    by (repeat constructor).
  exact (conj H1 (conj H2 (C1_merged_rows_one_label sample_dict sample_store H1 H2
                             sample_tables_distinct_labels))).
Defined.


Lemma C3_absence_iff_no_tables_witness :
  sample_dict ≠ [] ∧
  (∃ merged_df,
     (merge_inventories sample_dict sample_store).2 = Returned (Some merged_df)) ∧
  (merge_inventories [] sample_store).2 = Returned None.
Proof.
  assert (H1 : sample_dict ≠ []) by done.
  split; [done|]. split.
  - exact (proj1 (proj2 (C3_absence_iff_no_tables sample_dict sample_store)) H1
             sample_tables_distinct_labels).
  - exact (proj2 (proj1 (C3_absence_iff_no_tables [] sample_store)) eq_refl).
Defined.

(** Not every non-empty mapping gives a table: here the OPL table has two
    columns "A", the E table other columns, and [pd.concat] cannot align
    them. *)
Lemma C3_repeated_label_raises :
  [("OPL", 0); ("E", 1)] ≠ @nil (string * ref) ∧
  (merge_inventories [("OPL", 0); ("E", 1)]
     (<[0 := sample_repeated]> (<[1 := sample_opl]> ∅))).2
  = Raised "Reindexing only valid with uniquely valued Index objects".
Proof. split; [done|]. by vm_compute. Qed.

Lemma C10_tables_tagged_in_place_witness :
  sample_dict = [] ++ ("OPL", 0) :: [("MOBU", 1)] ∧
  sample_store !! 0 = Some sample_opl ∧
(0 ∉ [("MOBU", 1)].*2) ∧
  ∃ t', (merge_inventories sample_dict sample_store).1 !! 0 = Some t' ∧
        tagged_from "Bodega OPL" sample_opl t'.
Proof.
  assert (H1 : sample_dict = [] ++ ("OPL", 0) :: [("MOBU", 1)]) by reflexivity.
  assert (H2 : sample_store !! 0 = Some sample_opl) by reflexivity.
  assert (H3 : 0 ∉ [("MOBU", 1)].*2).
  { cbn. intros H. apply list_elem_of_singleton in H. lia. }
  destruct (proj1 (C10_tables_tagged_in_place sample_dict sample_store)
              [] "OPL" 0 [("MOBU", 1)] sample_opl H1 H2) as (t' & _ & Htag & Hfinal).
  repeat (split; [done|]). exists t'. split; [by apply Hfinal|exact Htag].
Defined.

Lemma C6_read_excel_file_total_witness :
  path_exists sample_world (sample_base_E +:+ "x.xlsx") = false ∧
  read_excel_file sample_world (sample_base_E +:+ "x.xlsx")
    = (["File not found: " +:+ sample_base_E +:+ "x.xlsx"], Returned None) ∧
  path_exists sample_world_corrupt "C:\x.xlsx" = true ∧
  pd_read_excel sample_world_corrupt "C:\x.xlsx" = Raised "File is not a zip file" ∧
  read_excel_file sample_world_corrupt "C:\x.xlsx"
    = (["Error reading C:\x.xlsx: File is not a zip file"], Returned None) ∧
  path_exists sample_world "/tmp/a.xlsx" = true ∧
  pd_read_excel sample_world "/tmp/a.xlsx" = Returned sample_opl ∧
  read_excel_file sample_world "/tmp/a.xlsx"
    = (["Successfully loaded: /tmp/a.xlsx"], Returned (Some sample_opl)).
Proof.
  assert (H1 : path_exists sample_world (sample_base_E +:+ "x.xlsx") = false) by reflexivity.
  assert (H2 : path_exists sample_world_corrupt "C:\x.xlsx" = true) by reflexivity.
  assert (H3 : pd_read_excel sample_world_corrupt "C:\x.xlsx"
               = Raised "File is not a zip file") by reflexivity.
  assert (H4 : path_exists sample_world "/tmp/a.xlsx" = true) by reflexivity.
  assert (H5 : pd_read_excel sample_world "/tmp/a.xlsx" = Returned sample_opl) by reflexivity.
  split; [exact H1|]. split.
  { exact (proj1 (proj2 (C6_read_excel_file_total sample_world _)) H1). }
  split; [exact H2|]. split; [exact H3|]. split.
  { exact (proj1 (proj2 (proj2 (C6_read_excel_file_total sample_world_corrupt _))) _ H2 H3). }
  split; [exact H4|]. split; [exact H5|].
  exact (proj2 (proj2 (proj2 (C6_read_excel_file_total sample_world _))) _ H4 H5).
Defined.

Lemma C7_collector_keeps_loaded_warehouses_witness :
  "LATA" ∈ ["LATA"; "PREFORMA"; "PT"] ∧
  resolved_path sample_world "LATA" "E"
    = Some (sample_base_E +:+ "INVENTARIO LATA VACIA 2025 BODE.xlsx") ∧
  path_exists sample_world (sample_base_E +:+ "INVENTARIO LATA VACIA 2025 BODE.xlsx") = false ∧
  is_Some (warehouse_table sample_world "LATA" "OPL") ∧
  is_Some (warehouse_table sample_world "LATA" "MOBU") ∧
  (∃ out results,
      process_inventory sample_world "LATA" = (out, Returned results) ∧
      results.*1 = ["OPL"; "MOBU"]) ∧
("KARDEX" ∉ ["LATA"; "PREFORMA"; "PT"]) ∧
  process_inventory sample_world "KARDEX" = (["Unknown inventory type: KARDEX"], Returned []).
Proof.
  assert (H1 : "LATA" ∈ ["LATA"; "PREFORMA"; "PT"]) by (repeat constructor).
  assert (H2 : resolved_path sample_world "LATA" "E"
               = Some (sample_base_E +:+ "INVENTARIO LATA VACIA 2025 BODE.xlsx"))
    by reflexivity.
  assert (H3 : path_exists sample_world
                 (sample_base_E +:+ "INVENTARIO LATA VACIA 2025 BODE.xlsx") = false)
    by reflexivity.
  assert (H4 : is_Some (warehouse_table sample_world "LATA" "OPL")) by (by eexists).
  assert (H5 : is_Some (warehouse_table sample_world "LATA" "MOBU")) by (by eexists).
  assert (H6 : "KARDEX" ∉ ["LATA"; "PREFORMA"; "PT"]).
  { rewrite !not_elem_of_cons. repeat split; try discriminate. apply not_elem_of_nil. }
  repeat (split; [done|]). split; [|split; [done|]].
  - destruct (proj1 (C7_collector_keeps_loaded_warehouses sample_world "LATA") H1)
      as (out & results & Hres & _ & _ & Hkeys).
    exists out, results. split; [done|]. exact (Hkeys _ H2 H3 H4 H5).
  - exact (proj2 (C7_collector_keeps_loaded_warehouses sample_world "KARDEX") H6).
Defined.

Lemma C8_bodega_coloring_witness :
  (find_columns sample_sheet).1 = Some 3 ∧
  fill (cell (format_excel_file sample_sheet) 2 3) = Some light_blue ∧
  fill (cell (format_excel_file sample_sheet) 3 3) = Some light_green ∧
  fill (cell (format_excel_file sample_sheet) 4 3) = Some light_salmon ∧
  fill (cell (format_excel_file sample_sheet) 5 3) = None ∧
  (∀ c, 1 ≤ c ≤ max_column sample_sheet_plain → header sample_sheet_plain c ≠ VStr "Bodega") ∧
  fill (cell (format_excel_file sample_sheet_plain) 2 1) = None.
Proof.
  assert (H1 : (find_columns sample_sheet).1 = Some 3) by reflexivity.
  assert (H2 : ∀ c, 1 ≤ c ≤ max_column sample_sheet_plain →
                    header sample_sheet_plain c ≠ VStr "Bodega").
  { intros c Hc. change (max_column sample_sheet_plain) with 2 in Hc.
    destruct c as [|[|[|c]]]; [lia|discriminate|discriminate|lia]. }
  destruct (C8_bodega_coloring sample_sheet) as (_ & Hcol & _).
  destruct (Hcol 3 H1) as (_ & Hrows & _).
  assert (Hmax : max_row sample_sheet = 5) by reflexivity.
  split; [exact H1|].
  split; [exact (proj1 (Hrows 2 ltac:(rewrite Hmax; lia)) eq_refl)|].
  split; [exact (proj1 (proj2 (Hrows 3 ltac:(rewrite Hmax; lia))) eq_refl)|].
  split; [exact (proj1 (proj2 (proj2 (Hrows 4 ltac:(rewrite Hmax; lia)))) eq_refl)|].
  split.
  { apply (proj2 (proj2 (proj2 (Hrows 5 ltac:(rewrite Hmax; lia))))); discriminate. }
  split; [exact H2|].
  exact (proj2 (proj2 (C8_bodega_coloring sample_sheet_plain)) H2 2 1).
Defined.

Lemma C9_codigo_wms_strings_witness :
  (find_columns sample_sheet).2 = Some 1 ∧
  value (cell (format_excel_file sample_sheet) 2 1) = VStr "401" ∧
  value (cell (format_excel_file sample_sheet) 3 1) = VStr "007" ∧
  value (cell (format_excel_file sample_sheet) 4 1) = VNone ∧
  value (cell (format_excel_file sample_sheet) 2 2) = VInt 10 ∧
  (∀ c, 1 ≤ c ≤ max_column sample_sheet_plain →
        header sample_sheet_plain c ≠ VStr "CODIGO WMS") ∧
  value (cell (format_excel_file sample_sheet_plain) 2 1) = VInt 401.
Proof.
  assert (H1 : (find_columns sample_sheet).2 = Some 1) by reflexivity.
  assert (H2 : ∀ c, 1 ≤ c ≤ max_column sample_sheet_plain →
                    header sample_sheet_plain c ≠ VStr "CODIGO WMS").
  { intros c Hc. change (max_column sample_sheet_plain) with 2 in Hc.
    destruct c as [|[|[|c]]]; [lia|discriminate|discriminate|lia]. }
  destruct (C9_codigo_wms_strings sample_sheet) as (_ & Hcol & _).
  destruct (Hcol 1 H1) as (_ & Hrows & Hother).
  assert (Hmax : max_row sample_sheet = 5) by reflexivity.
  split; [exact H1|].
  split; [exact (proj1 (proj1 (proj2 (proj2 (Hrows 2 ltac:(rewrite Hmax; lia)))) 401%Z eq_refl))|].
  split; [exact (proj1 (proj2 (Hrows 3 ltac:(rewrite Hmax; lia))) "007" eq_refl)|].
  split; [exact (proj1 (Hrows 4 ltac:(rewrite Hmax; lia)) eq_refl)|].
  split; [apply (Hother 2 2); intros [? _]; discriminate|].
  split; [exact H2|].
  exact (proj2 (proj2 (C9_codigo_wms_strings sample_sheet_plain)) H2 2 1).
Defined.

(** *** Two corner cases, evaluated *)

(** Two entries naming one table object: the object ends with the label of
    the later entry, and both blocks of the merged table carry it. *)
Example aliased_entries_share_the_last_label :
  let '(h, merged_df) := merge_inventories [("OPL", 0); ("MOBU", 0)] sample_store in
  (λ df, get_column df "Bodega") <$> h !! 0
    = Some (Some [VStr "Bodegas MOBU"; VStr "Bodegas MOBU"]) ∧
  ∃ df, merged_df = Returned (Some df) ∧
        get_column df "Bodega"
        = Some [VStr "Bodegas MOBU"; VStr "Bodegas MOBU";
                VStr "Bodegas MOBU"; VStr "Bodegas MOBU"].
Proof. vm_compute. split; [done|]. eexists. split; [reflexivity|]. done. Qed.

(** A single table that repeats a label needs no alignment: the merged
    table keeps both columns. *)
Example repeated_labels_are_kept_without_alignment :
  ∃ df, (merge_inventories [("OPL", 0)] (<[0 := sample_repeated]> ∅)).2
        = Returned (Some df) ∧
        columns df = ["A"; "A"; "Bodega"] ∧
        data df = [("A", [VInt 1]); ("A", [VInt 2]); ("Bodega", [VStr "Bodega OPL"])].
Proof. eexists. split; [by vm_compute|]. by vm_compute. Qed.

(** Integers on their way to a float64 column. *)
Example float64_of_int_values :
  float64_of_int 10 = VOther true "10.0" ∧
  float64_of_int 0 = VOther false "0.0" ∧
  float64_of_int (-3) = VOther true "-3.0" ∧
  float64_of_int (2 ^ 53 + 1) = VOther true "9007199254740992.0" ∧
  float64_of_int (- 10 ^ 16) = VOther true "-1e+16" ∧
  float64_of_int 123456789012345678 = VOther true "1.2345678901234568e+17" ∧
  float64_of_int (2 ^ 63 - 1) = VOther true "9.223372036854776e+18".
Proof. by vm_compute. Qed.

(** Two header cells equal to "Bodega": the scan keeps the last one, and
    only that column is coloured. *)
Example repeated_bodega_header_colors_the_last :
  let ws := sheet_of_rows [[VStr "Bodega"; VStr "Bodega"];
                           [VStr "Bodega E"; VStr "Bodega OPL"]] in
  (find_columns ws).1 = Some 2 ∧
  fill (cell (format_excel_file ws) 2 1) = None ∧
  fill (cell (format_excel_file ws) 2 2) = Some light_blue.
Proof. by vm_compute. Qed.

(** ** Further properties of the script *)

(** *** The path resolvers *)

Lemma upper_char_idemp c : PyStr.upper_char (PyStr.upper_char c) = PyStr.upper_char c.
Proof. by destruct c as [[] [] [] [] [] [] [] []]. Qed.

Lemma upper_idemp s : PyStr.upper (PyStr.upper s) = PyStr.upper s.
Proof. induction s as [|c s IH]; [done|]. cbn. by rewrite upper_char_idemp, IH. Qed.

(** X1: on every platform [get_base_path] resolves a warehouse name exactly
    when its upper-case form is OPL, E or MOBU, and the letter case of the
    name never changes the path. *)
Theorem get_base_path_resolves (p : platform) (warehouse : string) :
  (is_Some (get_base_path p warehouse) ↔ PyStr.upper warehouse ∈ warehouses) ∧
  get_base_path p (PyStr.upper warehouse) = get_base_path p warehouse.
Proof.
  split.
  - unfold get_base_path, warehouses. rewrite !elem_of_cons, elem_of_nil.
    destruct (String.eqb (os_name p) "nt");
      destruct (String.eqb_spec (PyStr.upper warehouse) "OPL") as [->|H1];
      try (split; [tauto|by eexists]);
      destruct (String.eqb_spec (PyStr.upper warehouse) "E") as [->|H2];
      try (split; [tauto|by eexists]);
      destruct (String.eqb_spec (PyStr.upper warehouse) "MOBU") as [->|H3];
      try (split; [tauto|by eexists]);
      (split; [by intros [? ?]|intuition congruence]).
  - unfold get_base_path. by rewrite upper_idemp.
Qed.

Lemma endswith_contains (s x : string) :
  PyStr.endswith s ".local" = true → PyStr.contains (s +:+ x) ".local" = true.
Proof.
  induction s as [|c s IH]; [done|].
  cbn [PyStr.endswith]. rewrite string_app_cons. cbn [PyStr.contains].
  intros [Heq|Htail]%orb_true_iff.
  - apply String.eqb_eq in Heq. rewrite <- string_app_cons, Heq. done.
  - rewrite IH by done. apply orb_true_r.
Qed.

(** X2: when the ".local" a host name ends with is its only occurrence of
    that text, the output directory is the same whether the machine reports
    the name with the suffix or without it. *)
Theorem get_base_output_path_local_suffix (os host : string) :
  PyStr.contains (host +:+ ".loca") ".local" = false →
  get_base_output_path (Platform os (host +:+ ".local"))
  = get_base_output_path (Platform os host).
Proof.
  intros Hocc. unfold get_base_output_path. cbn [os_name].
  destruct (get_clean_hostname_single_suffix os host Hocc) as [-> _].
  rewrite (get_clean_hostname_no_suffix (Platform os host)); [done|].
  cbn [hostname]. destruct (PyStr.endswith host ".local") eqn:Hend; [|done].
  by rewrite (endswith_contains host ".loca" Hend) in Hocc.
Qed.

Lemma get_base_output_path_local_suffix_witness :
  PyStr.contains ("JM-MBP" +:+ ".loca") ".local" = false ∧
  get_base_output_path (Platform "posix" ("JM-MBP" +:+ ".local"))
  = get_base_output_path (Platform "posix" "JM-MBP").
Proof.
  assert (H : PyStr.contains ("JM-MBP" +:+ ".loca") ".local" = false) by reflexivity.
  exact (conj H (get_base_output_path_local_suffix "posix" "JM-MBP" H)).
Defined.

(** Outside Windows the output directory is defined exactly for the two
    known machines, and on Windows always. *)
Lemma get_base_output_path_defined (p : platform) :
  is_Some (get_base_output_path p) ↔
  os_name p = "nt" ∨ get_clean_hostname p = "JM-MBP" ∨ get_clean_hostname p = "JM-MS".
Proof.
  unfold get_base_output_path.
  destruct (String.eqb_spec (os_name p) "nt") as [Hnt|Hnt]; [split; [tauto|by eexists]|].
  destruct (String.eqb_spec (get_clean_hostname p) "JM-MBP") as [H1|H1];
    [split; [tauto|by eexists]|].
  destruct (String.eqb_spec (get_clean_hostname p) "JM-MS") as [H2|H2];
    [split; [tauto|by eexists]|].
  split; [by intros [? ?]|tauto].
Qed.

(** *** The directory listing *)

Lemma for_each_print_log (files : list string) :
  IO.for_each (λ (_ : unit) f, IO.print f) tt files = (files, Returned tt).
Proof.
  induction files as [|f files IH]; [done|]. cbn. by rewrite IH.
Qed.

(** X3: [list_directory_contents] never raises.  It prints a notice when
    the warehouse has no base path; otherwise the heading and then every
    file name [os.listdir] returns, or, when [os.listdir] raises, the
    heading and one line with the directory and the cause. *)
Theorem list_directory_contents_log (w : world) (warehouse : string) :
  (get_base_path (plat w) warehouse = None →
     list_directory_contents w warehouse
     = (["Could not determine base path for warehouse: " +:+ warehouse], Returned tt)) ∧
  (∀ base_path files,
     get_base_path (plat w) warehouse = Some base_path →
     os_listdir w base_path = Returned files →
     list_directory_contents w warehouse
     = ((nl +:+ "--- Listing contents for warehouse " +:+ warehouse +:+ " ---") :: files,
        Returned tt)) ∧
  (∀ base_path e,
     get_base_path (plat w) warehouse = Some base_path →
     os_listdir w base_path = Raised e →
     list_directory_contents w warehouse
     = ([nl +:+ "--- Listing contents for warehouse " +:+ warehouse +:+ " ---";
         "Error listing directory " +:+ base_path +:+ ": " +:+ e],
        Returned tt)).
Proof.
  unfold list_directory_contents. split; [|split].
  - by intros ->.
  - intros base_path files -> Hls. rewrite Hls. cbn. by rewrite for_each_print_log.
  - intros base_path e -> Hls. by rewrite Hls.
Qed.

Lemma list_directory_contents_log_witness :
  get_base_path (plat sample_world) "E" = Some sample_base_E ∧
  os_listdir sample_world sample_base_E = Raised "not mounted" ∧
  list_directory_contents sample_world "E"
  = ([nl +:+ "--- Listing contents for warehouse E ---";
      "Error listing directory " +:+ sample_base_E +:+ ": not mounted"],
     Returned tt) ∧
  get_base_path (plat sample_world_corrupt) "e"
  = Some "\\192.168.10.18\Bodega General\LIVSMART\BODEGA E\STOCK ACTUALIZADO - BODEGA E" ∧
  list_directory_contents sample_world_corrupt "e"
  = ([nl +:+ "--- Listing contents for warehouse e ---"], Returned tt).
Proof.
  assert (H1 : get_base_path (plat sample_world) "E" = Some sample_base_E) by reflexivity.
  assert (H2 : os_listdir sample_world sample_base_E = Raised "not mounted") by reflexivity.
  split; [exact H1|]. split; [exact H2|]. split.
  { exact (proj2 (proj2 (list_directory_contents_log sample_world "E")) _ _ H1 H2). }
  split; [reflexivity|].
  exact (proj1 (proj2 (list_directory_contents_log sample_world_corrupt "e")) _ [] eq_refl eq_refl).
Defined.

(** *** The collector's paths and its log *)

(** X4: for each inventory type, on every platform, the three warehouses'
    files resolve, and to three different paths: the PT files, which share
    one name, are still told apart by their folders. *)
Theorem resolved_paths_distinct (w : world) (inventory_type : string) :
  inventory_type ∈ ["LATA"; "PREFORMA"; "PT"] →
  ∃ path_OPL path_E path_MOBU,
    resolved_path w inventory_type "OPL" = Some path_OPL ∧
    resolved_path w inventory_type "E" = Some path_E ∧
    resolved_path w inventory_type "MOBU" = Some path_MOBU ∧
    path_OPL ≠ path_E ∧ path_E ≠ path_MOBU ∧ path_OPL ≠ path_MOBU.
Proof.
  rewrite !elem_of_cons, elem_of_nil. unfold resolved_path, get_base_path, os_path_join.
  intros [->|[->|[->|[]]]]; destruct (String.eqb (os_name (plat w)) "nt");
    eexists _, _, _; (repeat split; [reflexivity..| | |]); discriminate.
Qed.

Lemma resolved_paths_distinct_witness :
  "PT" ∈ ["LATA"; "PREFORMA"; "PT"] ∧
  ∃ path_OPL path_E path_MOBU,
    resolved_path sample_world "PT" "OPL" = Some path_OPL ∧
    resolved_path sample_world "PT" "E" = Some path_E ∧
    resolved_path sample_world "PT" "MOBU" = Some path_MOBU ∧
    path_OPL ≠ path_E ∧ path_E ≠ path_MOBU ∧ path_OPL ≠ path_MOBU.
Proof.
  assert (H : "PT" ∈ ["LATA"; "PREFORMA"; "PT"]) by (repeat constructor).
  exact (conj H (resolved_paths_distinct sample_world "PT" H)).
Defined.

Lemma resolved_path_known (w : world) (inventory_type warehouse : string) :
  inventory_type ∈ ["LATA"; "PREFORMA"; "PT"] → warehouse ∈ warehouses →
  is_Some (resolved_path w inventory_type warehouse).
Proof.
  unfold warehouses. rewrite !elem_of_cons, !elem_of_nil.
  unfold resolved_path, get_base_path.
  intros [->|[->|[->|[]]]] [->|[->|[->|[]]]];
    destruct (String.eqb (os_name (plat w)) "nt"); by eexists.
Qed.

Lemma read_excel_file_log w file_path :
  read_excel_file w file_path
  = (match loaded_table w file_path with
     | Some _ => ["Successfully loaded: " +:+ file_path]
     | None =>
         if path_exists w file_path then
           match pd_read_excel w file_path with
           | Raised e => ["Error reading " +:+ file_path +:+ ": " +:+ e]
           | Returned _ => []
           end
         else ["File not found: " +:+ file_path]
     end, Returned (loaded_table w file_path)).
Proof.
  unfold read_excel_file, loaded_table.
  destruct (path_exists w file_path); [|done].
  by destruct (pd_read_excel w file_path).
Qed.

(** The last lines of one turn of the collector's loop, when the path of
    the warehouse resolves. *)
Lemma process_step_log w inventory_type files results warehouse file_path :
  inventory_files !! inventory_type = Some files →
  resolved_path w inventory_type warehouse = Some file_path →
  ∃ pre,
    process_step w inventory_type files results warehouse
    = (pre ++ match loaded_table w file_path with
              | Some _ => ["Successfully loaded: " +:+ file_path]
              | None => ["Skipping " +:+ warehouse +:+ " for " +:+ inventory_type +:+
                         " as file could not be loaded."]
              end,
       Returned match loaded_table w file_path with
                | Some df => dict_set results warehouse df
                | None => results
                end).
Proof.
  intros Hfiles. unfold resolved_path, process_step. rewrite Hfiles.
  destruct (get_base_path (plat w) warehouse) as [base_path|]; [|done].
  destruct (list_directory_contents_returns w warehouse) as [out1 ->].
  cbn [IO.bind]. destruct (PyVal.not_name (files !! warehouse)); [done|].
  intros [= <-]. rewrite read_excel_file_log.
  destruct (loaded_table w _) as [df|]; cbn.
  - eexists (out1 ++ [_]). by rewrite <- app_assoc.
  - eexists (out1 ++ _ :: _). by rewrite <- app_assoc.
Qed.

(** X5: the collector's log accounts for every warehouse: for a known
    inventory type, each warehouse of OPL, E, MOBU whose file loads has its
    "Successfully loaded" line with the path, and each one whose file does
    not load has its "Skipping" line. *)
Theorem process_inventory_log_accounts (w : world) (inventory_type warehouse : string) :
  inventory_type ∈ ["LATA"; "PREFORMA"; "PT"] →
  warehouse ∈ warehouses →
  ∃ file_path,
    resolved_path w inventory_type warehouse = Some file_path ∧
    (is_Some (loaded_table w file_path) →
       "Successfully loaded: " +:+ file_path ∈ (process_inventory w inventory_type).1) ∧
    (loaded_table w file_path = None →
       "Skipping " +:+ warehouse +:+ " for " +:+ inventory_type +:+
       " as file could not be loaded." ∈ (process_inventory w inventory_type).1).
Proof.
  intros Hin Hwh. destruct (inventory_files_known _ Hin) as [files Hfiles].
  destruct (resolved_path_known w inventory_type "OPL" Hin) as [p1 Hp1];
    [repeat constructor|].
  destruct (resolved_path_known w inventory_type "E" Hin) as [p2 Hp2];
    [repeat constructor|].
  destruct (resolved_path_known w inventory_type "MOBU" Hin) as [p3 Hp3];
    [repeat constructor|].
  unfold process_inventory. rewrite Hfiles. unfold warehouses in *. cbn [IO.for_each].
  destruct (process_step_log w inventory_type files [] "OPL" p1 Hfiles Hp1) as [o1 ->].
  cbn [IO.bind].
  set (r1 := match loaded_table w p1 with Some df => dict_set [] "OPL" df | None => [] end).
  destruct (process_step_log w inventory_type files r1 "E" p2 Hfiles Hp2) as [o2 ->].
  cbn [IO.bind].
  set (r2 := match loaded_table w p2 with Some df => dict_set r1 "E" df | None => r1 end).
  destruct (process_step_log w inventory_type files r2 "MOBU" p3 Hfiles Hp3) as [o3 ->].
  cbn [IO.bind IO.ret fst]. rewrite app_nil_r.
  apply elem_of_cons in Hwh as [->|Hwh]; [|apply elem_of_cons in Hwh as [->|Hwh]];
    [| |apply list_elem_of_singleton in Hwh as ->].
  - exists p1. split; [done|]. split.
    + intros [df Hdf]. rewrite Hdf. rewrite !elem_of_app, list_elem_of_singleton. tauto.
    + intros Hdf. rewrite Hdf. rewrite !elem_of_app, list_elem_of_singleton. tauto.
  - exists p2. split; [done|]. split.
    + intros [df Hdf]. rewrite Hdf. rewrite !elem_of_app, list_elem_of_singleton. tauto.
    + intros Hdf. rewrite Hdf. rewrite !elem_of_app, list_elem_of_singleton. tauto.
  - exists p3. split; [done|]. split.
    + intros [df Hdf]. rewrite Hdf. rewrite !elem_of_app, list_elem_of_singleton. tauto.
    + intros Hdf. rewrite Hdf. rewrite !elem_of_app, list_elem_of_singleton. tauto.
Qed.

Lemma process_inventory_log_accounts_witness :
  "LATA" ∈ ["LATA"; "PREFORMA"; "PT"] ∧ "E" ∈ warehouses ∧
  loaded_table sample_world (sample_base_E +:+ "INVENTARIO LATA VACIA 2025 BODE.xlsx") = None ∧
  "Skipping E for LATA as file could not be loaded." ∈ (process_inventory sample_world "LATA").1.
Proof.
  assert (H1 : "LATA" ∈ ["LATA"; "PREFORMA"; "PT"]) by (repeat constructor).
  assert (H2 : "E" ∈ warehouses) by (repeat constructor).
  assert (H3 : loaded_table sample_world
                 (sample_base_E +:+ "INVENTARIO LATA VACIA 2025 BODE.xlsx") = None)
    by reflexivity.
  destruct (process_inventory_log_accounts sample_world "LATA" "E" H1 H2)
    as (file_path & Hpath & _ & Hskip).
  injection Hpath as <-.
  exact (conj H1 (conj H2 (conj H3 (Hskip H3)))).
Defined.

(** *** The merger on any dict *)

Lemma merge_inventories_Returned d h merged_df :
  (merge_inventories d h).2 = Returned (Some merged_df) →
  concat (omap (λ r : ref, tagged_store d h !! r) d.*2) = Returned merged_df.
Proof.
  rewrite merge_inventories_eq. destruct d as [|item d]; [done|]. cbn [snd].
  destruct (concat _); [|done]. by intros [= ->].
Qed.

Lemma tables_NoDup_tagged d h :
  (∀ t, t ∈ tables_of d h → NoDup (columns t)) →
  Forall (λ df, NoDup (columns df)) (omap (λ r : ref, tagged_store d h !! r) d.*2).
Proof.
  intros H. apply (tagged_NoDup _ _ _ (tagged_frames_dict d h)). by apply Forall_forall.
Qed.

(** X6: whenever [merge_inventories] returns a table, it has as many rows
    as the tables of the dict's entries together, numbered 0, 1, 2, ...
    without gaps, whatever index the input tables had; a table named by
    two entries counts twice. *)
Theorem merged_rows_counted (d : list (string * ref)) (h : gmap ref DataFrame)
    (merged_df : DataFrame) :
  (merge_inventories d h).2 = Returned (Some merged_df) →
  nrows merged_df = sum_list (nrows <$> tables_of d h) ∧
  index merged_df = (λ i : nat, VInt (Z.of_nat i)) <$> seq 0 (nrows merged_df).
Proof.
  intros Hm. apply merge_inventories_Returned in Hm.
  rewrite (nrows_concat _ _ Hm). destruct (concat_Returned _ _ Hm) as (_ & Hidx & _).
  rewrite Hidx. by rewrite (tagged_nrows _ _ _ (tagged_frames_dict d h)).
Qed.

Lemma sample_tables : tables_of sample_dict sample_store = [sample_opl; sample_mobu].
Proof. reflexivity. Qed.

Lemma sample_merge_returns :
  ∃ merged_df, (merge_inventories sample_dict sample_store).2 = Returned (Some merged_df).
Proof. eexists. by vm_compute. Qed.

Lemma merged_rows_counted_witness :
  ∃ merged_df,
    (merge_inventories sample_dict sample_store).2 = Returned (Some merged_df) ∧
    nrows merged_df = 5 ∧
    index merged_df = [VInt 0; VInt 1; VInt 2; VInt 3; VInt 4].
Proof.
  destruct sample_merge_returns as [m Hm]. exists m. split; [done|].
  destruct (merged_rows_counted sample_dict sample_store m Hm) as [Hrows Hidx].
  change (sum_list (nrows <$> tables_of sample_dict sample_store)) with 5 in Hrows.
  split; [done|]. by rewrite Hidx, Hrows.
Defined.

(** X7: whenever [merge_inventories] returns a table, its columns are
    "Bodega" and every column of every table of the dict as it was before
    the call, and no label is repeated among them exactly when no table of
    the dict repeats a label. *)
Theorem merged_columns (d : list (string * ref)) (h : gmap ref DataFrame)
    (merged_df : DataFrame) :
  (merge_inventories d h).2 = Returned (Some merged_df) →
  (∀ c, c ∈ columns merged_df ↔
        c = "Bodega" ∨ ∃ t, t ∈ tables_of d h ∧ c ∈ columns t) ∧
  (NoDup (columns merged_df) ↔ ∀ t, t ∈ tables_of d h → NoDup (columns t)).
Proof.
  intros Hm. apply merge_inventories_Returned in Hm.
  destruct (concat_Returned _ _ Hm) as (Hne & _ & Hmem & Hnd).
  pose proof (tagged_frames_dict d h) as Htag. split.
  - intros c. rewrite Hmem, (tagged_columns _ _ _ c Htag). split.
    + intros (t & Ht & [Hc| ->]); [right; by exists t|by left].
    + intros [->|(t & Ht & Hc)]; [|exists t; tauto].
      destruct (tables_of d h) as [|t ts] eqn:Hts.
      * apply Forall2_nil_inv_l in Htag. done.
      * exists t. split; [left|by right].
  - by rewrite Hnd, (tagged_NoDup _ _ _ Htag), Forall_forall.
Qed.

Lemma merged_columns_witness :
  ∃ merged_df,
    (merge_inventories sample_dict sample_store).2 = Returned (Some merged_df) ∧
    "SALDO" ∈ columns merged_df ∧ "LOTE" ∈ columns merged_df ∧
    NoDup (columns merged_df).
Proof.
  destruct sample_merge_returns as [m Hm]. exists m. split; [done|].
  destruct (merged_columns sample_dict sample_store m Hm) as [Hcols Hnd].
  split; [|split].
  - apply Hcols. right. exists sample_mobu. split; [|repeat constructor]. right. left.
  - apply Hcols. right. exists sample_opl. split; [|repeat constructor]. left.
  - apply Hnd. intros t Ht. apply list_elem_of_omap in Ht as (r & Hr & Hlook).
    destruct (sample_tables_distinct_labels r Hr) as (t' & Ht' & Hd). congruence.
Defined.

Lemma merged_column d h c merged_df :
  (merge_inventories d h).2 = Returned (Some merged_df) →
  (∀ t, t ∈ tables_of d h → NoDup (columns t)) →
  c ≠ "Bodega" →
  (∃ t, t ∈ tables_of d h ∧ c ∈ columns t) →
  get_column merged_df c = Some (stack (block_of c <$> tables_of d h)).
Proof.
  intros Hm Hnd Hne (t & Ht & Hc). apply merge_inventories_Returned in Hm.
  pose proof (tagged_frames_dict d h) as Htag.
  rewrite (get_column_concat _ _ c (tables_NoDup_tagged d h Hnd) Hm).
  rewrite (tagged_blocks _ _ _ c Hne Htag).
  rewrite bool_decide_eq_true_2; [done|].
  apply elem_of_union_columns, (tagged_columns _ _ _ c Htag). exists t. tauto.
Qed.

Lemma bind_block_cells c ts :
  (block_of c <$> ts) ≫= block_cells = ts ≫= column_or_NaN c.
Proof. induction ts as [|t ts IH]; [done|]. cbn. by rewrite IH. Qed.

(** X8: merging loses no cell and keeps the order: in a merged table
    whose input tables have distinct labels, a column other than "Bodega"
    holds, block after block in dict order, the cells that column had in
    each table before the call, and NaN on the rows of a table that lacks
    the column.  A cell is carried over as it is, except that an integer
    may arrive as the float nearest to it.  This is for columns of
    numbers and texts, not of dates. *)
Theorem merged_cells_carried (d : list (string * ref)) (h : gmap ref DataFrame)
    (c : string) (merged_df : DataFrame) :
  (merge_inventories d h).2 = Returned (Some merged_df) →
  (∀ t, t ∈ tables_of d h → NoDup (columns t)) →
  c ≠ "Bodega" →
  (∃ t, t ∈ tables_of d h ∧ c ∈ columns t) →
  Forall plain (tables_of d h ≫= column_or_NaN c) →
  ∃ cells,
    get_column merged_df c = Some cells ∧
    Forall2 carried (tables_of d h ≫= column_or_NaN c) cells.
Proof.
  intros Hm Hnd Hne Hc _. eexists. split; [by apply merged_column|].
  rewrite <- bind_block_cells. apply stack_carried.
Qed.

Lemma merged_cells_carried_witness :
  ∃ merged_df cells,
    (merge_inventories sample_dict sample_store).2 = Returned (Some merged_df) ∧
    get_column merged_df "CODIGO WMS" = Some cells ∧
    Forall2 carried [VInt 401; VStr "007"; VInt 7; VInt 8; VInt 9] cells.
Proof.
  destruct sample_merge_returns as [m Hm]. exists m.
  assert (Hnd : ∀ t, t ∈ tables_of sample_dict sample_store → NoDup (columns t)).
  { intros t Ht. apply list_elem_of_omap in Ht as (r & Hr & Hlook).
    destruct (sample_tables_distinct_labels r Hr) as (t' & Ht' & Hd). congruence. }
  assert (Hne : "CODIGO WMS" ≠ "Bodega") by done.
  assert (Hc : ∃ t, t ∈ tables_of sample_dict sample_store ∧ "CODIGO WMS" ∈ columns t).
  { exists sample_opl. split; [left|repeat constructor]. }
  assert (Hplain : Forall plain (tables_of sample_dict sample_store
                                   ≫= column_or_NaN "CODIGO WMS"))
    by (repeat constructor).
  destruct (merged_cells_carried sample_dict sample_store "CODIGO WMS" m Hm Hnd Hne Hc Hplain)
    as (cells & Hcells & Hcarried).
  exists cells. split; [done|]. split; [done|exact Hcarried].
Defined.

Lemma forallb_common_float64 blocks :
  Forall (λ b, match b with
               | Cells vs => dtype_of vs = int64
               | Missing _ => True
               end) blocks →
  Exists (λ b, match b with Cells _ => False | Missing _ => True end) blocks →
  common_dtype blocks = float64.
Proof.
  intros Hall Hex. unfold common_dtype.
  match goal with
  | |- (if ?a then _ else if ?b then _ else _) = _ =>
      assert (E1 : a = false); [|assert (E2 : b = true); [|by rewrite E1, E2]]
  end.
  - apply not_true_is_false. intros E1.
    apply Exists_exists in Hex as (b & Hb & Hmiss).
    rewrite forallb_forall in E1. apply list_elem_of_In in Hb.
    specialize (E1 b Hb). by destruct b.
  - apply forallb_forall. intros b Hb. apply list_elem_of_In in Hb.
    rewrite Forall_forall in Hall. specialize (Hall b Hb). destruct b; [|done].
    apply bool_decide_eq_true_2. by rewrite Hall.
Qed.

Lemma dtype_of_int64 vs :
  vs ≠ [] → Forall (λ v, is_int64 v = true) vs → dtype_of vs = int64.
Proof.
  intros Hne Hall. destruct vs as [|v vs]; [done|]. unfold dtype_of.
  assert (H : forallb is_int64 (v :: vs) = true); [|by rewrite H].
  apply forallb_forall. intros x Hx. apply list_elem_of_In in Hx.
  by eapply Forall_forall in Hall.
Qed.

(** X19: a column of integers becomes a column of floats when a warehouse
    lacks it.  If the column holds only integers (of 64 bits) in every
    table that has it, and some table with rows has no such column, then
    in the merged table every one of these integers has become the float
    nearest to it (10 is 10.0, 2^53 + 1 is 9007199254740992.0) and the
    rows of the tables without the column hold NaN. *)
Theorem merged_ints_become_floats (d : list (string * ref)) (h : gmap ref DataFrame)
    (c : string) (merged_df : DataFrame) :
  (merge_inventories d h).2 = Returned (Some merged_df) →
  (∀ t, t ∈ tables_of d h → NoDup (columns t) ∧ 0 < nrows t) →
  c ≠ "Bodega" →
  (∀ t cells, t ∈ tables_of d h → get_column t c = Some cells →
              cells ≠ [] ∧ Forall (λ v, is_int64 v = true) cells) →
  (∃ t, t ∈ tables_of d h ∧ c ∈ columns t) →
  (∃ t, t ∈ tables_of d h ∧ c ∉ columns t) →
  get_column merged_df c
  = Some (astype float64 <$> (tables_of d h ≫= column_or_NaN c)).
Proof.
  intros Hm Hnd Hne Hint Hc (t0 & Ht0 & Hc0).
  rewrite (merged_column d h c merged_df Hm) by (done || (intros t Ht; by apply Hnd)).
  unfold stack. rewrite bind_block_cells.
  assert (Hd : common_dtype (block_of c <$> tables_of d h) = float64);
    [|by rewrite Hd].
  apply forallb_common_float64.
  - apply Forall_fmap, Forall_forall. intros t Ht. cbn. unfold block_of.
    destruct (get_column t c) as [cells|] eqn:E; [|done].
    destruct (Hint t cells Ht E). by apply dtype_of_int64.
  - apply Exists_fmap, Exists_exists. exists t0. split; [done|]. cbn. unfold block_of.
    destruct (get_column t0 c) as [cells|] eqn:E; [|done].
    apply Hc0. unfold get_column in E. unfold columns.
    destruct (decide (c ∈ (data t0).*1)) as [?|Hn]; [done|].
    apply lookup_column_None in Hn. congruence.
Qed.

Lemma merged_ints_become_floats_witness :
  ∃ merged_df,
    (merge_inventories sample_dict sample_store).2 = Returned (Some merged_df) ∧
    get_column merged_df "SALDO"
    = Some [NaN; NaN; VOther true "10.0"; VOther false "0.0"; VOther true "3.0"].
Proof.
  destruct sample_merge_returns as [m Hm]. exists m. split; [done|].
  rewrite (merged_ints_become_floats sample_dict sample_store "SALDO" m Hm).
  - by vm_compute.
  - intros t Ht. rewrite sample_tables, !elem_of_cons, elem_of_nil in Ht.
    destruct Ht as [->|[->|[]]]; (split; [apply (bool_decide_unpack _); by vm_compute|]);
      vm_compute; lia.
  - done.
  - intros t cells Ht Hcol. rewrite sample_tables, !elem_of_cons, elem_of_nil in Ht.
    destruct Ht as [->|[->|[]]]; [discriminate|]. injection Hcol as <-.
    split; [done|]. by repeat constructor.
  - exists sample_mobu. rewrite sample_tables. split; [right; left|repeat constructor].
  - exists sample_opl. rewrite sample_tables. split; [left|].
    apply (bool_decide_unpack _). by vm_compute.
Defined.

Lemma dtype_of_str cells s : VStr s ∈ cells → dtype_of cells = object.
Proof.
  intros Hin. destruct cells as [|v vs]; [done|]. unfold dtype_of.
  assert (H1 : forallb is_int64 (v :: vs) = false).
  { apply not_true_is_false. intros H. rewrite forallb_forall in H.
    apply list_elem_of_In in Hin. by specialize (H _ Hin). }
  assert (H2 : forallb is_float64 (v :: vs) = false).
  { apply not_true_is_false. intros H. rewrite forallb_forall in H.
    apply list_elem_of_In in Hin. by specialize (H _ Hin). }
  by rewrite H1, H2.
Qed.

Lemma common_dtype_object blocks vs :
  Cells vs ∈ blocks → dtype_of vs = object → common_dtype blocks = object.
Proof.
  intros Hin Hd. unfold common_dtype.
  match goal with
  | |- (if ?a then _ else if ?b then _ else _) = _ =>
      assert (E1 : a = false); [|assert (E2 : b = false); [|by rewrite E1, E2]]
  end.
  - apply not_true_is_false. intros E. rewrite forallb_forall in E.
    apply list_elem_of_In in Hin. specialize (E _ Hin). cbn in E.
    apply bool_decide_eq_true_1 in E. congruence.
  - apply not_true_is_false. intros E. rewrite forallb_forall in E.
    apply list_elem_of_In in Hin. specialize (E _ Hin). cbn in E.
    by apply bool_decide_eq_true_1 in E.
Qed.

(** X20: a column that holds a text somewhere is carried over unchanged.
    In a merged table whose input tables have distinct labels, a column
    other than "Bodega" in which some table holds a string has exactly the
    cells the tables had, block after block in dict order, with NaN on
    the rows of a table that lacks the column: no integer of such a column
    is turned into a float. *)
Theorem merged_text_column_unchanged (d : list (string * ref)) (h : gmap ref DataFrame)
    (c : string) (merged_df : DataFrame) :
  (merge_inventories d h).2 = Returned (Some merged_df) →
  (∀ t, t ∈ tables_of d h → NoDup (columns t)) →
  c ≠ "Bodega" →
  (∃ t cells s, t ∈ tables_of d h ∧ get_column t c = Some cells ∧ VStr s ∈ cells) →
  get_column merged_df c = Some (tables_of d h ≫= column_or_NaN c).
Proof.
  intros Hm Hnd Hne (t & cells & s & Ht & Hcol & Hs).
  rewrite (merged_column d h c merged_df Hm Hnd Hne).
  - rewrite stack_not_float64; [by rewrite bind_block_cells|].
    rewrite (common_dtype_object _ cells); [done| |by eapply dtype_of_str].
    apply list_elem_of_fmap. exists t. split; [|done]. unfold block_of. by rewrite Hcol.
  - exists t. split; [done|]. unfold columns, get_column in *.
    destruct (decide (c ∈ (data t).*1)) as [?|Hn]; [done|].
    apply lookup_column_None in Hn. congruence.
Qed.

Lemma merged_text_column_unchanged_witness :
  ∃ merged_df,
    (merge_inventories sample_dict sample_store).2 = Returned (Some merged_df) ∧
    get_column merged_df "CODIGO WMS"
    = Some [VInt 401; VStr "007"; VInt 7; VInt 8; VInt 9].
Proof.
  destruct sample_merge_returns as [m Hm]. exists m. split; [done|].
  assert (Hnd : ∀ t, t ∈ tables_of sample_dict sample_store → NoDup (columns t)).
  { intros t Ht. rewrite sample_tables, !elem_of_cons, elem_of_nil in Ht.
    destruct Ht as [->|[->|[]]]; apply (bool_decide_unpack _); by vm_compute. }
  rewrite (merged_text_column_unchanged sample_dict sample_store "CODIGO WMS" m Hm Hnd);
    [done|done|].
  exists sample_opl, [VInt 401; VStr "007"], "007". rewrite sample_tables.
  split; [left|]. split; [done|]. right. left.
Defined.

Lemma tagged_store_entry d h w r :
  NoDup d.*2 → (w, r) ∈ d → tagged_store d h !! r = tag w <$> h !! r.
Proof.
  intros Hnd Hin. apply list_elem_of_split in Hin as (pre & post & ->).
  apply tagged_store_last. rewrite fmap_app, fmap_cons in Hnd.
  apply NoDup_app in Hnd as (_ & _ & Hnd). by apply NoDup_cons in Hnd as [? _].
Qed.

Lemma bodega_cells d h (l : list (string * ref)) :
  (∀ w r, (w, r) ∈ l → tagged_store d h !! r = tag w <$> h !! r) →
  (block_of "Bodega" <$> omap (λ r : ref, tagged_store d h !! r) l.*2) ≫= block_cells
  = l ≫= bodega_block h.
Proof.
  induction l as [|[w r] l IH]; intros Hl; [done|].
  assert (IH' := IH (λ w' r' H, Hl w' r' (list_elem_of_further _ _ _ H))).
  change (((w, r) :: l) ≫= bodega_block h)
    with (bodega_block h (w, r) ++ (l ≫= bodega_block h)).
  rewrite <- IH'. unfold bodega_block. cbn [fmap list_fmap omap list_omap fst snd].
  rewrite (Hl w r) by left.
  destruct (h !! r) as [t|]; cbn; [|done].
  by rewrite block_of_setitem.
Qed.

(** X9: in a merged table whose input tables have distinct labels, when
    no table is named by two entries, the "Bodega" column is made of one
    block per entry, in dict order, each as long as the entry's table and
    holding the entry's label: "Bodega OPL", "Bodega E" or "Bodegas MOBU"
    for a key that upper-cases to OPL, E or MOBU, and the key itself for
    any other key. *)
Theorem merged_bodega_blocks (d : list (string * ref)) (h : gmap ref DataFrame)
    (merged_df : DataFrame) :
  (merge_inventories d h).2 = Returned (Some merged_df) →
  NoDup d.*2 →
  (∀ t, t ∈ tables_of d h → NoDup (columns t)) →
  get_column merged_df "Bodega" = Some (d ≫= bodega_block h) ∧
  (∀ warehouse,
     bodega_label warehouse
     = if bool_decide (PyStr.upper warehouse ∈ warehouses)
       then bodega_label (PyStr.upper warehouse) else warehouse).
Proof.
  intros Hm Hnd Hcols. split.
  - apply merge_inventories_Returned in Hm.
    pose proof (tagged_frames_dict d h) as Htag.
    rewrite (get_column_concat _ _ _ (tables_NoDup_tagged d h Hcols) Hm).
    rewrite bool_decide_eq_true_2.
    + f_equal. rewrite stack_no_int.
      * apply bodega_cells. intros; by apply tagged_store_entry.
      * rewrite (bodega_cells d h d) by (intros; by apply tagged_store_entry).
        apply Forall_forall. intros v Hv z ->.
        apply list_elem_of_bind in Hv as (item & Hv & _). unfold bodega_block in Hv.
        destruct (h !! item.2); [|by apply elem_of_nil in Hv].
        by apply elem_of_replicate in Hv as [? _].
    + apply elem_of_union_columns, (tagged_columns _ _ _ _ Htag).
      destruct (concat_Returned _ _ Hm) as (Hne & _).
      destruct (tables_of d h) as [|t ts] eqn:Hts.
      * apply Forall2_nil_inv_l in Htag. done.
      * exists t. split; [left|by right].
  - intros warehouse. unfold bodega_label, warehouses. rewrite upper_idemp.
    destruct (String.eqb_spec (PyStr.upper warehouse) "OPL") as [H1|H1].
    { rewrite bool_decide_eq_true_2; [done|]. rewrite H1. left. }
    destruct (String.eqb_spec (PyStr.upper warehouse) "E") as [H2|H2].
    { rewrite bool_decide_eq_true_2; [done|]. rewrite H2. right. left. }
    destruct (String.eqb_spec (PyStr.upper warehouse) "MOBU") as [H3|H3].
    { rewrite bool_decide_eq_true_2; [done|]. rewrite H3. right. right. left. }
    rewrite bool_decide_eq_false_2; [done|].
    rewrite !elem_of_cons, elem_of_nil. tauto.
Qed.

Lemma merged_bodega_blocks_witness :
  ∃ merged_df,
    (merge_inventories [("mobu", 1); ("Planta", 0)] sample_store).2
      = Returned (Some merged_df) ∧
    get_column merged_df "Bodega"
    = Some [VStr "Bodegas MOBU"; VStr "Bodegas MOBU"; VStr "Bodegas MOBU";
            VStr "Planta"; VStr "Planta"].
Proof.
  assert (Hm : ∃ m, (merge_inventories [("mobu", 1); ("Planta", 0)] sample_store).2
                    = Returned (Some m)) by (eexists; by vm_compute).
  destruct Hm as [m Hm]. exists m. split; [done|].
  assert (H1 : NoDup [("mobu", 1); ("Planta", 0)].*2).
  { cbn. apply NoDup_cons. split; [|apply NoDup_singleton].
    intros H. apply list_elem_of_singleton in H. lia. }
  assert (H2 : ∀ t, t ∈ tables_of [("mobu", 1); ("Planta", 0)] sample_store
                    → NoDup (columns t)).
  { intros t Ht.
    change (tables_of [("mobu", 1); ("Planta", 0)] sample_store)
      with [sample_mobu; sample_opl] in Ht.
    rewrite !elem_of_cons, elem_of_nil in Ht.
    destruct Ht as [->|[->|[]]]; apply (bool_decide_unpack _); by vm_compute. }
  exact (proj1 (merged_bodega_blocks _ sample_store m Hm H1 H2)).
Defined.

(** *** The formatter: fonts, alignment, widths, and a second run *)

Lemma elem_of_row_cells ws k (r c : nat) :
  (r, c) ∈ row_cells ws k ↔ r = k ∧ 1 ≤ c ≤ max_column ws.
Proof.
  unfold row_cells. rewrite list_elem_of_fmap. split.
  - intros (x & [= -> ->] & Hx). apply elem_of_seq in Hx. lia.
  - intros [-> Hc]. exists c. split; [done|]. apply elem_of_seq. lia.
Qed.

Lemma NoDup_row_cells ws k : NoDup (row_cells ws k).
Proof.
  unfold row_cells.
  assert (Inj (=) (=) (λ c : nat, (k, c))) by (intros x y ?; by simplify_eq).
  apply NoDup_fmap_2; [done|apply NoDup_seq].
Qed.

Lemma elem_of_iter_rows ws (r c : nat) :
  (r, c) ∈ iter_rows ws ↔ 1 ≤ r ≤ max_row ws ∧ 1 ≤ c ≤ max_column ws.
Proof.
  unfold iter_rows. rewrite list_elem_of_bind. split.
  - intros (k & Hin & Hk). apply elem_of_row_cells in Hin as [-> Hc].
    apply elem_of_seq in Hk. lia.
  - intros [Hr Hc]. exists r. split; [by apply elem_of_row_cells|].
    apply elem_of_seq. lia.
Qed.

Lemma NoDup_iter_rows ws : NoDup (iter_rows ws).
Proof.
  unfold iter_rows. apply NoDup_bind; [| |apply NoDup_seq].
  - intros k1 k2 [r c] _ _ H1 H2. apply elem_of_row_cells in H1 as [-> _].
    by apply elem_of_row_cells in H2 as [-> _].
  - intros k _. apply NoDup_row_cells.
Qed.

Lemma color_bodega_column_preserves {X} (attr : Cell → X) bodega_col ws r c :
  (∀ x, attr (color_bodega_cell x) = attr x) →
  attr (cell (color_bodega_column bodega_col ws) r c) = attr (cell ws r c).
Proof.
  intros H. destruct bodega_col; cbn [color_bodega_column]; [|done].
  by apply for_cells_preserves.
Qed.

Lemma stringify_codigo_wms_preserves {X} (attr : Cell → X) codigo_wms_col ws r c :
  (∀ x, attr (stringify_cell x) = attr x) →
  attr (cell (stringify_codigo_wms codigo_wms_col ws) r c) = attr (cell ws r c).
Proof.
  intros H. destruct codigo_wms_col; cbn [stringify_codigo_wms]; [|done].
  by apply for_cells_preserves.
Qed.

Lemma color_bodega_cell_style x :
  font (color_bodega_cell x) = font x ∧ alignment (color_bodega_cell x) = alignment x.
Proof. unfold color_bodega_cell. by repeat case_match. Qed.

Lemma stringify_cell_style x :
  font (stringify_cell x) = font x ∧ alignment (stringify_cell x) = alignment x.
Proof. unfold stringify_cell. by case_match. Qed.

Lemma format_excel_file_fonts (ws : Worksheet) (r c : nat) :
  font (cell (format_excel_file ws) r c)
  = (if bool_decide (r = 1 ∧ 1 ≤ c ≤ max_column ws) then header_font
     else if bool_decide (1 ≤ r ≤ max_row ws ∧ 1 ≤ c ≤ max_column ws) then minimal_font
     else font (cell ws r c)) ∧
  alignment (cell (format_excel_file ws) r c)
  = (if bool_decide (r = 1 ∧ 1 ≤ c ≤ max_column ws)
     then Some (mkAlignment "center" "center")
     else alignment (cell ws r c)).
Proof.
  unfold format_excel_file.
  destruct (find_columns _) as [bodega_col codigo_wms_col].
  rewrite !(stringify_codigo_wms_preserves font), !(stringify_codigo_wms_preserves alignment)
    by apply stringify_cell_style.
  rewrite !(color_bodega_column_preserves font), !(color_bodega_column_preserves alignment)
    by apply color_bodega_cell_style.
  destruct (format_header_row_spec ws) as (Hr1 & Hc1 & _ & _).
  destruct (adjust_column_widths_spec (format_header_row ws)) as (Hr2 & Hc2 & Hcell2 & _).
  set (ws2 := adjust_column_widths (format_header_row ws)) in *.
  unfold apply_minimal_font.
  set (ws3 := for_cells (iter_rows ws2) (set_font minimal_font) ws2).
  destruct (for_cells_dims (iter_rows ws2) (set_font minimal_font) ws2) as (Hr3 & Hc3 & _).
  fold ws3 in Hr3, Hc3.
  assert (H1 : cell (format_header_row ws) r c
               = if bool_decide (r = 1 ∧ 1 ≤ c ≤ max_column ws)
                 then set_alignment (mkAlignment "center" "center")
                        (set_font header_font (cell ws r c))
                 else cell ws r c).
  { unfold format_header_row. rewrite cell_for_cells by apply NoDup_row_cells.
    by rewrite (bool_decide_ext _ _ (elem_of_row_cells ws 1 r c)). }
  assert (H3 : cell ws3 r c
               = if bool_decide (1 ≤ r ≤ max_row ws ∧ 1 ≤ c ≤ max_column ws)
                 then set_font minimal_font (cell (format_header_row ws) r c)
                 else cell (format_header_row ws) r c).
  { unfold ws3. rewrite cell_for_cells by apply NoDup_iter_rows. rewrite Hcell2.
    rewrite (bool_decide_ext (_ ∈ iter_rows ws2)
               (1 ≤ r ≤ max_row ws ∧ 1 ≤ c ≤ max_column ws)); [done|].
    rewrite elem_of_iter_rows. by rewrite Hr2, Hc2, Hr1, Hc1. }
  rewrite cell_for_cells by apply NoDup_row_cells.
  rewrite (bool_decide_ext (_ ∈ row_cells ws3 1) (r = 1 ∧ 1 ≤ c ≤ max_column ws))
    by (rewrite elem_of_row_cells; by rewrite Hc3, Hc2, Hc1).
  rewrite H3, H1.
  repeat case_bool_decide; done.
Qed.

(** X10: after formatting, the cells of row 1 inside the sheet are bold
    Calibri and centred both ways, every other cell inside the sheet is
    plain Calibri with its alignment untouched, and cells outside the
    sheet keep font and alignment: the bold of the header survives the
    pass that resets every font. *)
Theorem format_excel_file_style (ws : Worksheet) :
  ∀ r c,
    font (cell (format_excel_file ws) r c)
    = (if bool_decide (r = 1 ∧ 1 ≤ c ≤ max_column ws) then header_font
       else if bool_decide (1 ≤ r ≤ max_row ws ∧ 1 ≤ c ≤ max_column ws) then minimal_font
       else font (cell ws r c)) ∧
    alignment (cell (format_excel_file ws) r c)
    = (if bool_decide (r = 1 ∧ 1 ≤ c ≤ max_column ws)
       then Some (mkAlignment "center" "center")
       else alignment (cell ws r c)).
Proof. intros r c. apply format_excel_file_fonts. Qed.


Lemma max_list_attained (l : list nat) : max_list l = 0 ∨ max_list l ∈ l.
Proof.
  destruct l as [|y l]; [by left|]. right. by apply max_list_elem_of.
Qed.

(** X11: formatting keeps the sheet's dimensions and gives every column of
    the sheet a width that is at least 2 and at least 2 more than the text
    of each truthy cell of the column, header included, with equality for
    the longest of them; widths of columns outside the sheet are not
    touched. *)
Theorem format_excel_file_width_fits (ws : Worksheet) :
  max_row (format_excel_file ws) = max_row ws ∧
  max_column (format_excel_file ws) = max_column ws ∧
  (∀ col, ¬ (1 ≤ col ≤ max_column ws) →
     column_width (format_excel_file ws) col = column_width ws col) ∧
  (∀ col, 1 ≤ col ≤ max_column ws →
     ∃ width,
       column_width (format_excel_file ws) col = Some width ∧
       2 ≤ width ∧
       (∀ row, 1 ≤ row ≤ max_row ws →
          PyVal.truthy (value (cell ws row col)) = true →
          String.length (PyVal.str (value (cell ws row col))) + 2 ≤ width) ∧
       (width = 2 ∨
        ∃ row, 1 ≤ row ≤ max_row ws ∧
               PyVal.truthy (value (cell ws row col)) = true ∧
               width = String.length (PyVal.str (value (cell ws row col))) + 2)).
Proof.
  destruct (format_excel_file_dims ws) as (Hr & Hc & Hw).
  split; [done|]. split; [done|]. split.
  - intros col Hcol. rewrite Hw, bool_decide_eq_false_2; [done|].
    rewrite elem_of_seq. lia.
  - intros col Hcol. rewrite Hw, bool_decide_eq_true_2 by (rewrite elem_of_seq; lia).
    eexists. split; [done|]. split; [lia|]. rewrite column_max_length_truthy.
    set (len := λ row, String.length (PyVal.str (value (cell ws row col)))).
    set (rows := filter _ _). split.
    + intros row Hrow Ht. apply Nat.add_le_mono_r, max_list_elem_of_le.
      apply list_elem_of_fmap. exists row. split; [done|].
      apply list_elem_of_filter. split; [done|]. apply elem_of_seq. lia.
    + destruct (max_list_attained (len <$> rows)) as [H0|Hin]; [left; lia|].
      right. apply list_elem_of_fmap in Hin as (row & Heq & Hin).
      apply list_elem_of_filter in Hin as [Ht Hseq]. apply elem_of_seq in Hseq.
      exists row. split; [lia|]. split; [done|]. by rewrite Heq.
Qed.

Lemma format_excel_file_width_fits_witness :
  1 ≤ 3 ≤ max_column sample_sheet ∧
  column_width (format_excel_file sample_sheet) 3 = Some 14 ∧
  column_width (format_excel_file sample_sheet) 4 = None.
Proof.
  assert (H : 1 ≤ 3 ≤ max_column sample_sheet) by (vm_compute; lia).
  destruct (format_excel_file_width_fits sample_sheet) as (_ & _ & Hout & Hin).
  split; [exact H|]. split; [reflexivity|].
  exact (Hout 4 ltac:(vm_compute; lia)).
Defined.

Lemma header_format_excel_file ws c : header (format_excel_file ws) c = header ws c.
Proof.
  unfold header. rewrite (proj2 (format_excel_file_cells ws 1 c)).
  rewrite bool_decide_eq_false_2; [done|]. rewrite elem_of_data_rows. lia.
Qed.

Lemma find_columns_format_excel_file ws :
  find_columns (format_excel_file ws) = find_columns ws.
Proof.
  apply find_columns_ext; [apply format_excel_file_dims|apply header_format_excel_file].
Qed.

Lemma data_rows_format_excel_file ws : data_rows (format_excel_file ws) = data_rows ws.
Proof. unfold data_rows. by rewrite (proj1 (format_excel_file_dims ws)). Qed.

Lemma located_columns_differ ws c :
  (find_columns ws).1 = Some c → (find_columns ws).2 = Some c → False.
Proof.
  rewrite find_columns_last_match. cbn [fst snd]. intros H1 H2.
  apply located_column in H1 as (_ & H1 & _). apply located_column in H2 as (_ & H2 & _).
  congruence.
Qed.

Lemma stringify_cell_value_idemp x x' :
  value x' = value (stringify_cell x) → value (stringify_cell x') = value x'.
Proof.
  unfold stringify_cell. intros H.
  destruct (value x) eqn:E; cbn in H; rewrite ?E in H; by rewrite H.
Qed.

Lemma color_bodega_cell_fill_idemp x x' :
  value x' = value x → fill x' = fill (color_bodega_cell x) →
  fill (color_bodega_cell x') = fill x'.
Proof.
  unfold color_bodega_cell in *. intros Hv Hf. rewrite Hv.
  repeat case_match; cbn in *; done.
Qed.

Lemma cell_ext (x y : Cell) :
  value x = value y → font x = font y → alignment x = alignment y → fill x = fill y →
  x = y.
Proof. destruct x, y. cbn. by intros -> -> -> ->. Qed.

(** X12: formatting a sheet that is already formatted changes no cell:
    values, fills, fonts and alignments are those of the first run, the
    located "Bodega" and "CODIGO WMS" columns and the dimensions too. *)
Theorem format_excel_file_twice (ws : Worksheet) :
  (∀ r c, cell (format_excel_file (format_excel_file ws)) r c
          = cell (format_excel_file ws) r c) ∧
  find_columns (format_excel_file ws) = find_columns ws ∧
  max_row (format_excel_file (format_excel_file ws)) = max_row ws ∧
  max_column (format_excel_file (format_excel_file ws)) = max_column ws.
Proof.
  destruct (format_excel_file_dims ws) as (Hr & Hc & _).
  destruct (format_excel_file_dims (format_excel_file ws)) as (Hr' & Hc' & _).
  split; [|split; [apply find_columns_format_excel_file|split; congruence]].
  intros r c. apply cell_ext.
  - rewrite (proj2 (format_excel_file_cells (format_excel_file ws) r c)).
    rewrite find_columns_format_excel_file, data_rows_format_excel_file.
    case_bool_decide as Hin; [|done]. apply (stringify_cell_value_idemp (cell ws r c)).
    rewrite (proj2 (format_excel_file_cells ws r c)). by rewrite bool_decide_eq_true_2.
  - rewrite (proj1 (format_excel_file_fonts (format_excel_file ws) r c)).
    rewrite (proj1 (format_excel_file_fonts ws r c)), Hr, Hc.
    by repeat case_bool_decide.
  - rewrite (proj2 (format_excel_file_fonts (format_excel_file ws) r c)).
    rewrite (proj2 (format_excel_file_fonts ws r c)), Hc.
    by repeat case_bool_decide.
  - rewrite (proj1 (format_excel_file_cells (format_excel_file ws) r c)).
    rewrite find_columns_format_excel_file, data_rows_format_excel_file.
    case_bool_decide as Hin; [|done]. destruct Hin as [Hcol Hrow].
    apply (color_bodega_cell_fill_idemp (cell ws r c)).
    + rewrite (proj2 (format_excel_file_cells ws r c)).
      rewrite bool_decide_eq_false_2; [done|].
      intros [Hcol' _]. by apply (located_columns_differ ws c).
    + rewrite (proj1 (format_excel_file_cells ws r c)). by rewrite bool_decide_eq_true_2.
Qed.

(** The widths are another matter: the second run measures the strings the
    first run wrote, and a falsy value it skipped may now count. *)
Example format_excel_file_twice_can_widen :
  let ws := sheet_of_rows [[VStr "CODIGO WMS"]; [VOther false "0.000000000000"]] in
  column_width (format_excel_file ws) 1 = Some 12 ∧
  column_width (format_excel_file (format_excel_file ws)) 1 = Some 16.
Proof. by vm_compute. Qed.

(** *** The entry point *)

Lemma rstrip_all_space r : PyText.all_space r = true → PyText.rstrip r = "".
Proof.
  induction r as [|c r IH]; [done|]. cbn. intros [Hc Hr]%andb_true_iff.
  by rewrite IH, Hc.
Qed.

Lemma lstrip_all_space r : PyText.all_space r = true → PyText.lstrip r = "".
Proof.
  induction r as [|c r IH]; [done|]. cbn. intros [Hc Hr]%andb_true_iff.
  rewrite Hc. by apply IH.
Qed.

Lemma lstrip_app_l l s :
  PyText.all_space l = true → PyText.lstrip (l +:+ s) = PyText.lstrip s.
Proof.
  induction l as [|c l IH]; [done|]. rewrite string_app_cons. cbn.
  intros [Hc Hl]%andb_true_iff. rewrite Hc. by apply IH.
Qed.

Lemma rstrip_app_r s r :
  PyText.all_space r = true → PyText.rstrip (s +:+ r) = PyText.rstrip s.
Proof.
  intros Hr. induction s as [|c s IH]; [by apply rstrip_all_space|].
  rewrite string_app_cons. cbn. by rewrite IH.
Qed.

Lemma lstrip_app_r s r :
  PyText.lstrip (s +:+ r)
  = match PyText.lstrip s with
    | EmptyString => PyText.lstrip r
    | String c s' => String c s' +:+ r
    end.
Proof.
  induction s as [|c s IH]; [done|].
  rewrite string_app_cons. cbn. destruct (PyText.isspace c); [apply IH|done].
Qed.

Lemma strip_padding l s r :
  PyText.all_space l = true → PyText.all_space r = true →
  PyText.strip (l +:+ s +:+ r) = PyText.strip s.
Proof.
  intros Hl Hr. unfold PyText.strip. rewrite lstrip_app_l, lstrip_app_r by done.
  destruct (PyText.lstrip s) as [|c s'].
  - by rewrite lstrip_all_space.
  - by rewrite rstrip_app_r.
Qed.

(** X13: [main] reads the choice through [strip]: whitespace typed before
    or after it (the newline of a pasted line, blanks) changes nothing of
    what the run does. *)
Theorem main_ignores_padding (w : world) (l typed r today : string)
    (head : DataFrame → string) (write : string → DataFrame → outcome unit)
    (load : string → outcome Worksheet) (save : string → Worksheet → outcome unit) :
  PyText.all_space l = true → PyText.all_space r = true →
  main (Session w (Returned (l +:+ typed +:+ r)) today head write load save)
  = main (Session w (Returned typed) today head write load save).
Proof.
  intros Hl Hr. unfold main. cbn [stdin_line Run.call Run.bind Run.print Run.emit].
  by rewrite (strip_padding l typed r Hl Hr).
Qed.

Lemma main_ignores_padding_witness :
  PyText.all_space " " = true ∧ PyText.all_space (" " +:+ nl) = true ∧
  main (sample_session (" " +:+ "2" +:+ " " +:+ nl)) = main (sample_session "2").
Proof.
  assert (H1 : PyText.all_space " " = true) by reflexivity.
  assert (H2 : PyText.all_space (" " +:+ nl) = true) by reflexivity.
  split; [exact H1|]. split; [exact H2|].
  exact (main_ignores_padding sample_world " " "2" (" " +:+ nl) "20250314"
           (λ _, "<preview>") (λ _ _, Returned tt) (λ _, Returned sample_sheet)
           (λ _ _, Returned tt) H1 H2).
Defined.

(** X14: a choice that, stripped, is not 1, 2 or 3 ends the run after the
    banner, the prompt and the one line of refusal: the collector is not
    started and nothing is written.  If [input] raises (end of input), the
    exception leaves [main] right after the prompt. *)
Theorem main_invalid_choice (s : session) :
  (∀ typed,
     stdin_line s = Returned typed →
     PyText.strip typed ∉ ["1"; "2"; "3"] →
     main s = (banner ++ [Print invalid_choice_message], Returned tt)) ∧
  (∀ e, stdin_line s = Raised e → main s = (banner, Raised e)).
Proof.
  split.
  - intros typed Hin Hbad. unfold main. rewrite Hin.
    cbn [Run.call Run.bind Run.print Run.emit].
    assert (Hnone : mapping !! PyText.strip typed = None)
      by (by apply not_elem_of_list_to_map_1).
    by rewrite Hnone.
  - intros e Hin. unfold main. by rewrite Hin.
Qed.

Lemma main_invalid_choice_witness :
  stdin_line (sample_session "9") = Returned "9" ∧
(PyText.strip "9" ∉ ["1"; "2"; "3"]) ∧
  main (sample_session "9") = (banner ++ [Print invalid_choice_message], Returned tt).
Proof.
  assert (H1 : stdin_line (sample_session "9") = Returned "9") by reflexivity.
  assert (H2 : PyText.strip "9" ∉ ["1"; "2"; "3"]).
  { rewrite !not_elem_of_cons. repeat split; try discriminate. apply not_elem_of_nil. }
  exact (conj H1 (conj H2 (proj1 (main_invalid_choice (sample_session "9")) "9" H1 H2))).
Defined.

Lemma omap_seq_lookup {A B} (l : list A) (g : nat → option B) (F : A → B) :
  (∀ i x, l !! i = Some x → g i = Some (F x)) →
  omap g (seq 0 (length l)) = F <$> l.
Proof.
  induction l as [|x l IH] using rev_ind; intros Hg; [done|].
  rewrite length_app, Nat.add_1_r, seq_S, omap_app, fmap_app. cbn.
  rewrite (Hg (length l) x) by (by rewrite list_lookup_middle).
  rewrite IH; [done|]. intros i y Hi. apply Hg.
  rewrite lookup_app_l; [done|]. by eapply lookup_lt_Some.
Qed.

(** In [main] every table is an object of its own, and the merger gives
    what [pd.concat] gives on the tagged tables: a table or an exception,
    never None. *)
Lemma merge_store_results (results : list (string * DataFrame)) :
  results ≠ [] →
  (merge_inventories (store_results results).2 (store_results results).1).2
  = match merged_of results with
    | Returned merged_df => Returned (Some merged_df)
    | Raised e => Raised e
    end.
Proof.
  intros Hne. unfold store_results. cbn [fst snd].
  remember (map_seq 0 results.*2 : gmap ref DataFrame) as h eqn:Hh.
  remember (zip results.*1 (seq 0 (length results)) : list (string * ref)) as d eqn:Hd.
  assert (Hrefs : d.*2 = (seq 0 (length results) : list ref)).
  { rewrite Hd. apply snd_zip. by rewrite length_seq, length_fmap. }
  assert (Hentry : ∀ i kv, results !! i = Some kv →
            tagged_store d h !! i = Some (setitem "Bodega" (VStr (bodega_label kv.1)) kv.2)).
  { intros i [k t] Hi. etrans; [apply (tagged_store_entry d h k i)|].
    - rewrite Hrefs. apply NoDup_seq.
    - rewrite Hd. apply (list_elem_of_lookup_2 _ i), lookup_zip_Some. split.
      + by rewrite list_lookup_fmap, Hi.
      + apply lookup_seq_lt. by eapply lookup_lt_Some.
    - by rewrite Hh, lookup_map_seq_0, list_lookup_fmap, Hi. }
  assert (Hdfs : omap (λ r : ref, tagged_store d h !! r) d.*2
                 = (λ kv : string * DataFrame,
                      setitem "Bodega" (VStr (bodega_label kv.1)) kv.2) <$> results).
  { rewrite Hrefs. exact (omap_seq_lookup results _ _ Hentry). }
  rewrite merge_inventories_eq. cbn [snd]. rewrite Hdfs.
  destruct results as [|kv results']; [done|]. by rewrite Hd.
Qed.

Lemma mapping_values k inventory_type :
  mapping !! k = Some inventory_type → inventory_type ∈ ["LATA"; "PREFORMA"; "PT"].
Proof.
  intros H. destruct (decide (k ∈ ["1"; "2"; "3"])) as [Hin|Hnin].
  - revert H. rewrite !elem_of_cons, elem_of_nil in Hin.
    destruct Hin as [->|[->|[->|[]]]]; intros [= <-]; repeat constructor.
  - unfold mapping in H. by rewrite (not_elem_of_list_to_map_1 _ k) in H.
Qed.

Lemma for_each_print_keys (keys : list string) :
  Run.for_each (λ (_ : unit) wh, Run.print ("  - " +:+ wh)) tt keys
  = ((λ wh, Print ("  - " +:+ wh)) <$> keys, Returned tt).
Proof.
  induction keys as [|k keys IH]; [done|]. cbn. by rewrite IH.
Qed.

(** [main] from the prompt to the merged preview, for an accepted choice,
    a collector that returned at least one table and a merger that
    returned the merged table; what follows is the saving part as the source
    has it. *)
Lemma main_progress s typed inventory_type log results merged_df :
  stdin_line s = Returned typed →
  mapping !! PyText.strip typed = Some inventory_type →
  process_inventory (sys s) inventory_type = (log, Returned results) →
  results ≠ [] →
  merged_of results = Returned merged_df →
  main s
  = Run.bind (progress s inventory_type log results merged_df, Returned tt) (λ _,
      let output_path := get_base_output_path (plat (sys s)) in
      if PyVal.not_name output_path then
        Run.print "Output path not defined; merged inventory not saved to disk."
      else
        let output_file := output_file_of s inventory_type (default "" output_path) in
        Run.effect (ToExcel output_file merged_df)
                   (to_excel s output_file merged_df) ;;?
        Run.print ("Merged inventory saved to: " +:+ output_file) ;;?
        format_excel_file_at s output_file ;;?
        Run.print "Excel formatting applied.").
Proof.
  intros Hin Hmap Hproc Hne Hm. unfold main. cbv zeta. rewrite Hin.
  cbn [Run.call Run.bind Run.print Run.emit]. rewrite Hmap.
  assert (Hname : PyVal.not_name (Some inventory_type) = false).
  { apply mapping_values in Hmap. revert Hmap. rewrite !elem_of_cons, elem_of_nil.
    by intros [->|[->|[->|[]]]]. }
  rewrite Hname. cbn [default]. unfold id. rewrite Hproc. unfold Run.of_io. cbn [fst snd Run.bind].
  pose proof (merge_store_results results Hne) as Hmerged. rewrite Hm in Hmerged.
  destruct (store_results results) as [h d]. cbn [fst snd] in Hmerged.
  rewrite Hmerged.
  destruct results as [|kv results']; [done|].
  rewrite for_each_print_keys. cbn [Run.bind].
  unfold progress, collected, banner, output_file_of.
  destruct (PyVal.not_name (get_base_output_path (plat (sys s)))).
  - cbn. by do 4 (rewrite <- ?app_assoc; cbn).
  - destruct (Run.bind _ _) as [tr r]. cbn. by do 4 (rewrite <- ?app_assoc; cbn).
Qed.


Lemma sample_results_merge :
  ∃ merged_df, merged_of sample_results = Returned merged_df.
Proof. eexists. by vm_compute. Qed.





(** X17: [main] writes nothing and returns normally when no table loads
    (it ends on "No inventories were processed.") and when tables load
    and are merged but the machine has no known output directory (it ends,
    after the preview, on "Output path not defined; merged inventory not
    saved to disk."). *)
Theorem main_writes_nothing (s : session) (typed inventory_type : string)
    (log : list string) (results : list (string * DataFrame)) :
  stdin_line s = Returned typed →
  mapping !! PyText.strip typed = Some inventory_type →
  process_inventory (sys s) inventory_type = (log, Returned results) →
  (results = [] →
     main s
     = (banner ++
        [Print (nl +:+ "--- Processing " +:+ inventory_type +:+ " Inventory ---")] ++
        (Print <$> log) ++
        [Print (nl +:+ "Inventory processing complete.");
         Print "No inventories were processed."],
        Returned tt)) ∧
  (results ≠ [] → get_base_output_path (plat (sys s)) = None →
     ∀ merged_df, merged_of results = Returned merged_df →
     main s
     = (progress s inventory_type log results merged_df ++
        [Print "Output path not defined; merged inventory not saved to disk."],
        Returned tt)).
Proof.
  intros Hin Hmap Hproc. split.
  - intros ->. unfold main. cbv zeta. rewrite Hin.
    cbn [Run.call Run.bind Run.print Run.emit]. rewrite Hmap.
    assert (Hname : PyVal.not_name (Some inventory_type) = false).
    { apply mapping_values in Hmap. revert Hmap. rewrite !elem_of_cons, elem_of_nil.
      by intros [->|[->|[->|[]]]]. }
    rewrite Hname. cbn [default]. unfold id. rewrite Hproc. unfold Run.of_io, banner.
    cbn. by rewrite <- ?app_assoc.
  - intros Hne Hout merged_df Hm.
    rewrite (main_progress s typed inventory_type log results merged_df
               Hin Hmap Hproc Hne Hm).
    cbv zeta. by rewrite Hout.
Qed.

Lemma main_writes_nothing_witness :
  stdin_line (sample_session "3") = Returned "3" ∧
  mapping !! PyText.strip "3" = Some "PT" ∧
  main {| sys := sample_world_corrupt; stdin_line := Returned "3"; today_str := "20250314";
          head_text := λ _, ""; to_excel := λ _ _, Returned tt;
          load_workbook := λ _, Returned sample_sheet; wb_save := λ _ _, Returned tt |}
  = (banner ++ [Print (nl +:+ "--- Processing PT Inventory ---")] ++
     (Print <$> (process_inventory sample_world_corrupt "PT").1) ++
     [Print (nl +:+ "Inventory processing complete.");
      Print "No inventories were processed."],
     Returned tt) ∧
  ∃ merged_df,
    merged_of sample_results = Returned merged_df ∧
    main {| sys := sample_world_unknown_host; stdin_line := Returned "1";
            today_str := "20250314"; head_text := λ _, "<preview>";
            to_excel := λ _ _, Returned tt;
            load_workbook := λ _, Returned sample_sheet; wb_save := λ _ _, Returned tt |}
    = (progress (sample_session "1") "LATA"
         (process_inventory sample_world_unknown_host "LATA").1 sample_results merged_df ++
       [Print "Output path not defined; merged inventory not saved to disk."],
       Returned tt).
Proof.
  assert (H1 : stdin_line (sample_session "3") = Returned "3") by reflexivity.
  assert (H2 : mapping !! PyText.strip "3" = Some "PT") by reflexivity.
  assert (H3 : process_inventory sample_world_corrupt "PT"
               = ((process_inventory sample_world_corrupt "PT").1, Returned []))
    by reflexivity.
  split; [exact H1|]. split; [exact H2|]. split.
  - exact (proj1 (main_writes_nothing
             {| sys := sample_world_corrupt; stdin_line := Returned "3";
                today_str := "20250314"; head_text := λ _, "";
                to_excel := λ _ _, Returned tt;
                load_workbook := λ _, Returned sample_sheet;
                wb_save := λ _ _, Returned tt |}
             "3" "PT" _ [] eq_refl H2 H3) eq_refl).
  - destruct sample_results_merge as [m Hm]. exists m. split; [exact Hm|].
    assert (H4 : process_inventory sample_world_unknown_host "LATA"
                 = ((process_inventory sample_world_unknown_host "LATA").1,
                    Returned sample_results)) by reflexivity.
    assert (H5 : sample_results ≠ []) by done.
    exact (proj2 (main_writes_nothing
             {| sys := sample_world_unknown_host; stdin_line := Returned "1";
                today_str := "20250314"; head_text := λ _, "<preview>";
                to_excel := λ _ _, Returned tt;
                load_workbook := λ _, Returned sample_sheet;
                wb_save := λ _ _, Returned tt |}
             "1" "LATA" _ sample_results eq_refl eq_refl H4) H5 eq_refl m Hm).
Defined.

(** X18: for the dict [main] builds, where every loaded table is an object
    of its own, the merger gives what [pd.concat] gives for the loaded
    tables each tagged with the label of its key: the same table or the
    same exception, and never None, so that the "No merged inventory
    produced." branch of [main] is never taken.  When the loaded tables
    have distinct labels, as [pd.read_excel] returns them, it is a table
    with as many rows as they have together. *)
Theorem merge_of_loaded_tables (results : list (string * DataFrame)) :
  results ≠ [] →
  (merge_inventories (store_results results).2 (store_results results).1).2
  = match merged_of results with
    | Returned merged_df => Returned (Some merged_df)
    | Raised e => Raised e
    end ∧
  (merge_inventories (store_results results).2 (store_results results).1).2
  ≠ Returned None ∧
  ((∀ t, t ∈ results.*2 → NoDup (columns t)) →
   ∃ merged_df, merged_of results = Returned merged_df ∧
                nrows merged_df = sum_list (nrows <$> results.*2)).
Proof.
  intros Hne. split; [by apply merge_store_results|]. split.
  - rewrite merge_store_results by done. by destruct (merged_of results).
  - intros Hnd. unfold merged_of.
    set (dfs := (λ kv : string * DataFrame,
                   setitem "Bodega" (VStr (bodega_label kv.1)) kv.2) <$> results).
    assert (Hdfs : dfs ≠ []) by (by destruct results).
    assert (Hall : Forall (λ df, NoDup (columns df)) dfs).
    { apply Forall_fmap, Forall_forall. intros [k t] Hkt. cbn.
      apply NoDup_columns_setitem, Hnd, list_elem_of_fmap. by exists (k, t). }
    rewrite (concat_aligned dfs Hdfs Hall). eexists. split; [done|].
    unfold nrows at 1. cbn [index]. rewrite length_fmap, length_seq. f_equal.
    unfold dfs. rewrite <- !list_fmap_compose. apply list_fmap_ext. intros i [k t] _. cbn.
    apply setitem_nrows.
Qed.

Lemma merge_of_loaded_tables_witness :
  sample_results ≠ [] ∧
  ∃ merged_df,
    (merge_inventories (store_results sample_results).2 (store_results sample_results).1).2
    = Returned (Some merged_df) ∧
    nrows merged_df = 4.
Proof.
  assert (H : sample_results ≠ []) by done.
  destruct (merge_of_loaded_tables sample_results H) as (H1 & _ & H3).
  destruct H3 as (m & Hm & Hrows).
  { intros t Ht. cbn in Ht. rewrite !elem_of_cons, elem_of_nil in Ht.
    destruct Ht as [->|[->|[]]]; apply (bool_decide_unpack _); by vm_compute. }
  split; [done|]. exists m. rewrite H1, Hm. split; [done|exact Hrows].
Defined.
